(** * Prix Goncourt 2025: selection rounds and final vote

    A shallow embedding of the workflow of the application:
    - [models/]    : the dataclasses [Author], [Book], [Selection], [Vote];
    - [daos/]      : [BookDAO], [SelectionDAO], [VoteDAO], over the tables
                     [book], [selection], [book_selection] and [vote];
    - [business/]  : [GoncourtService];
    - [main.py]    : the president's actions: the two that chain a round
                     creation with the creation of the final selection,
                     and the entry of the votes.

    How the database is read:
    - the MySQL database behind [Dao.connection] is a record of tables, each
      a list of rows in insertion order; a SELECT without ORDER BY returns
      its rows in that order, so [fetchone] yields the oldest matching row;
    - ORDER BY is a stable sort, strings compared bytewise, NULL first;
    - all DAOs share one connection, which sees its own statements at once:
      a statement takes effect when it is executed, and nothing is ever
      rolled back (the code never calls [rollback]);
    - every [cursor.execute] and [connection.commit] is a point where
      pymysql may raise; a schedule of faults in the state decides which do.
      The DAOs catch these exceptions exactly where the Python code has
      [try]/[except];
    - [input()] and [date.today()] are arguments of the functions that call
      them, and [print] appends to a log. *)

From Stdlib Require Import ZArith List String Bool Lia Permutation Sorted QArith.
Import ListNotations.
Local Open Scope string_scope.
Local Open Scope list_scope.
Local Open Scope Z_scope.

Set Implicit Arguments.

(* ===================================================================== *)
(** ** models *)
(* ===================================================================== *)

(** [datetime.date]. *)
Record date := mkDate { year : Z; month : Z; day : Z }.

(** models/author.py: the columns [BookDAO._create_book_from_result] reads. *)
Record Author := mkAuthor {
  a_id : Z;
  a_last_name : string;
  a_first_name : string
}.

(** models/book.py.  The descriptive columns (isbn, summary, pages, price,
    editor, characters) travel with the row and are read by no operation of
    the workflow; the row keeps the identifier, the title (sort key of
    [read_all]) and the author (sort key of [get_books_by_selection]). *)
Record Book := mkBook {
  b_id : Z;
  b_title : string;
  author : option Author
}.

(** models/selection.py. *)
Record Selection := mkSelection {
  s_id : Z;
  s_name : string;
  s_round : Z;
  s_date : option date;
  book : list Book
}.

(** models/vote.py.  The field [book] is [v_book] here ([book] is the list
    of a [Selection]); it holds what [BookDAO.read] returned, hence an option. *)
Record Vote := mkVote {
  v_id : Z;
  v_number_vote : Z;
  v_date_vote : date;
  v_book : option Book;
  selection : Selection
}.

(* ===================================================================== *)
(** ** The database *)
(* ===================================================================== *)

(** Rows of table [selection]. *)
Module selection_row.
Record t := mk { s_id : Z; s_name : string; s_round : Z; s_date : option date }.
End selection_row.

(** Rows of table [vote]. *)
Module vote_row.
Record t := mk { v_id : Z; v_number_vote : Z; v_date_vote : date; b_id : Z; s_id : Z }.
End vote_row.

(** The schema is not part of the sources.  What the code relies on is kept:
    - [selection] and [vote] have AUTO_INCREMENT keys ([cursor.lastrowid]);
    - [book_selection] has the key (b_id, s_id) that [INSERT IGNORE] needs;
    - [s_round] carries no uniqueness: main.py offers to recreate an existing
      selection through the same INSERT.
    Tables are lists in insertion order, the order in which a SELECT without
    ORDER BY walks them; [book] holds each row already LEFT JOINed with its
    author, as every query of [BookDAO] reads it. *)
Record Database := mkDatabase {
  t_book : list Book;
  t_selection : list selection_row.t;
  t_book_selection : list (Z * Z);          (* (b_id, s_id) *)
  t_vote : list vote_row.t;
  selection_auto_increment : Z;
  vote_auto_increment : Z
}.

(** What the process prints: the format string of the [print] call and the
    values substituted in it (an exception text [{e}] is left opaque).
    [Float q] is the float an expression evaluates to, [q] being its exact
    value: binary64 rounding and the [.1f] formatting are not modelled. *)
Inductive Value :=
| Int (z : Z)
| Float (q : Q)
| Str (s : string).

Record Message := mkMessage { fmt : string; args : list Value }.

Inductive Exception := DatabaseError | ZeroDivisionError | AttributeError | IndexError.

(** The state a call runs in: the database as the single shared connection
    sees it, the pending faults (one flag consumed by each [execute] and
    [commit]; [true] makes that call raise; an exhausted schedule means no
    further fault) and the lines printed so far. *)
Record World := mkWorld {
  db : Database;
  faults : list bool;
  stdout : list Message
}.

(* ===================================================================== *)
(** ** A state-and-exception monad for the Python control flow *)
(* ===================================================================== *)

Inductive Outcome (A : Type) :=
| Ok (a : A)
| Raised (e : Exception).
Arguments Raised {A} e.

Definition M (A : Type) := World -> Outcome A * World.

Definition ret {A} (a : A) : M A := fun w => (Ok a, w).

Definition bind {A B} (m : M A) (k : A -> M B) : M B :=
  fun w => match m w with
           | (Ok a, w') => k a w'
           | (Raised e, w') => (Raised e, w')
           end.

Definition raise {A} (e : Exception) : M A := fun w => (Raised e, w).

(** [try: body  except Exception as e: handler]. *)
Definition try_except {A} (body : M A) (handler : Exception -> M A) : M A :=
  fun w => match body w with
           | (Ok a, w') => (Ok a, w')
           | (Raised e, w') => handler e w'
           end.

Declare Scope py_scope.
Delimit Scope py_scope with py.
Notation "x <- m ;; k" := (bind m (fun x => k))
  (at level 100, m at next level, right associativity) : py_scope.
Notation "m ;;; k" := (bind m (fun _ => k))
  (at level 100, right associativity) : py_scope.
Local Open Scope py_scope.

Definition print (f : string) (a : list Value) : M unit :=
  fun w => (Ok tt, mkWorld (db w) (faults w) (stdout w ++ [mkMessage f a])).

(** One statement sent to the server: it raises when the schedule says so,
    and otherwise runs [q] on the tables. *)
Definition execute {A} (q : Database -> A * Database) : M A :=
  fun w => match faults w with
           | true :: fs => (Raised DatabaseError, mkWorld (db w) fs (stdout w))
           | false :: fs => let (a, d) := q (db w) in (Ok a, mkWorld d fs (stdout w))
           | [] => let (a, d) := q (db w) in (Ok a, mkWorld d [] (stdout w))
           end.

(** A read-only statement. *)
Definition query {A} (q : Database -> A) : M A := execute (fun d => (q d, d)).

(** [self.connection.commit()]: the connection already sees its own
    statements, so a commit changes nothing the process can read; it is
    one more call that may raise. *)
Definition commit : M unit := query (fun _ => tt).

(** [cursor.fetchone()] on a result set. *)
Definition fetchone {A} (rows : list A) : option A := hd_error rows.

(* ===================================================================== *)
(** ** ORDER BY *)
(* ===================================================================== *)

Section OrderBy.
Variable A : Type.
Variable leb : A -> A -> bool.

Fixpoint insert_by (x : A) (l : list A) : list A :=
  match l with
  | [] => [x]
  | y :: t => if leb x y then x :: y :: t else y :: insert_by x t
  end.

(** A stable sort: rows with equal keys keep the order of the scan. *)
Fixpoint order_by (l : list A) : list A :=
  match l with
  | [] => []
  | x :: t => insert_by x (order_by t)
  end.
End OrderBy.

(** Sort keys.  Strings compare bytewise; NULL sorts first in ascending order. *)
Definition title_leb (x y : Book) : bool := String.leb (b_title x) (b_title y).

Definition last_name (b : Book) : option string := option_map a_last_name (author b).

Definition last_name_leb (x y : Book) : bool :=
  match last_name x, last_name y with
  | None, _ => true
  | Some _, None => false
  | Some n, Some m => String.leb n m
  end.

Definition number_vote_desc (x y : vote_row.t) : bool :=
  vote_row.v_number_vote y <=? vote_row.v_number_vote x.

(* ===================================================================== *)
(** ** daos/book_dao.py *)
(* ===================================================================== *)

Module BookDAO.

(** SELECT b.*, a.*, e.* FROM book b LEFT JOIN ... WHERE b.b_id = pk *)
Definition select_by_id (pk : Z) (d : Database) : list Book :=
  filter (fun b => b_id b =? pk) (t_book d).

Definition read (pk : Z) : M (option Book) :=
  try_except
    (result <- query (fun d => fetchone (select_by_id pk d)) ;;
     match result with
     | Some b => ret (Some b)
     | None => ret None
     end)
    (fun e => print "Erreur lors de la lecture du livre: {e}" [] ;;; ret None).

(** SELECT ... FROM book b LEFT JOIN ... ORDER BY b.b_title *)
Definition select_all (d : Database) : list Book :=
  order_by title_leb (t_book d).

Definition read_all : M (list Book) :=
  try_except
    (query select_all)
    (fun e => print "Erreur lors de la lecture de tous les livres: {e}" [] ;;; ret []).

(** SELECT ... FROM book b JOIN book_selection bs ON b.b_id = bs.b_id
    LEFT JOIN ... WHERE bs.s_id = selection_id ORDER BY a.a_last_name *)
Definition select_by_selection (selection_id : Z) (d : Database) : list Book :=
  order_by last_name_leb
    (flat_map (fun b =>
                 flat_map (fun bs : Z * Z =>
                             if (b_id b =? fst bs) && (snd bs =? selection_id)
                             then [b] else [])
                          (t_book_selection d))
              (t_book d)).

Definition get_books_by_selection (selection_id : Z) : M (list Book) :=
  try_except
    (query (select_by_selection selection_id))
    (fun e => print "Erreur lors de la récupération des livres par sélection: {e}" [] ;;;
              ret []).

End BookDAO.

(* ===================================================================== *)
(** ** daos/selection_dao.py *)
(* ===================================================================== *)

Module SelectionDAO.

(** INSERT INTO selection (s_name, s_round, s_date) VALUES (...);
    the value is [cursor.lastrowid]. *)
Definition insert_selection (obj : Selection) (d : Database) : Z * Database :=
  let id := selection_auto_increment d in
  (id,
   mkDatabase (t_book d)
              (t_selection d ++ [selection_row.mk id (s_name obj) (s_round obj) (s_date obj)])
              (t_book_selection d) (t_vote d)
              (id + 1) (vote_auto_increment d)).

(** INSERT IGNORE INTO book_selection (b_id, s_id) VALUES (...);
    the value is [cursor.rowcount]: a pair already present is skipped. *)
Definition insert_ignore_book_selection (book_id selection_id : Z) (d : Database)
  : Z * Database :=
  if existsb (fun bs : Z * Z => (fst bs =? book_id) && (snd bs =? selection_id))
             (t_book_selection d)
  then (0, d)
  else (1,
        mkDatabase (t_book d) (t_selection d)
                   (t_book_selection d ++ [(book_id, selection_id)]) (t_vote d)
                   (selection_auto_increment d) (vote_auto_increment d)).

Definition add_book_to_selection (book_id selection_id : Z) : M bool :=
  try_except
    (rowcount <- execute (insert_ignore_book_selection book_id selection_id) ;;
     commit ;;;
     ret (0 <? rowcount))
    (fun e => print "Erreur lors de l'ajout du livre à la sélection: {e}" [] ;;;
              ret false).

(** [for book in obj.book: self.add_book_to_selection(book.b_id, selection_id)]:
    the boolean each call returns is dropped. *)
Fixpoint add_books (books : list Book) (selection_id : Z) : M unit :=
  match books with
  | [] => ret tt
  | b :: rest =>
      _ <- add_book_to_selection (b_id b) selection_id ;;
      add_books rest selection_id
  end.

Definition create (obj : Selection) : M Z :=
  try_except
    (selection_id <- execute (insert_selection obj) ;;
     commit ;;;
     add_books (book obj) selection_id ;;;
     ret selection_id)
    (fun e => print "Erreur lors de la création de la sélection: {e}" [] ;;;
              ret 0).

Definition _create_selection_from_result (result : selection_row.t) : Selection :=
  mkSelection (selection_row.s_id result) (selection_row.s_name result)
              (selection_row.s_round result) (selection_row.s_date result) [].

(** SELECT * FROM selection WHERE s_round = round_number *)
Definition select_by_round (round_number : Z) (d : Database) : list selection_row.t :=
  filter (fun r => selection_row.s_round r =? round_number) (t_selection d).

Definition find_by_round (round_number : Z) : M (option Selection) :=
  try_except
    (result <- query (fun d => fetchone (select_by_round round_number d)) ;;
     match result with
     | Some r =>
         let selection := _create_selection_from_result r in
         books <- BookDAO.get_books_by_selection (s_id selection) ;;
         ret (Some (mkSelection (s_id selection) (s_name selection)
                                (s_round selection) (s_date selection) books))
     | None => ret None
     end)
    (fun e => print "Erreur lors de la recherche par tour: {e}" [] ;;; ret None).

(** SELECT * FROM selection WHERE s_id = pk *)
Definition select_by_id (pk : Z) (d : Database) : list selection_row.t :=
  filter (fun r => selection_row.s_id r =? pk) (t_selection d).

Definition read (pk : Z) : M (option Selection) :=
  try_except
    (result <- query (fun d => fetchone (select_by_id pk d)) ;;
     match result with
     | Some r =>
         let selection := _create_selection_from_result r in
         books <- BookDAO.get_books_by_selection pk ;;
         ret (Some (mkSelection (s_id selection) (s_name selection)
                                (s_round selection) (s_date selection) books))
     | None => ret None
     end)
    (fun e => print "Erreur lors de la lecture de la sélection: {e}" [] ;;; ret None).

Definition round_leb (x y : selection_row.t) : bool :=
  selection_row.s_round x <=? selection_row.s_round y.

(** SELECT * FROM selection ORDER BY s_round *)
Definition select_all (d : Database) : list selection_row.t :=
  order_by round_leb (t_selection d).

(** [for result in results: ... selections.append(selection)] *)
Fixpoint load_selections (results : list selection_row.t) : M (list Selection) :=
  match results with
  | [] => ret []
  | r :: rest =>
      let selection := _create_selection_from_result r in
      books <- BookDAO.get_books_by_selection (s_id selection) ;;
      selections <- load_selections rest ;;
      ret (mkSelection (s_id selection) (s_name selection)
                       (s_round selection) (s_date selection) books :: selections)
  end.

(** The loop cannot raise ([get_books_by_selection] catches), so the
    handler only ever runs with [selections] still empty. *)
Definition read_all : M (list Selection) :=
  try_except
    (results <- query select_all ;;
     load_selections results)
    (fun e => print "Erreur lors de la lecture de toutes les sélections: {e}" [] ;;;
              ret []).

(** UPDATE selection SET s_name = ..., s_round = ..., s_date = ... WHERE s_id = ... *)
Definition update_selection (obj : Selection) (d : Database) : unit * Database :=
  (tt,
   mkDatabase (t_book d)
              (map (fun r => if selection_row.s_id r =? s_id obj
                             then selection_row.mk (selection_row.s_id r) (s_name obj)
                                                   (s_round obj) (s_date obj)
                             else r)
                   (t_selection d))
              (t_book_selection d) (t_vote d)
              (selection_auto_increment d) (vote_auto_increment d)).

(** DELETE FROM book_selection WHERE s_id = selection_id *)
Definition delete_book_selection (selection_id : Z) (d : Database) : unit * Database :=
  (tt,
   mkDatabase (t_book d) (t_selection d)
              (filter (fun bs : Z * Z => negb (snd bs =? selection_id)) (t_book_selection d))
              (t_vote d)
              (selection_auto_increment d) (vote_auto_increment d)).

Definition _clear_selection_books (selection_id : Z) : M unit :=
  try_except
    (execute (delete_book_selection selection_id) ;;;
     commit)
    (fun e => print "Erreur lors du nettoyage des livres de la sélection: {e}" []).

Definition update (obj : Selection) : M bool :=
  try_except
    (execute (update_selection obj) ;;;
     commit ;;;
     _clear_selection_books (s_id obj) ;;;
     add_books (book obj) (s_id obj) ;;;
     ret true)
    (fun e => print "Erreur lors de la mise à jour de la sélection: {e}" [] ;;;
              ret false).

(** DELETE FROM selection WHERE s_id = pk; the value is [cursor.rowcount]. *)
Definition delete_selection (pk : Z) (d : Database) : Z * Database :=
  (Z.of_nat (List.length (select_by_id pk d)),
   mkDatabase (t_book d)
              (filter (fun r => negb (selection_row.s_id r =? pk)) (t_selection d))
              (t_book_selection d) (t_vote d)
              (selection_auto_increment d) (vote_auto_increment d)).

Definition delete (pk : Z) : M bool :=
  try_except
    (execute (delete_book_selection pk) ;;;
     rowcount <- execute (delete_selection pk) ;;
     commit ;;;
     ret (0 <? rowcount))
    (fun e => print "Erreur lors de la suppression de la sélection: {e}" [] ;;;
              ret false).

(** DELETE FROM book_selection WHERE b_id = book_id AND s_id = selection_id;
    the value is [cursor.rowcount]. *)
Definition delete_membership (book_id selection_id : Z) (d : Database) : Z * Database :=
  (Z.of_nat (List.length
               (filter (fun bs : Z * Z => (fst bs =? book_id) && (snd bs =? selection_id))
                       (t_book_selection d))),
   mkDatabase (t_book d) (t_selection d)
              (filter (fun bs : Z * Z => negb ((fst bs =? book_id) && (snd bs =? selection_id)))
                      (t_book_selection d))
              (t_vote d)
              (selection_auto_increment d) (vote_auto_increment d)).

Definition remove_book_from_selection (book_id selection_id : Z) : M bool :=
  try_except
    (rowcount <- execute (delete_membership book_id selection_id) ;;
     commit ;;;
     ret (0 <? rowcount))
    (fun e => print "Erreur lors du retrait du livre de la sélection: {e}" [] ;;;
              ret false).

End SelectionDAO.

(* ===================================================================== *)
(** ** daos/vote_dao.py *)
(* ===================================================================== *)

(** [Dict[int, int]]: the entries in insertion order; a well-formed
    dictionary has no key twice. *)
Definition Dict := list (Z * Z).
Definition keys (d : Dict) : list Z := map fst d.
Definition values (d : Dict) : list Z := map snd d.
Definition items (d : Dict) : list (Z * Z) := d.
Definition dict_wf (d : Dict) : Prop := NoDup (keys d).

(** [sum(...)] over integers. *)
Definition sum (l : list Z) : Z := fold_left Z.add l 0.

Module VoteDAO.

(** A row of  SELECT v.*, b.*, s.* FROM vote v JOIN book b ... JOIN selection s ... *)
Definition result_row : Type := vote_row.t * Book * selection_row.t.

(** SELECT v.*, b.*, s.* FROM vote v
    JOIN book b ON v.b_id = b.b_id JOIN selection s ON v.s_id = s.s_id
    WHERE s.s_round = 4 ORDER BY v.v_number_vote DESC *)
Definition select_final_results (d : Database) : list result_row :=
  order_by (fun x y : result_row => number_vote_desc (fst (fst x)) (fst (fst y)))
    (flat_map (fun v =>
       flat_map (fun b =>
         flat_map (fun s =>
                     if (vote_row.b_id v =? b_id b)
                        && (vote_row.s_id v =? selection_row.s_id s)
                        && (selection_row.s_round s =? 4)
                     then [(v, b, s)] else [])
                  (t_selection d))
         (t_book d))
       (t_vote d)).

(** The DictCursor keeps the first of two columns of one name, so
    [result['b_id']] and [result['s_id']] are the vote's. *)
Definition _create_vote_from_result (result : result_row) : M Vote :=
  let '(v, _, s) := result in
  book <- BookDAO.read (vote_row.b_id v) ;;
  let selection := mkSelection (vote_row.s_id v) (selection_row.s_name s)
                               (selection_row.s_round s) (selection_row.s_date s) [] in
  ret (mkVote (vote_row.v_id v) (vote_row.v_number_vote v) (vote_row.v_date_vote v)
              book selection).

(** [for result in results: votes.append(self._create_vote_from_result(result))] *)
Fixpoint create_votes (results : list result_row) : M (list Vote) :=
  match results with
  | [] => ret []
  | r :: rest =>
      vote <- _create_vote_from_result r ;;
      votes <- create_votes rest ;;
      ret (vote :: votes)
  end.

(** The loop cannot raise ([BookDAO.read] catches), so the handler only
    ever runs with [votes] still empty. *)
Definition get_final_results : M (list Vote) :=
  try_except
    (results <- query select_final_results ;;
     create_votes results)
    (fun e => print "Erreur lors de la récupération des résultats finaux: {e}" [] ;;;
              ret []).

(** DELETE FROM vote WHERE s_id = selection_id *)
Definition delete_votes (selection_id : Z) (d : Database) : unit * Database :=
  (tt,
   mkDatabase (t_book d) (t_selection d) (t_book_selection d)
              (filter (fun v => negb (vote_row.s_id v =? selection_id)) (t_vote d))
              (selection_auto_increment d) (vote_auto_increment d)).

(** INSERT INTO vote (v_number_vote, v_date_vote, b_id, s_id) VALUES (...) *)
Definition insert_vote (vote_count : Z) (vote_date : date) (book_id selection_id : Z)
           (d : Database) : unit * Database :=
  let id := vote_auto_increment d in
  (tt,
   mkDatabase (t_book d) (t_selection d) (t_book_selection d)
              (t_vote d ++ [vote_row.mk id vote_count vote_date book_id selection_id])
              (selection_auto_increment d) (id + 1)).

(** [for book_id, vote_count in votes_data.items(): cursor.execute(sql, ...)] *)
Fixpoint insert_votes (entries : list (Z * Z)) (selection_id : Z) (vote_date : date)
  : M unit :=
  match entries with
  | [] => ret tt
  | (book_id, vote_count) :: rest =>
      execute (insert_vote vote_count vote_date book_id selection_id) ;;;
      insert_votes rest selection_id vote_date
  end.

Definition record_final_votes (votes_data : Dict) (selection_id : Z) (vote_date : date)
  : M bool :=
  try_except
    (execute (delete_votes selection_id) ;;;
     insert_votes (items votes_data) selection_id vote_date ;;;
     commit ;;;
     ret true)
    (fun e => print "Erreur lors de l'enregistrement des votes finaux: {e}" [] ;;;
              ret false).

(** INSERT INTO vote (...) VALUES (...); the value is [cursor.lastrowid]. *)
Definition insert_vote_lastrowid (vote_count : Z) (vote_date : date)
           (book_id selection_id : Z) (d : Database) : Z * Database :=
  (vote_auto_increment d, snd (insert_vote vote_count vote_date book_id selection_id d)).

(** [obj.book.b_id] is evaluated before the statement is sent: without a
    book it raises, inside the [try]. *)
Definition create (obj : Vote) : M Z :=
  try_except
    (match v_book obj with
     | None => raise AttributeError
     | Some b =>
         id <- execute (insert_vote_lastrowid (v_number_vote obj) (v_date_vote obj)
                                              (b_id b) (s_id (selection obj))) ;;
         commit ;;;
         ret id
     end)
    (fun e => print "Erreur lors de la création du vote: {e}" [] ;;; ret 0).

(** The join every SELECT of this DAO starts from:
    FROM vote v JOIN book b ON v.b_id = b.b_id JOIN selection s ON v.s_id = s.s_id
    WHERE [keep] *)
Definition select_where (keep : vote_row.t -> bool) (d : Database) : list result_row :=
  flat_map (fun v =>
    flat_map (fun b =>
      flat_map (fun s =>
                  if (vote_row.b_id v =? b_id b)
                     && (vote_row.s_id v =? selection_row.s_id s)
                     && keep v
                  then [(v, b, s)] else [])
               (t_selection d))
      (t_book d))
    (t_vote d).

(** SELECT v.*, b.*, s.* FROM ... WHERE v.v_id = pk *)
Definition select_by_id (pk : Z) (d : Database) : list result_row :=
  select_where (fun v => vote_row.v_id v =? pk) d.

Definition read (pk : Z) : M (option Vote) :=
  try_except
    (result <- query (fun d => fetchone (select_by_id pk d)) ;;
     match result with
     | Some r => vote <- _create_vote_from_result r ;; ret (Some vote)
     | None => ret None
     end)
    (fun e => print "Erreur lors de la lecture du vote: {e}" [] ;;; ret None).

(** DELETE FROM vote WHERE v_id = pk; the value is [cursor.rowcount]. *)
Definition delete_vote (pk : Z) (d : Database) : Z * Database :=
  (Z.of_nat (List.length (filter (fun v => vote_row.v_id v =? pk) (t_vote d))),
   mkDatabase (t_book d) (t_selection d) (t_book_selection d)
              (filter (fun v => negb (vote_row.v_id v =? pk)) (t_vote d))
              (selection_auto_increment d) (vote_auto_increment d)).

Definition delete (pk : Z) : M bool :=
  try_except
    (rowcount <- execute (delete_vote pk) ;;
     commit ;;;
     ret (0 <? rowcount))
    (fun e => print "Erreur lors de la suppression du vote: {e}" [] ;;; ret false).

(** SELECT v.*, b.*, s.* FROM ... WHERE v.s_id = selection_id
    ORDER BY v.v_number_vote DESC *)
Definition select_by_selection (selection_id : Z) (d : Database) : list result_row :=
  order_by (fun x y : result_row => number_vote_desc (fst (fst x)) (fst (fst y)))
           (select_where (fun v => vote_row.s_id v =? selection_id) d).

Definition get_votes_by_selection (selection_id : Z) : M (list Vote) :=
  try_except
    (results <- query (select_by_selection selection_id) ;;
     create_votes results)
    (fun e => print "Erreur lors de la récupération des votes par sélection: {e}" [] ;;;
              ret []).

End VoteDAO.

(* ===================================================================== *)
(** ** business/goncourt.py *)
(* ===================================================================== *)

Definition full_name (a : Author) : string :=
  (a_first_name a ++ " " ++ a_last_name a)%string.

(** [x in l] on a list of integers. *)
Definition contains (l : list Z) (x : Z) : bool := existsb (Z.eqb x) l.

(** Python's true division of two integers. *)
Definition truediv (a b : Z) : M Q :=
  if b =? 0 then raise ZeroDivisionError else ret (inject_Z a / inject_Z b)%Q.

Module GoncourtService.

Definition _initialize_first_selection : M unit :=
  premiere_selection <- SelectionDAO.find_by_round 1 ;;
  match premiere_selection with
  | None =>
      all_books <- BookDAO.read_all ;;
      let premiere_selection :=
        mkSelection 0 "PREMIÈRE SÉLECTION" 1 (Some (mkDate 2025 9 3)) all_books in
      selection_id <- SelectionDAO.create premiere_selection ;;
      if negb (selection_id =? 0)
      then print "✓ Première sélection initialisée avec 15 livres" []
      else ret tt
  | Some _ => ret tt
  end.

Definition get_premiere_selection : M (option Selection) := SelectionDAO.find_by_round 1.
Definition get_deuxieme_selection : M (option Selection) := SelectionDAO.find_by_round 2.
Definition get_troisieme_selection : M (option Selection) := SelectionDAO.find_by_round 3.

Definition get_final_results : M (list Vote) := VoteDAO.get_final_results.

(** The loop "Vérifier que les livres existent": [None] stands for the
    early [return False] after the message. *)
Fixpoint read_books (book_ids : list Z) : M (option (list Book)) :=
  match book_ids with
  | [] => ret (Some [])
  | book_id :: rest =>
      book <- BookDAO.read book_id ;;
      match book with
      | None =>
          print "✗ Livre avec ID {book_id} non trouvé." [Int book_id] ;;;
          ret None
      | Some b =>
          books <- read_books rest ;;
          ret (option_map (cons b) books)
      end
  end.

(** The loop "Vérifier que les livres sont dans la ... sélection": the
    first requested id that the list lacks, if any. *)
Definition first_missing (book_ids allowed : list Z) : option Z :=
  find (fun book_id => negb (contains allowed book_id)) book_ids.

Definition create_deuxieme_selection (book_ids : list Z) : M bool :=
  if negb (Z.of_nat (List.length book_ids) =? 8) then
    print "✗ La deuxième sélection doit contenir exactement 8 livres." [] ;;;
    ret false
  else
    books <- read_books book_ids ;;
    match books with
    | None => ret false
    | Some books =>
        premiere <- SelectionDAO.find_by_round 1 ;;
        match premiere with
        | None =>
            print "✗ La première sélection doit exister avant de créer la deuxième." [] ;;;
            ret false
        | Some premiere =>
            let premiere_book_ids := map b_id (book premiere) in
            match first_missing book_ids premiere_book_ids with
            | Some book_id =>
                print "✗ Le livre avec ID {book_id} n'est pas dans la première sélection."
                      [Int book_id] ;;;
                ret false
            | None =>
                let deuxieme_selection :=
                  mkSelection 0 "DEUXIÈME SÉLECTION" 2 (Some (mkDate 2025 10 7)) books in
                selection_id <- SelectionDAO.create deuxieme_selection ;;
                if negb (selection_id =? 0) then
                  print "✓ Deuxième sélection créée avec {len(books)} livres"
                        [Int (Z.of_nat (List.length books))] ;;;
                  ret true
                else ret false
            end
        end
    end.

Definition create_troisieme_selection (book_ids : list Z) : M bool :=
  if negb (Z.of_nat (List.length book_ids) =? 4) then
    print "✗ La troisième sélection doit contenir exactement 4 livres." [] ;;;
    ret false
  else
    books <- read_books book_ids ;;
    match books with
    | None => ret false
    | Some books =>
        deuxieme <- SelectionDAO.find_by_round 2 ;;
        match deuxieme with
        | None =>
            print "✗ La deuxième sélection doit exister avant de créer la troisième." [] ;;;
            ret false
        | Some deuxieme =>
            let deuxieme_book_ids := map b_id (book deuxieme) in
            match first_missing book_ids deuxieme_book_ids with
            | Some book_id =>
                print "✗ Le livre avec ID {book_id} n'est pas dans la deuxième sélection."
                      [Int book_id] ;;;
                ret false
            | None =>
                let troisieme_selection :=
                  mkSelection 0 "TROISIÈME SÉLECTION" 3 (Some (mkDate 2025 10 28)) books in
                selection_id <- SelectionDAO.create troisieme_selection ;;
                if negb (selection_id =? 0) then
                  print "✓ Troisième sélection créée avec {len(books)} livres"
                        [Int (Z.of_nat (List.length books))] ;;;
                  ret true
                else ret false
            end
        end
    end.

Definition create_final_selection : M bool :=
  troisieme <- SelectionDAO.find_by_round 3 ;;
  match troisieme with
  | None =>
      print "✗ La troisième sélection doit exister avant de créer la sélection finale." [] ;;;
      ret false
  | Some troisieme =>
      if negb (Z.of_nat (List.length (book troisieme)) =? 4) then
        print "✗ La troisième sélection doit contenir 4 livres." [] ;;;
        ret false
      else
        let finale_selection :=
          mkSelection 0 "FINALISTES DU PRIX GONCOURT" 4 (Some (mkDate 2025 11 4))
                      (book troisieme) in
        selection_id <- SelectionDAO.create finale_selection ;;
        if negb (selection_id =? 0) then
          print "✓ Sélection finale créée avec les 4 finalistes" [] ;;;
          ret true
        else ret false
  end.

(** [today] is the value of [date.today()] at the call. *)
Definition record_final_votes (today : date) (votes_data : Dict) : M bool :=
  finale_selection <- SelectionDAO.find_by_round 4 ;;
  match finale_selection with
  | None =>
      print "✗ La sélection finale doit exister avant d'enregistrer les votes." [] ;;;
      ret false
  | Some finale_selection =>
      let finale_book_ids := map b_id (book finale_selection) in
      match first_missing (keys votes_data) finale_book_ids with
      | Some book_id =>
          print "✗ Le livre avec ID {book_id} n'est pas dans la sélection finale."
                [Int book_id] ;;;
          ret false
      | None =>
          let total_votes := sum (values votes_data) in
          if negb (total_votes =? 10) then
            print "✗ Le total des votes doit être exactement 10 (nombre de membres du jury)." [] ;;;
            print "  Total actuel: {total_votes}" [Int total_votes] ;;;
            ret false
          else
            success <- VoteDAO.record_final_votes votes_data (s_id finale_selection) today ;;
            if success : bool then
              print "✓ Votes enregistrés avec succès" [] ;;;
              ret true
            else ret false
      end
  end.

Definition author_name (b : Book) : string :=
  match author b with
  | Some a => full_name a
  | None => "Inconnu"
  end.

(** [vote.book.<attribute>]: [None] has no attribute. *)
Definition book_of (vote : Vote) : M Book :=
  match v_book vote with
  | Some b => ret b
  | None => raise AttributeError
  end.

(** [(vote.v_number_vote / total_votes * 100) if total_votes > 0 else 0] *)
Definition percentage (number_vote total_votes : Z) : M Value :=
  if total_votes >? 0 then
    q <- truediv number_vote total_votes ;;
    ret (Float (q * inject_Z 100)%Q)
  else ret (Int 0).

(** [for i, vote in enumerate(votes, 1): ...] *)
Fixpoint display_votes (i : Z) (votes : list Vote) (total_votes : Z) : M unit :=
  match votes with
  | [] => ret tt
  | vote :: rest =>
      p <- percentage (v_number_vote vote) total_votes ;;
      b <- book_of vote ;;
      print "\n{i}. {vote.book.b_title}" [Int i; Str (b_title b)] ;;;
      print "   Auteur: {vote.book.author.full_name() if vote.book.author else 'Inconnu'}"
            [Str (author_name b)] ;;;
      print "   Votes: {vote.v_number_vote} ({percentage:.1f}%)"
            [Int (v_number_vote vote); p] ;;;
      display_votes (i + 1) rest total_votes
  end.

Definition display_final_results : M unit :=
  votes <- get_final_results ;;
  match votes with
  | [] => print "\nAucun résultat disponible pour le dernier tour." []
  | winner :: _ =>
      print "\n{'=' * 60}" [] ;;;
      print "RÉSULTATS DU DERNIER TOUR DE SCRUTIN" [] ;;;
      print "(Prix Goncourt 2025)" [] ;;;
      print "{'=' * 60}" [] ;;;
      let total_votes := sum (map v_number_vote votes) in
      display_votes 1 votes total_votes ;;;
      (* if votes: winner = votes[0] *)
      print "\n{'=' * 60}" [] ;;;
      print "🏆 PRIX GONCOURT 2025 ATTRIBUÉ À :" [] ;;;
      b <- book_of winner ;;
      print "   « {winner.book.b_title} »" [Str (b_title b)] ;;;
      print "   de {winner.book.author.full_name() if winner.book.author else 'Inconnu'}"
            [Str (author_name b)] ;;;
      print "   avec {winner.v_number_vote} voix" [Int (v_number_vote winner)] ;;;
      print "{'=' * 60}" []
  end.

Definition get_available_books_for_selection (round_number : Z) : M (list Book) :=
  if round_number =? 1 then BookDAO.read_all
  else if round_number =? 2 then
    premiere <- SelectionDAO.find_by_round 1 ;;
    ret (match premiere with Some p => book p | None => [] end)
  else if round_number =? 3 then
    deuxieme <- SelectionDAO.find_by_round 2 ;;
    ret (match deuxieme with Some p => book p | None => [] end)
  else ret [].

(** The dictionary [get_current_state] returns. *)
Record State := mkState {
  premiere_selection : bool;
  deuxieme_selection : bool;
  troisieme_selection : bool;
  final_selection : bool;
  votes_recorded : bool
}.

Definition is_not_None {A} (o : option A) : bool :=
  match o with Some _ => true | None => false end.

Definition get_current_state : M State :=
  s1 <- SelectionDAO.find_by_round 1 ;;
  s2 <- SelectionDAO.find_by_round 2 ;;
  s3 <- SelectionDAO.find_by_round 3 ;;
  s4 <- SelectionDAO.find_by_round 4 ;;
  votes <- VoteDAO.get_final_results ;;
  ret (mkState (is_not_None s1) (is_not_None s2) (is_not_None s3) (is_not_None s4)
               (0 <? Z.of_nat (List.length votes))).

Definition get_all_selections : M (list Selection) := SelectionDAO.read_all.

End GoncourtService.

(* ===================================================================== *)
(** ** main.py: the president's actions *)
(* ===================================================================== *)

Module GoncourtApplication.

Import GoncourtService.

(** [for i, book in enumerate(available_books, 1): print(...)] *)
Fixpoint print_books (i : Z) (books : list Book) : M unit :=
  match books with
  | [] => ret tt
  | b :: rest =>
      print "{i}. {book.b_title} - {book.author.full_name() if book.author else 'Inconnu'}"
            [Int i; Str (b_title b); Str (author_name b)] ;;;
      print_books (i + 1) rest
  end.

(** The first index outside [0, len(available_books)). *)
Definition first_invalid (indices : list Z) (n : Z) : option Z :=
  find (fun idx => (idx <? 0) || (idx >=? n)) indices.

(** [[available_books[idx].b_id for idx in indices]] *)
Fixpoint selected_ids (available_books : list Book) (indices : list Z) : M (list Z) :=
  match indices with
  | [] => ret []
  | idx :: rest =>
      match nth_error available_books (Z.to_nat idx) with
      | None => raise IndexError
      | Some b => ids <- selected_ids available_books rest ;; ret (b_id b :: ids)
      end
  end.

(** The two calls of [input] are arguments: [replace] is the lower-cased
    answer to the question asked when the selection exists, [numbers] the
    integers [int(idx.strip())] read from the comma-separated line, [None]
    when a field is not an integer ([ValueError]). *)
Definition create_deuxieme_selection (replace : string) (numbers : option (list Z))
  : M unit :=
  state <- get_current_state ;;
  if negb (premiere_selection state) then
    print "✗ La première sélection doit exister avant de créer la deuxième." []
  else
    go_on <- (if deuxieme_selection state then
                print "✗ La deuxième sélection existe déjà." [] ;;;
                ret (String.eqb replace "o")
              else ret true) ;;
    if negb go_on then ret tt else
    available_books <- get_available_books_for_selection 2 ;;
    match available_books with
    | [] => print "✗ Aucun livre disponible pour la deuxième sélection." []
    | _ =>
        print "\n{'=' * 60}" [] ;;;
        print "CRÉATION DE LA DEUXIÈME SÉLECTION (8 livres)" [] ;;;
        print "{'=' * 60}" [] ;;;
        print "\nLivres disponibles (première sélection):" [] ;;;
        print_books 1 available_books ;;;
        print "\nEntrez les numéros des 8 livres à sélectionner (séparés par des virgules):" [] ;;;
        try_except
          (match numbers with
           | None =>
               print "✗ Format invalide. Veuillez entrer des numéros séparés par des virgules." []
           | Some numbers =>
               let indices := map (fun n => n - 1) numbers in
               if negb (Z.of_nat (List.length indices) =? 8) then
                 print "✗ Vous devez sélectionner exactement 8 livres." []
               else
                 match first_invalid indices (Z.of_nat (List.length available_books)) with
                 | Some idx => print "✗ Indice {idx + 1} invalide." [Int (idx + 1)]
                 | None =>
                     selected_book_ids <- selected_ids available_books indices ;;
                     success <- GoncourtService.create_deuxieme_selection selected_book_ids ;;
                     if success : bool then
                       print "✓ Deuxième sélection créée avec succès!" [] ;;;
                       _ <- create_final_selection ;;
                       ret tt
                     else print "✗ Échec de la création de la deuxième sélection." []
                 end
           end)
          (fun e => print "✗ Erreur: {e}" [])
    end.

Definition create_troisieme_selection (replace : string) (numbers : option (list Z))
  : M unit :=
  state <- get_current_state ;;
  if negb (deuxieme_selection state) then
    print "✗ La deuxième sélection doit exister avant de créer la troisième." []
  else
    go_on <- (if troisieme_selection state then
                print "✗ La troisième sélection existe déjà." [] ;;;
                ret (String.eqb replace "o")
              else ret true) ;;
    if negb go_on then ret tt else
    available_books <- get_available_books_for_selection 3 ;;
    match available_books with
    | [] => print "✗ Aucun livre disponible pour la troisième sélection." []
    | _ =>
        print "\n{'=' * 60}" [] ;;;
        print "CRÉATION DE LA TROISIÈME SÉLECTION (4 livres)" [] ;;;
        print "{'=' * 60}" [] ;;;
        print "\nLivres disponibles (deuxième sélection):" [] ;;;
        print_books 1 available_books ;;;
        print "\nEntrez les numéros des 4 livres à sélectionner (séparés par des virgules):" [] ;;;
        try_except
          (match numbers with
           | None =>
               print "✗ Format invalide. Veuillez entrer des numéros séparés par des virgules." []
           | Some numbers =>
               let indices := map (fun n => n - 1) numbers in
               if negb (Z.of_nat (List.length indices) =? 4) then
                 print "✗ Vous devez sélectionner exactement 4 livres." []
               else
                 match first_invalid indices (Z.of_nat (List.length available_books)) with
                 | Some idx => print "✗ Indice {idx + 1} invalide." [Int (idx + 1)]
                 | None =>
                     selected_book_ids <- selected_ids available_books indices ;;
                     success <- GoncourtService.create_troisieme_selection selected_book_ids ;;
                     if success : bool then
                       print "✓ Troisième sélection créée avec succès!" [] ;;;
                       _ <- create_final_selection ;;
                       ret tt
                     else print "✗ Échec de la création de la troisième sélection." []
                 end
           end)
          (fun e => print "✗ Erreur: {e}" [])
    end.

(** *** [record_final_votes] *)

(** The exceptions the action itself lets through (to the handler of
    [execute_menu_action]): [input] at the end of the input, and a
    dictionary lookup of a key never assigned. *)
Inductive Interrupted := EOFError | KeyError.

(** [votes_data[key] = value]: a key already present keeps its place. *)
Fixpoint setitem (votes_data : Dict) (key value : Z) : Dict :=
  match votes_data with
  | [] => [(key, value)]
  | (k, v) :: rest =>
      if k =? key then (k, value) :: rest else (k, v) :: setitem rest key value
  end.

(** [votes_data[key]]; [None] stands for [KeyError]. *)
Fixpoint getitem (votes_data : Dict) (key : Z) : option Z :=
  match votes_data with
  | [] => None
  | (k, v) :: rest => if k =? key then Some v else getitem rest key
  end.

(** The [while True] loop of one book.  [lines] are the lines typed at the
    prompts still to come, each as the integer [int(input(...))] reads, or
    [None] when it raises [ValueError].  The loop ends at the first
    non-negative integer, and returns it with the lines not yet read. *)
Fixpoint read_votes (lines : list (option Z)) : M (Interrupted + Z * list (option Z)) :=
  match lines with
  | [] => ret (inl EOFError)
  | None :: rest =>
      print "✗ Veuillez entrer un nombre entier." [] ;;;
      read_votes rest
  | Some votes :: rest =>
      if votes <? 0 then
        print "✗ Le nombre de voix ne peut pas être négatif." [] ;;;
        read_votes rest
      else ret (inr (votes, rest))
  end.

(** [for i, book in enumerate(finale_selection.book, 1): while True: ...] *)
Fixpoint read_all_votes (books : list Book) (lines : list (option Z))
         (votes_data : Dict) (total_votes : Z) : M (Interrupted + Dict * Z) :=
  match books with
  | [] => ret (inr (votes_data, total_votes))
  | b :: rest =>
      r <- read_votes lines ;;
      match r with
      | inl e => ret (inl e)
      | inr (votes, lines) =>
          read_all_votes rest lines (setitem votes_data (b_id b) votes) (total_votes + votes)
      end
  end.

(** [for book in finale_selection.book: print(f"  {book.b_title}: {votes_data[book.b_id]} voix")] *)
Fixpoint print_recap (books : list Book) (votes_data : Dict) : M (Interrupted + unit) :=
  match books with
  | [] => ret (inr tt)
  | b :: rest =>
      match getitem votes_data (b_id b) with
      | None => ret (inl KeyError)
      | Some votes =>
          print "  {book.b_title}: {votes_data[book.b_id]} voix" [Str (b_title b); Int votes] ;;;
          print_recap rest votes_data
      end
  end.

(** [lines] are the lines typed at the vote prompts, [confirm] the
    lower-cased answer to the confirmation, [today] the value of
    [date.today()] in the service.  The value is [inl e] when [e] leaves
    the action, [inr tt] when the action returns. *)
Definition record_final_votes (lines : list (option Z)) (confirm : string) (today : date)
  : M (Interrupted + unit) :=
  state <- get_current_state ;;
  if negb (final_selection state) then
    print "✗ La sélection finale (tour 4) doit exister avant d'enregistrer les votes." [] ;;;
    ret (inr tt)
  else
    finale_selection <- SelectionDAO.find_by_round 4 ;;
    match finale_selection with
    | None =>
        print "✗ La sélection finale doit contenir 4 livres." [] ;;;
        ret (inr tt)
    | Some finale_selection =>
        if negb (Z.of_nat (List.length (book finale_selection)) =? 4) then
          print "✗ La sélection finale doit contenir 4 livres." [] ;;;
          ret (inr tt)
        else
          print "\n{'=' * 60}" [] ;;;
          print "ENREGISTREMENT DES VOTES DU DERNIER TOUR" [] ;;;
          print "Nombre de membres du jury: 10" [] ;;;
          print "{'=' * 60}" [] ;;;
          print "\nFinalistes (4 livres):" [] ;;;
          print_books 1 (book finale_selection) ;;;
          print "\nEntrez le nombre de voix pour chaque livre (la somme doit être 10):" [] ;;;
          r <- read_all_votes (book finale_selection) lines [] 0 ;;
          match r with
          | inl e => ret (inl e)
          | inr (votes_data, total_votes) =>
              if negb (total_votes =? 10) then
                print "\n✗ Le total des votes ({total_votes}) doit être exactement 10."
                      [Int total_votes] ;;;
                ret (inr tt)
              else
                print "\nRécapitulatif des votes:" [] ;;;
                r <- print_recap (book finale_selection) votes_data ;;
                match r with
                | inl e => ret (inl e)
                | inr _ =>
                    if negb (String.eqb confirm "o") then
                      print "✗ Enregistrement annulé." [] ;;;
                      ret (inr tt)
                    else
                      success <- GoncourtService.record_final_votes today votes_data ;;
                      if success : bool then
                        print "✓ Votes enregistrés avec succès!" [] ;;;
                        print "✓ Le prix Goncourt 2025 a été attribué!" [] ;;;
                        ret (inr tt)
                      else
                        print "✗ Échec de l'enregistrement des votes." [] ;;;
                        ret (inr tt)
                end
          end
    end.

End GoncourtApplication.

(* ===================================================================== *)
(** ** What the tables say *)
(* ===================================================================== *)

(** No statement of the call will raise. *)
Definition quiet (w : World) : Prop := faults w = [].

(** Round [n] as the application reads it: the first row of [selection]
    with that round number. *)
Definition round_row (d : Database) (n : Z) : option selection_row.t :=
  fetchone (SelectionDAO.select_by_round n d).

Definition round_exists (d : Database) (n : Z) : Prop :=
  exists r, In r (t_selection d) /\ selection_row.s_round r = n.

(** [id] is the identifier of a row of [book]. *)
Definition stored_work (d : Database) (id : Z) : Prop :=
  exists b, In b (t_book d) /\ b_id b = id.

(** Work [id] belongs to the selection of key [sid]. *)
Definition member (d : Database) (sid id : Z) : Prop :=
  In (id, sid) (t_book_selection d) /\ stored_work d id.

(** Work [id] belongs to round [n]. *)
Definition in_round (d : Database) (n id : Z) : Prop :=
  exists r, round_row d n = Some r /\ member d (selection_row.s_id r) id.

(** The identifiers of the works of the selection of key [sid], as
    [get_books_by_selection] lists them. *)
Definition works_of (d : Database) (sid : Z) : list Z :=
  map b_id (BookDAO.select_by_selection sid d).

(** The selection [find_by_round] builds when nothing raises. *)
Definition round_selection (d : Database) (n : Z) : option Selection :=
  match round_row d n with
  | Some r =>
      Some (mkSelection (selection_row.s_id r) (selection_row.s_name r)
                        (selection_row.s_round r) (selection_row.s_date r)
                        (BookDAO.select_by_selection (selection_row.s_id r) d))
  | None => None
  end.

(** The work set of round [n]: its identifiers, [None] while the round
    does not exist. *)
Definition round_works (d : Database) (n : Z) : option (list Z) :=
  option_map (fun r => works_of d (selection_row.s_id r)) (round_row d n).

(** Two lists hold the same set of identifiers. *)
Definition same_set (l1 l2 : list Z) : Prop := forall x, In x l1 <-> In x l2.

(** Number of distinct identifiers of a list. *)
Definition distinct (l : list Z) : nat := List.length (nodup Z.eq_dec l).

(** The keys the schema declares and the AUTO_INCREMENT discipline: the
    next key of [selection] is positive and above every key in use. *)
Record db_wf (d : Database) : Prop := mk_db_wf {
  wf_book_key : NoDup (map b_id (t_book d));
  wf_selection_key : NoDup (map selection_row.s_id (t_selection d));
  wf_book_selection_key : NoDup (t_book_selection d);
  wf_auto_increment : 0 < selection_auto_increment d;
  wf_selection_fresh :
    forall r, In r (t_selection d) -> selection_row.s_id r < selection_auto_increment d;
  wf_book_selection_fresh :
    forall b s, In (b, s) (t_book_selection d) -> s < selection_auto_increment d
}.

(* ===================================================================== *)
(** ** The tables after a write *)
(* ===================================================================== *)

(** The tables after the loop of [SelectionDAO.create] over [books]. *)
Definition add_books_db (books : list Book) (selection_id : Z) (d : Database) : Database :=
  fold_left (fun d b => snd (SelectionDAO.insert_ignore_book_selection (b_id b) selection_id d))
            books d.

(** The tables after [SelectionDAO.create obj]. *)
Definition create_db (obj : Selection) (d : Database) : Database :=
  add_books_db (book obj) (selection_auto_increment d)
               (snd (SelectionDAO.insert_selection obj d)).

(** The tables after the inserts of [VoteDAO.record_final_votes]. *)
Definition insert_votes_db (entries : list (Z * Z)) (selection_id : Z) (vote_date : date)
           (d : Database) : Database :=
  fold_left (fun d e => snd (VoteDAO.insert_vote (snd e) vote_date (fst e) selection_id d))
            entries d.

Definition record_db (votes_data : Dict) (selection_id : Z) (vote_date : date)
           (d : Database) : Database :=
  insert_votes_db votes_data selection_id vote_date
                  (snd (VoteDAO.delete_votes selection_id d)).

(** What the service requires of the identifiers of round [n], [size] the
    number of works of that round. *)
Definition round_request_ok (d : Database) (n : Z) (size : nat) (book_ids : list Z) : Prop :=
  round_exists d (n - 1)
  /\ List.length book_ids = size
  /\ (forall id, In id book_ids -> stored_work d id)
  /\ (forall id, In id book_ids -> in_round d (n - 1) id).

(** The rows the loop of [VoteDAO.record_final_votes] inserts, [next] being
    the next key of table [vote]. *)
Fixpoint vote_rows (entries : list (Z * Z)) (selection_id : Z) (vote_date : date) (next : Z)
  : list vote_row.t :=
  match entries with
  | [] => []
  | (book_id, vote_count) :: rest =>
      vote_row.mk next vote_count vote_date book_id selection_id
      :: vote_rows rest selection_id vote_date (next + 1)
  end.

(** The vote records of the selection of key [sid], as (work, count). *)
Definition votes_of (d : Database) (sid : Z) : list (Z * Z) :=
  map (fun v => (vote_row.b_id v, vote_row.v_number_vote v))
      (filter (fun v => vote_row.s_id v =? sid) (t_vote d)).

(** The vote records of the other selections. *)
Definition other_votes (d : Database) (sid : Z) : list vote_row.t :=
  filter (fun v => negb (vote_row.s_id v =? sid)) (t_vote d).

(** What the service requires of a vote dictionary. *)
Definition votes_request_ok (d : Database) (votes_data : Dict) : Prop :=
  round_exists d 4
  /\ (forall k, In k (keys votes_data) -> in_round d 4 k)
  /\ sum (values votes_data) = 10.

(** The vote row belongs to a selection of round 4. *)
Definition round4_row (d : Database) (v : vote_row.t) : bool :=
  existsb (fun s => (selection_row.s_id s =? vote_row.s_id v)
                    && (selection_row.s_round s =? 4))
          (t_selection d).

(** The vote records of round 4. *)
Definition round4_votes (d : Database) : list vote_row.t :=
  filter (round4_row d) (t_vote d).

(** Every vote refers to a stored work. *)
Definition votes_reference_works (d : Database) : Prop :=
  forall v, In v (t_vote d) -> stored_work d (vote_row.b_id v).

(** The object [vote] carries the record [row]. *)
Definition represents (d : Database) (vote : Vote) (row : vote_row.t) : Prop :=
  v_id vote = vote_row.v_id row
  /\ v_number_vote vote = vote_row.v_number_vote row
  /\ v_date_vote vote = vote_row.v_date_vote row
  /\ (exists b, v_book vote = Some b /\ In b (t_book d) /\ b_id b = vote_row.b_id row)
  /\ s_id (selection vote) = vote_row.s_id row
  /\ s_round (selection vote) = 4.

(** Descending vote counts. *)
Definition by_votes_desc (a b : Vote) : Prop := v_number_vote b <= v_number_vote a.

(** The object [VoteDAO._create_vote_from_result] builds when nothing raises. *)
Definition vote_of_result (d : Database) (result : VoteDAO.result_row) : Vote :=
  let '(v, _, s) := result in
  mkVote (vote_row.v_id v) (vote_row.v_number_vote v) (vote_row.v_date_vote v)
         (fetchone (BookDAO.select_by_id (vote_row.b_id v) d))
         (mkSelection (vote_row.s_id v) (selection_row.s_name s)
                      (selection_row.s_round s) (selection_row.s_date s) []).

(** The rows [select_final_results] joins to the vote [v]. *)
Definition join_vote (d : Database) (v : vote_row.t) : list VoteDAO.result_row :=
  flat_map (fun b =>
    flat_map (fun s =>
                if (vote_row.b_id v =? b_id b)
                   && (vote_row.s_id v =? selection_row.s_id s)
                   && (selection_row.s_round s =? 4)
                then [(v, b, s)] else [])
             (t_selection d))
    (t_book d).

(** The join of [select_final_results] before ORDER BY. *)
Definition final_join (d : Database) : list VoteDAO.result_row :=
  flat_map (join_vote d) (t_vote d).

(** [p] is the percentage shown for [number_vote] votes out of [total]. *)
Definition is_percentage (number_vote total : Z) (p : Value) : Prop :=
  (0 < total -> p = Float (inject_Z number_vote / inject_Z total * inject_Z 100)%Q)
  /\ (total <= 0 -> p = Int 0).

(** The lines [display_final_results] prints. *)
Definition no_result : list Message :=
  [mkMessage "\nAucun résultat disponible pour le dernier tour." []].

Definition results_header : list Message :=
  [mkMessage "\n{'=' * 60}" [];
   mkMessage "RÉSULTATS DU DERNIER TOUR DE SCRUTIN" [];
   mkMessage "(Prix Goncourt 2025)" [];
   mkMessage "{'=' * 60}" []].

Definition vote_block (i : Z) (vote : Vote) (b : Book) (p : Value) : list Message :=
  [mkMessage "\n{i}. {vote.book.b_title}" [Int i; Str (b_title b)];
   mkMessage "   Auteur: {vote.book.author.full_name() if vote.book.author else 'Inconnu'}"
             [Str (GoncourtService.author_name b)];
   mkMessage "   Votes: {vote.v_number_vote} ({percentage:.1f}%)"
             [Int (v_number_vote vote); p]].

Definition winner_block (winner : Vote) (b : Book) : list Message :=
  [mkMessage "\n{'=' * 60}" [];
   mkMessage "🏆 PRIX GONCOURT 2025 ATTRIBUÉ À :" [];
   mkMessage "   « {winner.book.b_title} »" [Str (b_title b)];
   mkMessage "   de {winner.book.author.full_name() if winner.book.author else 'Inconnu'}"
             [Str (GoncourtService.author_name b)];
   mkMessage "   avec {winner.v_number_vote} voix" [Int (v_number_vote winner)];
   mkMessage "{'=' * 60}" []].

(** [lines] lists [votes] from rank [i] on, each with its book and its
    percentage of [total]. *)
Inductive rendered (total : Z) : Z -> list Vote -> list Message -> Prop :=
| rendered_nil i : rendered total i [] []
| rendered_cons i vote rest b p lines :
    v_book vote = Some b ->
    is_percentage (v_number_vote vote) total p ->
    rendered total (i + 1) rest lines ->
    rendered total i (vote :: rest) (vote_block i vote b p ++ lines).

(** The last [n] lines printed. *)
Definition last_lines (n : nat) (w : World) : list Message :=
  rev (firstn n (rev (stdout w))).

(** The call returns a value in every state, whatever faults are pending. *)
Definition never_raises {A} (m : M A) : Prop :=
  forall w, exists a w', m w = (Ok a, w').

(** What one president action leaves behind: either nothing was written,
    or the service created the round and [create_final_selection] ran
    right after the success line. *)
Definition chained (creation : list Z -> M bool) (success : string)
           (d d' : Database) : Prop :=
  d' = d
  \/ exists ids o1 w1 r o',
       creation ids (mkWorld d [] o1) = (Ok true, w1)
       /\ GoncourtService.create_final_selection
            (mkWorld (db w1) (faults w1) (stdout w1 ++ [mkMessage success []]))
          = (Ok r, mkWorld d' [] o').

(** A decision procedure for [db_wf]. *)
Definition nodupb {A} (eqb : A -> A -> bool) : list A -> bool :=
  fix go l :=
    match l with
    | [] => true
    | x :: t => negb (existsb (eqb x) t) && go t
    end.

Definition pair_eqb (x y : Z * Z) : bool := (fst x =? fst y) && (snd x =? snd y).

Definition db_wfb (d : Database) : bool :=
  nodupb Z.eqb (map b_id (t_book d))
  && nodupb Z.eqb (map selection_row.s_id (t_selection d))
  && nodupb pair_eqb (t_book_selection d)
  && (0 <? selection_auto_increment d)
  && forallb (fun r => selection_row.s_id r <? selection_auto_increment d) (t_selection d)
  && forallb (fun bs : Z * Z => snd bs <? selection_auto_increment d) (t_book_selection d).

(* ===================================================================== *)
(** ** A session *)
(* ===================================================================== *)

(** A catalogue of fifteen works, no selection yet. *)
Definition work (i : Z) : Book := mkBook i "Livre" None.

Definition catalogue : list Book :=
  map work [1; 2; 3; 4; 5; 6; 7; 8; 9; 10; 11; 12; 13; 14; 15].

Definition db_catalogue : Database := mkDatabase catalogue [] [] [] 1 1.

(** The application starts. *)
Definition w_round1 : World :=
  snd (GoncourtService._initialize_first_selection (mkWorld db_catalogue [] [])).

(** The president keeps the works listed first to eighth. *)
Definition w_round2 : World :=
  snd (GoncourtApplication.create_deuxieme_selection "" (Some [1; 2; 3; 4; 5; 6; 7; 8]) w_round1).

(** Then the works listed first to fourth; main.py chains the final selection. *)
Definition w_round3 : World :=
  snd (GoncourtApplication.create_troisieme_selection "" (Some [1; 2; 3; 4]) w_round2).

(** The jury votes; the dictionary lists the finalists in the order shown. *)
Definition w_votes : World :=
  snd (GoncourtService.record_final_votes (mkDate 2025 11 4)
                                          [(1, 1); (2, 4); (3, 2); (4, 3)] w_round3).

(** The votes are recorded again and the second INSERT of the replacement
    raises: the lookup of round 4 (two statements), the DELETE and the
    first INSERT pass. *)
Definition w_votes_insert_fails : World :=
  mkWorld (db w_votes) [false; false; false; false; true] [].

(** The president types the first work twice for the second selection. *)
Definition w_round2_duplicate : World :=
  snd (GoncourtApplication.create_deuxieme_selection "" (Some [1; 1; 2; 3; 4; 5; 6; 7]) w_round1).

(** The president types the first work twice for the third selection. *)
Definition w_round3_duplicate : World :=
  snd (GoncourtApplication.create_troisieme_selection "" (Some [1; 1; 2; 3]) w_round2).

(** Rounds 1 to 3 as in the session, and a final selection defined earlier
    with the works 1, 2, 3 and 5. *)
Definition db_prior_final : Database :=
  mkDatabase
    catalogue
    [selection_row.mk 1 "PREMIÈRE SÉLECTION" 1 (Some (mkDate 2025 9 3));
     selection_row.mk 2 "DEUXIÈME SÉLECTION" 2 (Some (mkDate 2025 10 7));
     selection_row.mk 3 "TROISIÈME SÉLECTION" 3 (Some (mkDate 2025 10 28));
     selection_row.mk 4 "FINALISTES DU PRIX GONCOURT" 4 (Some (mkDate 2025 11 4))]
    (map (fun b => (b, 1)) [1; 2; 3; 4; 5; 6; 7; 8; 9; 10; 11; 12; 13; 14; 15]
     ++ map (fun b => (b, 2)) [1; 2; 3; 4; 5; 6; 7; 8]
     ++ map (fun b => (b, 3)) [1; 2; 3; 4]
     ++ map (fun b => (b, 4)) [1; 2; 3; 5])
    [] 5 1.

Definition w_prior_final : World := mkWorld db_prior_final [] [].

(** Round 3 is created by the service alone; during the first
    [create_final_selection] the fourth membership INSERT raises (the ten
    statements before it pass), which leaves a final selection of three works. *)
Definition w_round3_only : World :=
  snd (GoncourtService.create_troisieme_selection [1; 2; 3; 4] w_round2).

Definition w_final_incomplete : World :=
  snd (GoncourtService.create_final_selection
         (mkWorld (db w_round3_only) (repeat false 10 ++ [true]) [])).

(** The server goes away once the row of the second selection is
    committed: the eight reads, the lookup of round 1 (two statements), the
    INSERT and its commit pass; the eight membership inserts raise. *)
Definition w_round1_server_lost : World :=
  mkWorld (db w_round1) (repeat false 12 ++ repeat true 8) [].

(* ===================================================================== *)
(** ** Calls under any schedule of faults *)
(* ===================================================================== *)

(** Started in a state where [P] holds, the call returns [a] in a state
    where [Q a] holds, or raises in a state where [E] holds. *)
Definition hoare {A} (P : World -> Prop) (m : M A) (Q : A -> World -> Prop)
           (E : World -> Prop) : Prop :=
  forall w, P w ->
    match m w with
    | (Ok a, w') => Q a w'
    | (Raised _, w') => E w'
    end.

(** The call returns, and what it returns and leaves satisfies [Q]. *)
Definition returns {A} (m : M A) (w : World) (Q : A -> World -> Prop) : Prop :=
  exists a w', m w = (Ok a, w') /\ Q a w'.

(** The tables [d'] come from [d] by statements that write neither [book]
    nor an existing row of [selection] or [book_selection]: both tables
    only grow at their end, by rows keyed at or above the next key of [d]. *)
Record evolves (d d' : Database) : Prop := mk_evolves {
  ev_book : t_book d' = t_book d;
  ev_selection :
    exists rows,
      t_selection d' = t_selection d ++ rows
      /\ forall r, In r rows -> selection_auto_increment d <= selection_row.s_id r;
  ev_book_selection :
    exists pairs,
      t_book_selection d' = t_book_selection d ++ pairs
      /\ forall b s, In (b, s) pairs -> selection_auto_increment d <= s;
  ev_auto_increment : selection_auto_increment d <= selection_auto_increment d'
}.

(** The tables satisfy [J] and the [n] lines printed at the start of the
    call are still there: a condition no fault and no [print] can break. *)
Definition inv (J : Database -> Prop) (n : nat) (w : World) : Prop :=
  J (db w) /\ (n <= List.length (stdout w))%nat.

(** At least one line was printed since the [n]-th. *)
Definition printed_since (n : nat) (w : World) : Prop :=
  (n < List.length (stdout w))%nat.

(** What holds all along a call started with the well-formed tables [d0]. *)
Definition safe (d0 d : Database) : Prop := db_wf d /\ evolves d0 d.

(** [safe], plus: the key [sid] was issued since the start of the call. *)
Definition safe_for (d0 : Database) (sid : Z) (d : Database) : Prop :=
  safe d0 d /\ selection_auto_increment d0 <= sid < selection_auto_increment d.

(** [d'] comes from [d] by statements on the votes of selection [sid]. *)
Definition votes_written (sid : Z) (d d' : Database) : Prop :=
  t_book d' = t_book d
  /\ t_selection d' = t_selection d
  /\ t_book_selection d' = t_book_selection d
  /\ selection_auto_increment d' = selection_auto_increment d
  /\ other_votes d' sid = other_votes d sid.

(** The entry points that create selections: the initialisation run by
    the constructor of the service, the three creations of the service and
    the two actions of the president's menu that call them. *)
Inductive creates : forall A : Type, M A -> Prop :=
| creates_initialize : creates GoncourtService._initialize_first_selection
| creates_deuxieme book_ids : creates (GoncourtService.create_deuxieme_selection book_ids)
| creates_troisieme book_ids : creates (GoncourtService.create_troisieme_selection book_ids)
| creates_final : creates GoncourtService.create_final_selection
| creates_president_deuxieme replace numbers :
    creates (GoncourtApplication.create_deuxieme_selection replace numbers)
| creates_president_troisieme replace numbers :
    creates (GoncourtApplication.create_troisieme_selection replace numbers).

(** The entry points that record the votes: the call of the service and
    the action of the president's menu. *)
Inductive records : forall A : Type, M A -> Prop :=
| records_service today votes_data :
    records (GoncourtService.record_final_votes today votes_data)
| records_president lines confirm today :
    records (GoncourtApplication.record_final_votes lines confirm today).

Definition writes (A : Type) (m : M A) : Prop := creates m \/ records m.

(** The calls of the service that report success or failure. *)
Inductive reports : M bool -> Prop :=
| reports_deuxieme book_ids : reports (GoncourtService.create_deuxieme_selection book_ids)
| reports_troisieme book_ids : reports (GoncourtService.create_troisieme_selection book_ids)
| reports_final : reports GoncourtService.create_final_selection
| reports_votes today votes_data :
    reports (GoncourtService.record_final_votes today votes_data).

(** The tables [d'] hold the books and the votes of [d]. *)
Definition same_books_and_votes (d d' : Database) : Prop :=
  t_book d' = t_book d /\ t_vote d' = t_vote d
  /\ vote_auto_increment d' = vote_auto_increment d.

(** The tables [d'] differ from [d] at most by the votes of the final
    selection the application reads in [d]. *)
Definition only_final_votes_differ (d d' : Database) : Prop :=
  t_book d' = t_book d
  /\ t_selection d' = t_selection d
  /\ t_book_selection d' = t_book_selection d
  /\ selection_auto_increment d' = selection_auto_increment d
  /\ match round_row d 4 with
     | Some row => other_votes d' (selection_row.s_id row) = other_votes d (selection_row.s_id row)
     | None => t_vote d' = t_vote d
     end.

(** Two statements are lost while the works of the second selection are
    inserted: the 23rd and the 26th statement of the call raise. *)
Definition w_round1_flaky : World :=
  mkWorld (db w_round1) (repeat false 22 ++ [true; false; false; true]) [].

(** The INSERT of the second selection raises: the eight reads and the
    lookup of round 1 (two statements) pass. *)
Definition w_round1_insert_fails : World :=
  mkWorld (db w_round1) (repeat false 10 ++ [true]) [].

(** After the votes of the session, the sixth statement of the next call
    raises. *)
Definition w_votes_flaky : World :=
  mkWorld (db w_votes) (repeat false 5 ++ [true]) [].

(* ===================================================================== *)
(** ** The rounds of the prize *)
(* ===================================================================== *)

(** Round [k], when it exists, has its list of works related by [R] to the
    list of the round before, which exists too. *)
Definition linked (d : Database) (k : Z) (R : list Z -> list Z -> Prop) : Prop :=
  forall l, round_works d k = Some l ->
            exists p, round_works d (k - 1) = Some p /\ R l p.

(** The rounds narrow down: at most eight works of the first selection,
    then at most four of the second, then the four of the third. *)
Definition rounds_nested (d : Database) : Prop :=
  linked d 2 (fun l p => incl l p /\ (List.length l <= 8)%nat)
  /\ linked d 3 (fun l p => incl l p /\ (List.length l <= 4)%nat)
  /\ linked d 4 (fun l p => same_set l p /\ List.length l = 4%nat).

(** What the service has checked when it creates the selection [obj]. *)
Definition creation_checked (d : Database) (obj : Selection) : Prop :=
  (forall b, In b (book obj) -> In b (t_book d))
  /\ (s_round obj = 1 \/ s_round obj = 2 \/ s_round obj = 3 \/ s_round obj = 4)
  /\ (s_round obj = 2 ->
      exists p, round_works d 1 = Some p
                /\ incl (map b_id (book obj)) p /\ List.length (book obj) = 8%nat)
  /\ (s_round obj = 3 ->
      exists p, round_works d 2 = Some p
                /\ incl (map b_id (book obj)) p /\ List.length (book obj) = 4%nat)
  /\ (s_round obj = 4 ->
      exists p, round_works d 3 = Some p
                /\ map b_id (book obj) = p /\ List.length p = 4%nat).

(** What one creation of the service does to the tables when nothing
    raises: nothing, or one [SelectionDAO.create] after the checks. *)
Definition creation_step (d d' : Database) : Prop :=
  d' = d \/ exists obj, creation_checked d obj /\ d' = create_db obj d.

(* ===================================================================== *)
(** ** The votes typed by the president *)
(* ===================================================================== *)

(** The lines the vote prompts accept: the non-negative integers, in the
    order typed. *)
Definition accepted (lines : list (option Z)) : list Z :=
  flat_map (fun line => match line with
                        | Some votes => if votes <? 0 then [] else [votes]
                        | None => []
                        end)
           lines.

(** The first line the prompt of one book accepts, with the lines left. *)
Fixpoint next_vote (lines : list (option Z)) : option (Z * list (option Z)) :=
  match lines with
  | [] => None
  | None :: rest => next_vote rest
  | Some votes :: rest => if votes <? 0 then next_vote rest else Some (votes, rest)
  end.

(** The dictionary after the assignments [votes_data[k] = v] of [entries]. *)
Definition assign (votes_data : Dict) (entries : list (Z * Z)) : Dict :=
  fold_left (fun vd e => GoncourtApplication.setitem vd (fst e) (snd e)) entries votes_data.

(** The president's action records the votes: four valid counts were
    typed for the four finalists, they add up to 10 and the answer to the
    confirmation is "o". *)
Definition votes_confirmed (d : Database) (lines : list (option Z)) (confirm : string)
  : Prop :=
  (exists finalists, round_works d 4 = Some finalists /\ List.length finalists = 4%nat)
  /\ (4 <= List.length (accepted lines))%nat
  /\ sum (firstn 4 (accepted lines)) = 10
  /\ confirm = "o".

(** The works the president designates by the numbers typed, [shown] being
    the identifiers of the list on the screen. *)
Definition chosen (shown : list Z) (numbers : list Z) : list Z :=
  map (fun n => nth (Z.to_nat (n - 1)) shown 0) numbers.

(** The numbers typed are numbers of the list on the screen. *)
Definition on_screen (shown : list Z) (numbers : list Z) : Prop :=
  forall n, In n numbers -> 1 <= n <= Z.of_nat (List.length shown).

(** What a vote object shows of its record: the work and the count. *)
Definition ballot (vote : Vote) : option Z * Z :=
  (option_map b_id (v_book vote), v_number_vote vote).

(** The votes of round 4 all belong to the final selection the application
    reads. *)
Definition one_final_selection (d : Database) : Prop :=
  forall v row, round_row d 4 = Some row -> In v (t_vote d) -> round4_row d v = true ->
                vote_row.s_id v = selection_row.s_id row.

(* ===================================================================== *)
(** ** The other methods of the DAOs *)
(* ===================================================================== *)

(** The object [SelectionDAO.read] and [read_all] build from a row. *)
Definition selection_of_row (d : Database) (r : selection_row.t) : Selection :=
  mkSelection (selection_row.s_id r) (selection_row.s_name r)
              (selection_row.s_round r) (selection_row.s_date r)
              (BookDAO.select_by_selection (selection_row.s_id r) d).

(** The selection of key [pk], as [SelectionDAO.read] returns it when
    nothing raises. *)
Definition stored_selection (d : Database) (pk : Z) : option Selection :=
  option_map (selection_of_row d) (fetchone (SelectionDAO.select_by_id pk d)).

(** The tables after [SelectionDAO.update obj]. *)
Definition update_db (obj : Selection) (d : Database) : Database :=
  add_books_db (book obj) (s_id obj)
               (snd (SelectionDAO.delete_book_selection
                       (s_id obj) (snd (SelectionDAO.update_selection obj d)))).

(** The tables after [SelectionDAO.delete pk]. *)
Definition delete_db (pk : Z) (d : Database) : Database :=
  snd (SelectionDAO.delete_selection pk (snd (SelectionDAO.delete_book_selection pk d))).

(** A selection row has the key [pk]. *)
Definition selection_exists (d : Database) (pk : Z) : Prop :=
  exists r, In r (t_selection d) /\ selection_row.s_id r = pk.

(** Ascending rounds. *)
Definition by_round (a b : Selection) : Prop := s_round a <= s_round b.

(** The AUTO_INCREMENT discipline of table [vote]: the next key is above
    every key in use. *)
Definition votes_fresh (d : Database) : Prop :=
  forall v, In v (t_vote d) -> vote_row.v_id v < vote_auto_increment d.

Unset Implicit Arguments.

(* ===================================================================== *)
(** ** Lists *)
(* ===================================================================== *)

Lemma flat_map_nil {A B} (g : A -> list B) l :
  (forall x, In x l -> g x = []) -> flat_map g l = [].
Proof.
  induction l as [|x t IH]; simpl; intros H; [reflexivity|].
  rewrite (H x (or_introl eq_refl)), IH; [reflexivity|]. intros y Hy. apply H. right; exact Hy.
Qed.

(** A join on a key selects at most one row. *)
Lemma flat_map_select {A B} (key : A -> Z) (k : Z) (g : A -> list B) (l : list A) :
  NoDup (map key l) ->
  (forall x, key x <> k -> g x = []) ->
  flat_map g l = match find (fun x => key x =? k) l with
                 | Some x => g x
                 | None => []
                 end.
Proof.
  intros Hnd Hg. induction l as [|x t IH]; simpl; [reflexivity|].
  simpl in Hnd. apply NoDup_cons_iff in Hnd. destruct Hnd as [Hx Hnd].
  destruct (key x =? k) eqn:E.
  - apply Z.eqb_eq in E. rewrite flat_map_nil; [apply app_nil_r|].
    intros y Hy. apply Hg. intros Ey. apply Hx. rewrite E, <- Ey. apply in_map, Hy.
  - apply Z.eqb_neq in E. rewrite (Hg x E). simpl. apply IH, Hnd.
Qed.

Lemma find_key_existsb {A} (key : A -> Z) (k : Z) (p : A -> bool) (l : list A) :
  NoDup (map key l) ->
  existsb (fun x => (key x =? k) && p x) l
  = match find (fun x => key x =? k) l with
    | Some x => p x
    | None => false
    end.
Proof.
  intros Hnd. induction l as [|x t IH]; simpl; [reflexivity|].
  simpl in Hnd. apply NoDup_cons_iff in Hnd. destruct Hnd as [Hx Hnd].
  destruct (key x =? k) eqn:E; simpl; [|apply IH, Hnd].
  apply Z.eqb_eq in E. destruct (p x); [reflexivity|]. simpl.
  apply not_true_is_false. intros H. apply existsb_exists in H.
  destruct H as (y & Hy & Hc). apply andb_true_iff in Hc. destruct Hc as [Hc _].
  apply Z.eqb_eq in Hc. apply Hx. rewrite E, <- Hc. apply in_map, Hy.
Qed.

Lemma filter_filter_negb {A} (f : A -> bool) l :
  filter f (filter (fun x => negb (f x)) l) = [].
Proof.
  induction l as [|x t IH]; simpl; [reflexivity|].
  destruct (f x) eqn:E; simpl; [exact IH|]. rewrite E. exact IH.
Qed.

Lemma filter_idem {A} (f : A -> bool) l : filter f (filter f l) = filter f l.
Proof.
  induction l as [|x t IH]; simpl; [reflexivity|].
  destruct (f x) eqn:E; simpl; [rewrite E, IH; reflexivity | exact IH].
Qed.

Lemma filter_none {A} (f : A -> bool) l :
  filter f l = l -> filter (fun x => negb (f x)) l = [].
Proof.
  intros H. rewrite <- H. clear H. induction l as [|x t IH]; simpl; [reflexivity|].
  destruct (f x) eqn:E; simpl; [rewrite E; exact IH | exact IH].
Qed.

Lemma StronglySorted_map {A B} (f : A -> B) (R : B -> B -> Prop) (l : list A) :
  StronglySorted (fun x y => R (f x) (f y)) l -> StronglySorted R (map f l).
Proof.
  induction 1 as [|x t Hs IH Hall]; simpl; constructor; [exact IH|].
  rewrite Forall_forall in *. intros y Hy. apply in_map_iff in Hy.
  destruct Hy as (z & <- & Hz). apply Hall, Hz.
Qed.

Lemma StronglySorted_impl {A} (R R' : A -> A -> Prop) (l : list A) :
  (forall x y, R x y -> R' x y) -> StronglySorted R l -> StronglySorted R' l.
Proof.
  intros HR. induction 1 as [|x t Hs IH Hall]; constructor; [exact IH|].
  eapply Forall_impl; [|exact Hall]. intros y. apply HR.
Qed.

Lemma Forall2_map_same {A B C} (R : B -> C -> Prop) (f : A -> B) (g : A -> C) (l : list A) :
  (forall x, In x l -> R (f x) (g x)) -> Forall2 R (map f l) (map g l).
Proof.
  induction l as [|x t IH]; simpl; intros H; constructor.
  - apply H. left; reflexivity.
  - apply IH. intros y Hy. apply H. right; exact Hy.
Qed.

Lemma nodupb_sound {A} (eqb : A -> A -> bool) (l : list A) :
  (forall x y, x = y -> eqb x y = true) -> nodupb eqb l = true -> NoDup l.
Proof.
  intros Heq. induction l as [|x t IH]; simpl; intros H.
  - constructor.
  - apply andb_true_iff in H. destruct H as [Hx Ht]. constructor; [|auto].
    intros Hin. apply negb_true_iff in Hx.
    assert (existsb (eqb x) t = true)
      by (apply existsb_exists; exists x; split; [exact Hin | apply Heq; reflexivity]).
    congruence.
Qed.

Lemma same_set_distinct l ids :
  NoDup l -> same_set l ids -> List.length l = distinct ids.
Proof.
  intros Hl Hs. unfold distinct. apply Permutation_length, NoDup_Permutation.
  - exact Hl.
  - apply NoDup_nodup.
  - intros x. rewrite nodup_In. apply Hs.
Qed.

Lemma distinct_NoDup ids : NoDup ids -> distinct ids = List.length ids.
Proof. intros H. unfold distinct. rewrite nodup_fixed_point; [reflexivity | exact H]. Qed.

(* ===================================================================== *)
(** ** ORDER BY: permutation and order *)
(* ===================================================================== *)

Section OrderByFacts.
Variable A : Type.
Variable leb : A -> A -> bool.

Lemma insert_by_perm x l : Permutation (insert_by leb x l) (x :: l).
Proof.
  induction l as [|y t IH]; simpl.
  - apply Permutation_refl.
  - destruct (leb x y).
    + apply Permutation_refl.
    + apply perm_trans with (y :: x :: t).
      * apply perm_skip, IH.
      * apply perm_swap.
Qed.

Lemma order_by_perm l : Permutation (order_by leb l) l.
Proof.
  induction l as [|x t IH]; simpl.
  - apply perm_nil.
  - apply perm_trans with (x :: order_by leb t).
    + apply insert_by_perm.
    + apply perm_skip, IH.
Qed.

Lemma order_by_In x l : In x (order_by leb l) <-> In x l.
Proof.
  split; apply Permutation_in;
    [apply order_by_perm | apply Permutation_sym, order_by_perm].
Qed.

Lemma order_by_length l : List.length (order_by leb l) = List.length l.
Proof. apply Permutation_length, order_by_perm. Qed.

Lemma order_by_nil l : order_by leb l = [] <-> l = [].
Proof.
  split; intros H.
  - apply length_zero_iff_nil. rewrite <- order_by_length, H. reflexivity.
  - subst. reflexivity.
Qed.

Hypothesis leb_total : forall x y, leb x y = true \/ leb y x = true.
Hypothesis leb_trans : forall x y z, leb x y = true -> leb y z = true -> leb x z = true.

Let le x y := leb x y = true.

Lemma insert_by_sorted x l :
  StronglySorted le l -> StronglySorted le (insert_by leb x l).
Proof.
  induction 1 as [|y t Hs IH Hall]; simpl.
  - constructor; constructor.
  - destruct (leb x y) eqn:E.
    + constructor.
      * constructor; assumption.
      * constructor; [exact E|].
        eapply Forall_impl; [|exact Hall].
        intros z Hz. eapply leb_trans; eassumption.
    + constructor; [exact IH|].
      assert (Hyx : le y x) by (destruct (leb_total x y); [congruence | assumption]).
      rewrite Forall_forall. intros z Hz.
      apply (Permutation_in _ (insert_by_perm x t)) in Hz.
      destruct Hz as [<- | Hz]; [exact Hyx|].
      rewrite Forall_forall in Hall. apply Hall, Hz.
Qed.

Lemma order_by_sorted l : StronglySorted le (order_by leb l).
Proof.
  induction l; simpl; [constructor | apply insert_by_sorted; assumption].
Qed.
End OrderByFacts.

(* ===================================================================== *)
(** ** The DAOs when no statement raises *)
(* ===================================================================== *)

Ltac run_step :=
  unfold try_except, bind, ret, print, query, commit, execute; simpl.

Lemma read_quiet pk d o :
  BookDAO.read pk (mkWorld d [] o)
  = (Ok (fetchone (BookDAO.select_by_id pk d)), mkWorld d [] o).
Proof.
  unfold BookDAO.read. run_step.
  destruct (fetchone (BookDAO.select_by_id pk d)); reflexivity.
Qed.

Lemma read_all_quiet d o :
  BookDAO.read_all (mkWorld d [] o) = (Ok (BookDAO.select_all d), mkWorld d [] o).
Proof. reflexivity. Qed.

Lemma get_books_by_selection_quiet sid d o :
  BookDAO.get_books_by_selection sid (mkWorld d [] o)
  = (Ok (BookDAO.select_by_selection sid d), mkWorld d [] o).
Proof. reflexivity. Qed.

Lemma find_by_round_quiet n d o :
  SelectionDAO.find_by_round n (mkWorld d [] o)
  = (Ok (round_selection d n), mkWorld d [] o).
Proof.
  unfold SelectionDAO.find_by_round, round_selection, round_row. run_step.
  destruct (fetchone (SelectionDAO.select_by_round n d)); reflexivity.
Qed.

Lemma add_book_to_selection_quiet b s d o :
  SelectionDAO.add_book_to_selection b s (mkWorld d [] o)
  = (Ok (0 <? fst (SelectionDAO.insert_ignore_book_selection b s d)),
     mkWorld (snd (SelectionDAO.insert_ignore_book_selection b s d)) [] o).
Proof.
  unfold SelectionDAO.add_book_to_selection. run_step.
  destruct (SelectionDAO.insert_ignore_book_selection b s d); reflexivity.
Qed.

Lemma add_books_quiet books sid d o :
  SelectionDAO.add_books books sid (mkWorld d [] o)
  = (Ok tt, mkWorld (add_books_db books sid d) [] o).
Proof.
  revert d. induction books as [|b rest IH]; intros d; simpl.
  - reflexivity.
  - unfold bind at 1. rewrite add_book_to_selection_quiet. apply IH.
Qed.

Lemma create_quiet obj d o :
  SelectionDAO.create obj (mkWorld d [] o)
  = (Ok (selection_auto_increment d), mkWorld (create_db obj d) [] o).
Proof.
  unfold SelectionDAO.create, create_db. run_step.
  unfold bind. rewrite add_books_quiet. reflexivity.
Qed.

Lemma insert_votes_quiet entries sid vd d o :
  VoteDAO.insert_votes entries sid vd (mkWorld d [] o)
  = (Ok tt, mkWorld (insert_votes_db entries sid vd d) [] o).
Proof.
  revert d. induction entries as [|[b c] rest IH]; intros d; simpl.
  - reflexivity.
  - run_step. apply IH.
Qed.

Lemma record_final_votes_quiet votes_data sid vd d o :
  VoteDAO.record_final_votes votes_data sid vd (mkWorld d [] o)
  = (Ok true, mkWorld (record_db votes_data sid vd d) [] o).
Proof.
  unfold VoteDAO.record_final_votes, record_db, items. run_step.
  unfold bind. rewrite insert_votes_quiet. reflexivity.
Qed.

Lemma create_votes_quiet results d o :
  VoteDAO.create_votes results (mkWorld d [] o)
  = (Ok (map (vote_of_result d) results), mkWorld d [] o).
Proof.
  induction results as [|[[v b] s] rest IH]; simpl.
  - reflexivity.
  - unfold bind at 1. unfold VoteDAO._create_vote_from_result.
    unfold bind at 1. rewrite read_quiet. unfold ret at 1.
    unfold bind. rewrite IH. reflexivity.
Qed.

Lemma get_final_results_quiet d o :
  VoteDAO.get_final_results (mkWorld d [] o)
  = (Ok (map (vote_of_result d) (VoteDAO.select_final_results d)), mkWorld d [] o).
Proof.
  unfold VoteDAO.get_final_results, try_except, bind at 1. unfold query, execute. simpl.
  rewrite create_votes_quiet. reflexivity.
Qed.

(* ===================================================================== *)
(** ** Queries *)
(* ===================================================================== *)

Lemma contains_In l x : contains l x = true <-> In x l.
Proof.
  unfold contains. rewrite existsb_exists. split.
  - intros [y [Hy E]]. apply Z.eqb_eq in E. subst. exact Hy.
  - intros H. exists x. split; [exact H | apply Z.eqb_refl].
Qed.

Lemma first_missing_None ids allowed :
  GoncourtService.first_missing ids allowed = None <-> (forall id, In id ids -> In id allowed).
Proof.
  unfold GoncourtService.first_missing. split.
  - intros H id Hin. apply (find_none _ _ H) in Hin.
    apply negb_false_iff in Hin. apply contains_In, Hin.
  - intros H. destruct (find _ ids) eqn:E; [|reflexivity].
    apply find_some in E. destruct E as [Hin Hc].
    apply negb_true_iff in Hc. apply H, contains_In in Hin. congruence.
Qed.

Lemma first_missing_Some ids allowed id :
  GoncourtService.first_missing ids allowed = Some id -> In id ids /\ ~ In id allowed.
Proof.
  unfold GoncourtService.first_missing. intros E. apply find_some in E.
  destruct E as [Hin Hc]. split; [exact Hin|].
  intros H. apply contains_In in H. rewrite H in Hc. discriminate.
Qed.

Lemma select_by_id_Some pk d b :
  fetchone (BookDAO.select_by_id pk d) = Some b -> In b (t_book d) /\ b_id b = pk.
Proof.
  unfold fetchone, BookDAO.select_by_id. intros H.
  assert (Hin : In b (filter (fun b => b_id b =? pk) (t_book d))).
  { destruct (filter _ _); simpl in H; [discriminate|]. injection H as ->. left; reflexivity. }
  apply filter_In in Hin. destruct Hin as [Hin E]. apply Z.eqb_eq in E. auto.
Qed.

Lemma select_by_id_None pk d :
  fetchone (BookDAO.select_by_id pk d) = None <-> ~ stored_work d pk.
Proof.
  unfold fetchone, BookDAO.select_by_id, stored_work. split.
  - intros H [b [Hin E]].
    assert (Hf : In b (filter (fun b => b_id b =? pk) (t_book d))).
    { apply filter_In. split; [exact Hin | apply Z.eqb_eq, E]. }
    destruct (filter _ _); [destruct Hf | discriminate].
  - intros H. destruct (filter _ _) as [|b l] eqn:E; [reflexivity|].
    exfalso. apply H. exists b.
    assert (Hf : In b (filter (fun b => b_id b =? pk) (t_book d))) by (rewrite E; left; reflexivity).
    apply filter_In in Hf. destruct Hf as [Hin Hb]. apply Z.eqb_eq in Hb. auto.
Qed.

Lemma select_by_selection_In sid d b :
  In b (BookDAO.select_by_selection sid d)
  <-> In b (t_book d) /\ In (b_id b, sid) (t_book_selection d).
Proof.
  unfold BookDAO.select_by_selection. rewrite order_by_In, in_flat_map. split.
  - intros [b' [Hb' H]]. apply in_flat_map in H. destruct H as [[bi si] [Hbs H]].
    simpl in H. destruct (b_id b' =? bi) eqn:E1; simpl in H; [|destruct H].
    destruct (si =? sid) eqn:E2; simpl in H; [|destruct H].
    destruct H as [<- | []]. apply Z.eqb_eq in E1, E2. subst. auto.
  - intros [Hb Hbs]. exists b. split; [exact Hb|].
    apply in_flat_map. exists (b_id b, sid). split; [exact Hbs|].
    simpl. rewrite !Z.eqb_refl. left; reflexivity.
Qed.

Lemma works_of_In d sid id : In id (works_of d sid) <-> member d sid id.
Proof.
  unfold works_of, member, stored_work. rewrite in_map_iff. split.
  - intros [b [E H]]. apply select_by_selection_In in H. destruct H as [Hb Hbs].
    subst. split; [exact Hbs | exists b; auto].
  - intros [Hbs [b [Hb E]]]. exists b. split; [exact E|].
    apply select_by_selection_In. subst. auto.
Qed.

Lemma round_row_Some d n r :
  round_row d n = Some r -> In r (t_selection d) /\ selection_row.s_round r = n.
Proof.
  unfold round_row, fetchone, SelectionDAO.select_by_round. intros H.
  assert (Hin : In r (filter (fun r => selection_row.s_round r =? n) (t_selection d))).
  { destruct (filter _ _); simpl in H; [discriminate|]. injection H as ->. left; reflexivity. }
  apply filter_In in Hin. destruct Hin as [Hin E]. apply Z.eqb_eq in E. auto.
Qed.

Lemma round_row_None d n : round_row d n = None <-> ~ round_exists d n.
Proof.
  unfold round_row, fetchone, SelectionDAO.select_by_round, round_exists. split.
  - intros H [r [Hin E]].
    assert (Hf : In r (filter (fun r => selection_row.s_round r =? n) (t_selection d))).
    { apply filter_In. split; [exact Hin | apply Z.eqb_eq, E]. }
    destruct (filter _ _); [destruct Hf | discriminate].
  - intros H. destruct (filter _ _) as [|r l] eqn:E; [reflexivity|].
    exfalso. apply H. exists r.
    assert (Hf : In r (filter (fun r => selection_row.s_round r =? n) (t_selection d)))
      by (rewrite E; left; reflexivity).
    apply filter_In in Hf. destruct Hf as [Hin Hb]. apply Z.eqb_eq in Hb. auto.
Qed.

Lemma round_exists_row d n : round_exists d n <-> exists r, round_row d n = Some r.
Proof.
  split.
  - intros H. destruct (round_row d n) eqn:E; [eauto|].
    apply round_row_None in E. contradiction.
  - intros [r H]. apply round_row_Some in H. exists r. exact H.
Qed.

Lemma round_selection_Some d n sel :
  round_selection d n = Some sel ->
  exists r, round_row d n = Some r /\ s_id sel = selection_row.s_id r
            /\ book sel = BookDAO.select_by_selection (selection_row.s_id r) d.
Proof.
  unfold round_selection. destruct (round_row d n) as [r|]; [|discriminate].
  intros H. injection H as <-. exists r. auto.
Qed.

Lemma round_selection_None d n : round_selection d n = None <-> round_row d n = None.
Proof.
  unfold round_selection. destruct (round_row d n); split; congruence.
Qed.

(** The loop that reads the requested books. *)
Lemma read_books_quiet ids d o :
  exists r o',
    GoncourtService.read_books ids (mkWorld d [] o) = (Ok r, mkWorld d [] o')
    /\ match r with
       | Some books => map b_id books = ids /\ (forall b, In b books -> In b (t_book d)) /\ o' = o
       | None => (exists id, In id ids /\ ~ stored_work d id) /\ o' <> o
       end.
Proof.
  induction ids as [|id rest IH]; simpl.
  - exists (Some []), o. repeat split. intros b [].
  - unfold bind at 1. rewrite read_quiet.
    destruct (fetchone (BookDAO.select_by_id id d)) as [b|] eqn:E.
    + apply select_by_id_Some in E. destruct E as [Hb Hid].
      destruct IH as [r [o' [Hrun Hr]]].
      unfold bind. rewrite Hrun. unfold ret.
      exists (option_map (cons b) r), o'. split; [reflexivity|].
      destruct r as [books|]; simpl.
      * destruct Hr as [Hm [Hall Ho]]. repeat split.
        -- congruence.
        -- intros b' [<- | H]; auto.
        -- exact Ho.
      * destruct Hr as [[id' [Hin Hns]] Ho]. split; [|exact Ho].
        exists id'. split; [right; exact Hin | exact Hns].
    + apply select_by_id_None in E. run_step.
      exists None, (o ++ [mkMessage "✗ Livre avec ID {book_id} non trouvé." [Int id]]).
      split; [reflexivity|]. split.
      * exists id. split; [left; reflexivity | exact E].
      * intros H. apply (f_equal (@List.length _)) in H.
        rewrite length_app in H. simpl in H. lia.
Qed.

Lemma round_selection_ids d n sel :
  round_selection d n = Some sel ->
  forall id, In id (map b_id (book sel)) <-> in_round d n id.
Proof.
  intros H id. apply round_selection_Some in H. destruct H as [r [Hr [_ Hb]]].
  rewrite Hb. fold (works_of d (selection_row.s_id r)). rewrite works_of_In.
  unfold in_round. split.
  - intros Hm. exists r. auto.
  - intros [r' [Hr' Hm]]. congruence.
Qed.

Lemma in_round_exists d n id : in_round d n id -> round_exists d n.
Proof. intros [r [Hr _]]. apply round_exists_row. eauto. Qed.

Lemma select_all_In d b : In b (BookDAO.select_all d) <-> In b (t_book d).
Proof. apply order_by_In. Qed.

Lemma membership_once (b : Book) (sid : Z) (l : list (Z * Z)) :
  NoDup l ->
  flat_map (fun bs : Z * Z => if (b_id b =? fst bs) && (snd bs =? sid) then [b] else []) l = []
  \/ flat_map (fun bs : Z * Z => if (b_id b =? fst bs) && (snd bs =? sid) then [b] else []) l
     = [b].
Proof.
  induction l as [|[x y] t IH]; intros Hnd; simpl; [left; reflexivity|].
  apply NoDup_cons_iff in Hnd. destruct Hnd as [Hx Hnd].
  destruct ((b_id b =? x) && (y =? sid)) eqn:E.
  - right. apply andb_true_iff in E. destruct E as [E1 E2].
    apply Z.eqb_eq in E1, E2. subst. simpl. f_equal.
    apply flat_map_nil. intros [x' y'] Hin. simpl.
    destruct ((b_id b =? x') && (y' =? sid)) eqn:E'; [|reflexivity].
    apply andb_true_iff in E'. destruct E' as [E1 E2].
    apply Z.eqb_eq in E1, E2. subst. contradiction.
  - simpl. apply IH, Hnd.
Qed.

(* ===================================================================== *)
(** ** The tables after [SelectionDAO.create] *)
(* ===================================================================== *)

Lemma insert_ignore_tables b s d :
  let d' := snd (SelectionDAO.insert_ignore_book_selection b s d) in
  t_book d' = t_book d /\ t_selection d' = t_selection d /\ t_vote d' = t_vote d
  /\ selection_auto_increment d' = selection_auto_increment d
  /\ vote_auto_increment d' = vote_auto_increment d.
Proof.
  unfold SelectionDAO.insert_ignore_book_selection.
  destruct (existsb _ _); simpl; repeat split.
Qed.

Lemma insert_ignore_In b s d x :
  In x (t_book_selection (snd (SelectionDAO.insert_ignore_book_selection b s d)))
  <-> In x (t_book_selection d) \/ x = (b, s).
Proof.
  unfold SelectionDAO.insert_ignore_book_selection.
  destruct (existsb _ _) eqn:E; simpl.
  - split; [auto|]. intros [H | ->]; [exact H|].
    apply existsb_exists in E. destruct E as [[b' s'] [Hin Hb]]. simpl in Hb.
    apply andb_true_iff in Hb. destruct Hb as [Hb Hs].
    apply Z.eqb_eq in Hb, Hs. subst. exact Hin.
  - rewrite in_app_iff. simpl. intuition congruence.
Qed.

Lemma insert_ignore_NoDup b s d :
  NoDup (t_book_selection d) ->
  NoDup (t_book_selection (snd (SelectionDAO.insert_ignore_book_selection b s d))).
Proof.
  intros H. unfold SelectionDAO.insert_ignore_book_selection.
  destruct (existsb _ _) eqn:E; simpl; [exact H|].
  apply NoDup_app; [exact H | repeat constructor; intros [] |].
  intros x Hx [<- | []].
  assert (Hex : existsb (fun bs : Z * Z => (fst bs =? b) && (snd bs =? s))
                        (t_book_selection d) = true).
  { apply existsb_exists. exists (b, s). split; [exact Hx|]. simpl. rewrite !Z.eqb_refl. reflexivity. }
  congruence.
Qed.

Lemma add_books_db_tables books sid d :
  let d' := add_books_db books sid d in
  t_book d' = t_book d /\ t_selection d' = t_selection d /\ t_vote d' = t_vote d
  /\ selection_auto_increment d' = selection_auto_increment d
  /\ vote_auto_increment d' = vote_auto_increment d.
Proof.
  revert d. induction books as [|b rest IH]; intros d; simpl.
  - repeat split.
  - specialize (IH (snd (SelectionDAO.insert_ignore_book_selection (b_id b) sid d))).
    pose proof (insert_ignore_tables (b_id b) sid d) as H. simpl in *.
    intuition congruence.
Qed.

Lemma add_books_db_In books sid d x :
  In x (t_book_selection (add_books_db books sid d))
  <-> In x (t_book_selection d) \/ (snd x = sid /\ In (fst x) (map b_id books)).
Proof.
  revert d. induction books as [|b rest IH]; intros d; simpl.
  - intuition.
  - unfold add_books_db in *. simpl. rewrite IH, insert_ignore_In.
    destruct x as [xb xs]. simpl. intuition (try congruence).
Qed.

Lemma add_books_db_NoDup books sid d :
  NoDup (t_book_selection d) -> NoDup (t_book_selection (add_books_db books sid d)).
Proof.
  revert d. induction books as [|b rest IH]; intros d H; simpl; [exact H|].
  apply IH, insert_ignore_NoDup, H.
Qed.

Lemma create_db_tables obj d :
  let d' := create_db obj d in
  t_book d' = t_book d
  /\ t_selection d'
     = t_selection d ++ [selection_row.mk (selection_auto_increment d) (s_name obj)
                                          (s_round obj) (s_date obj)]
  /\ t_vote d' = t_vote d
  /\ selection_auto_increment d' = selection_auto_increment d + 1
  /\ vote_auto_increment d' = vote_auto_increment d.
Proof.
  unfold create_db.
  pose proof (add_books_db_tables (book obj) (selection_auto_increment d)
                                  (snd (SelectionDAO.insert_selection obj d))) as H.
  simpl in *. intuition.
Qed.

Lemma create_db_In obj d x :
  In x (t_book_selection (create_db obj d))
  <-> In x (t_book_selection d)
      \/ (snd x = selection_auto_increment d /\ In (fst x) (map b_id (book obj))).
Proof. unfold create_db. rewrite add_books_db_In. reflexivity. Qed.

Lemma create_db_stored_work obj d id : stored_work (create_db obj d) id <-> stored_work d id.
Proof.
  unfold stored_work. destruct (create_db_tables obj d) as [-> _]. reflexivity.
Qed.

(** Selections that existed keep their works. *)
Lemma create_db_member_old obj d sid id :
  db_wf d -> sid <> selection_auto_increment d ->
  (member (create_db obj d) sid id <-> member d sid id).
Proof.
  intros Hwf Hsid. unfold member. rewrite create_db_In, create_db_stored_work. simpl.
  intuition.
Qed.

(** The new selection holds the works it was given, each once. *)
Lemma create_db_member_new obj d id :
  db_wf d ->
  (member (create_db obj d) (selection_auto_increment d) id
   <-> In id (map b_id (book obj)) /\ stored_work d id).
Proof.
  intros Hwf. unfold member. rewrite create_db_In, create_db_stored_work. simpl.
  split.
  - intros [[H | [_ H]] Hs]; [|auto].
    apply (wf_book_selection_fresh Hwf) in H. lia.
  - intros [H Hs]. auto.
Qed.

Lemma create_db_round_row obj d n :
  round_row (create_db obj d) n
  = match round_row d n with
    | Some r => Some r
    | None =>
        if s_round obj =? n
        then Some (selection_row.mk (selection_auto_increment d) (s_name obj)
                                    (s_round obj) (s_date obj))
        else None
    end.
Proof.
  unfold round_row, SelectionDAO.select_by_round, fetchone.
  destruct (create_db_tables obj d) as (_ & -> & _).
  rewrite filter_app. simpl.
  destruct (filter _ (t_selection d)); simpl; [|reflexivity].
  destruct (s_round obj =? n); reflexivity.
Qed.

Lemma create_db_wf obj d : db_wf d -> db_wf (create_db obj d).
Proof.
  intros Hwf. destruct (create_db_tables obj d) as (Hb & Hs & Hv & Ha & Hva).
  constructor.
  - rewrite Hb. apply (wf_book_key Hwf).
  - rewrite Hs, map_app. simpl. apply NoDup_app.
    + apply (wf_selection_key Hwf).
    + repeat constructor. intros [].
    + intros x Hx [<- | []]. apply in_map_iff in Hx. destruct Hx as [r [E Hr]].
      apply (wf_selection_fresh Hwf) in Hr. lia.
  - unfold create_db. apply add_books_db_NoDup. simpl. apply (wf_book_selection_key Hwf).
  - rewrite Ha. pose proof (wf_auto_increment Hwf). lia.
  - intros r Hr. rewrite Hs in Hr. rewrite Ha. apply in_app_iff in Hr.
    destruct Hr as [Hr | [<- | []]]; simpl; [|lia].
    apply (wf_selection_fresh Hwf) in Hr. lia.
  - intros b s H. rewrite Ha. apply create_db_In in H. simpl in H.
    destruct H as [H | [-> _]]; [|lia].
    apply (wf_book_selection_fresh Hwf) in H. lia.
Qed.

Lemma db_wfb_sound d : db_wfb d = true -> db_wf d.
Proof.
  unfold db_wfb. intros H.
  repeat (apply andb_true_iff in H; destruct H as [H ?]).
  constructor.
  - eapply nodupb_sound; [|eassumption]. intros x y ->. apply Z.eqb_refl.
  - eapply nodupb_sound; [|eassumption]. intros x y ->. apply Z.eqb_refl.
  - eapply nodupb_sound; [|eassumption]. intros x y ->. unfold pair_eqb.
    rewrite !Z.eqb_refl. reflexivity.
  - apply Z.ltb_lt. assumption.
  - intros r Hr. apply Z.ltb_lt.
    match goal with F : forallb _ (t_selection d) = true |- _ =>
      rewrite forallb_forall in F; apply (F r Hr) end.
  - intros b s Hbs. apply Z.ltb_lt.
    match goal with F : forallb _ (t_book_selection d) = true |- _ =>
      rewrite forallb_forall in F; apply (F (b, s) Hbs) end.
Qed.

Lemma works_of_NoDup d sid : db_wf d -> NoDup (works_of d sid).
Proof.
  intros Hwf. unfold works_of, BookDAO.select_by_selection.
  eapply Permutation_NoDup.
  - apply Permutation_map, Permutation_sym, order_by_perm.
  - pose proof (wf_book_key Hwf) as Hb. pose proof (wf_book_selection_key Hwf) as Hbs.
    induction (t_book d) as [|b t IH]; simpl; [constructor|].
    simpl in Hb. apply NoDup_cons_iff in Hb. destruct Hb as [Hx Hb].
    rewrite map_app.
    destruct (membership_once b sid (t_book_selection d) Hbs) as [-> | ->]; simpl.
    + apply IH, Hb.
    + constructor; [|apply IH, Hb].
      intros Hin. apply Hx. apply in_map_iff in Hin. destruct Hin as (b' & E & Hin).
      apply in_flat_map in Hin. destruct Hin as (b'' & Hb'' & Hin).
      apply in_flat_map in Hin. destruct Hin as (bs & _ & Hin).
      destruct (_ && _) in Hin; [|destruct Hin]. destruct Hin as [<- | []].
      rewrite <- E. apply in_map, Hb''.
Qed.

(** A round created where none existed holds the works it was given. *)
Lemma create_db_new_round obj d :
  db_wf d ->
  round_row d (s_round obj) = None ->
  (forall b, In b (book obj) -> In b (t_book d)) ->
  exists l,
    round_works (create_db obj d) (s_round obj) = Some l
    /\ NoDup l
    /\ same_set l (map b_id (book obj)).
Proof.
  intros Hwf Hnone Hstored. unfold round_works.
  rewrite create_db_round_row, Hnone, Z.eqb_refl. simpl.
  eexists. split; [reflexivity|]. split.
  - apply works_of_NoDup, create_db_wf, Hwf.
  - intros id. rewrite works_of_In, (create_db_member_new obj d id Hwf). split.
    + intros [H _]. exact H.
    + intros H. split; [exact H|]. apply in_map_iff in H. destruct H as (b & <- & Hb).
      exists b. auto.
Qed.

(** A round that exists is never replaced: [create] only appends, and the
    application reads the first row of a round. *)
Lemma create_keeps_existing_round (obj : Selection) (d : Database) (n : Z) (r : selection_row.t) :
  db_wf d -> round_row d n = Some r ->
  round_row (create_db obj d) n = Some r
  /\ (forall id, member (create_db obj d) (selection_row.s_id r) id
                 <-> member d (selection_row.s_id r) id).
Proof.
  intros Hwf Hr. split.
  - rewrite create_db_round_row, Hr. reflexivity.
  - intros id. apply create_db_member_old; [exact Hwf|].
    apply round_row_Some in Hr. destruct Hr as [Hin _].
    apply (wf_selection_fresh Hwf) in Hin. lia.
Qed.

(* ===================================================================== *)
(** ** No exception leaves a DAO or the service *)
(* ===================================================================== *)

Section NeverRaises.

Context {A B : Type}.

Lemma never_raises_ret (a : A) : never_raises (ret a).
Proof. intros w. exists a, w. reflexivity. Qed.

Lemma never_raises_bind (m : M A) (k : A -> M B) :
  never_raises m -> (forall a, never_raises (k a)) -> never_raises (bind m k).
Proof.
  intros Hm Hk w. destruct (Hm w) as (a & w1 & E1). destruct (Hk a w1) as (b & w2 & E2).
  exists b, w2. unfold bind. rewrite E1. exact E2.
Qed.

(** A handler that returns makes the whole [try] return, whatever its body does. *)
Lemma never_raises_try (body : M A) (handler : Exception -> M A) :
  (forall e, never_raises (handler e)) -> never_raises (try_except body handler).
Proof.
  intros Hh w. unfold try_except. destruct (body w) as [[a|e] w1].
  - exists a, w1. reflexivity.
  - apply Hh.
Qed.

End NeverRaises.

Lemma never_raises_print f a : never_raises (print f a).
Proof. intros w. eexists _, _. reflexivity. Qed.

Lemma never_raises_logged {A} (body : M A) (f : string) (a : A) :
  never_raises (try_except body (fun _ => print f [] ;;; ret a)).
Proof.
  apply never_raises_try. intros e.
  apply never_raises_bind; [apply never_raises_print | intros _; apply never_raises_ret].
Qed.

Create HintDb raises.

#[local] Hint Resolve never_raises_ret never_raises_print never_raises_logged : raises.

Ltac never_raises_step :=
  repeat first
    [ apply never_raises_logged
    | apply never_raises_ret
    | apply never_raises_print
    | apply never_raises_bind; [| intros ?]
    | match goal with
      | |- never_raises (match ?x with _ => _ end) => destruct x
      | |- never_raises (if ?x then _ else _) => destruct x
      end
    | solve [auto with raises] ].

Lemma read_never_raises pk : never_raises (BookDAO.read pk).
Proof. apply never_raises_logged. Qed.

Lemma read_all_never_raises : never_raises BookDAO.read_all.
Proof. apply never_raises_logged. Qed.

Lemma get_books_by_selection_never_raises sid :
  never_raises (BookDAO.get_books_by_selection sid).
Proof. apply never_raises_logged. Qed.

Lemma find_by_round_never_raises n : never_raises (SelectionDAO.find_by_round n).
Proof. apply never_raises_logged. Qed.

Lemma add_book_to_selection_never_raises b s :
  never_raises (SelectionDAO.add_book_to_selection b s).
Proof. apply never_raises_logged. Qed.

Lemma create_never_raises obj : never_raises (SelectionDAO.create obj).
Proof. apply never_raises_logged. Qed.

Lemma dao_get_final_results_never_raises : never_raises VoteDAO.get_final_results.
Proof. apply never_raises_logged. Qed.

Lemma dao_record_final_votes_never_raises votes_data sid vd :
  never_raises (VoteDAO.record_final_votes votes_data sid vd).
Proof. apply never_raises_logged. Qed.

#[local] Hint Resolve read_never_raises read_all_never_raises
  get_books_by_selection_never_raises find_by_round_never_raises
  add_book_to_selection_never_raises create_never_raises
  dao_get_final_results_never_raises dao_record_final_votes_never_raises : raises.

Lemma read_books_never_raises ids : never_raises (GoncourtService.read_books ids).
Proof. induction ids as [|id rest IH]; simpl; never_raises_step. Qed.

#[local] Hint Resolve read_books_never_raises : raises.

Lemma initialize_never_raises : never_raises GoncourtService._initialize_first_selection.
Proof. unfold GoncourtService._initialize_first_selection. never_raises_step. Qed.

Lemma create_deuxieme_selection_never_raises ids :
  never_raises (GoncourtService.create_deuxieme_selection ids).
Proof. unfold GoncourtService.create_deuxieme_selection. never_raises_step. Qed.

Lemma create_troisieme_selection_never_raises ids :
  never_raises (GoncourtService.create_troisieme_selection ids).
Proof. unfold GoncourtService.create_troisieme_selection. never_raises_step. Qed.

Lemma create_final_selection_never_raises :
  never_raises GoncourtService.create_final_selection.
Proof. unfold GoncourtService.create_final_selection. never_raises_step. Qed.

Lemma record_final_votes_never_raises today votes_data :
  never_raises (GoncourtService.record_final_votes today votes_data).
Proof. unfold GoncourtService.record_final_votes. never_raises_step. Qed.

Lemma get_current_state_never_raises : never_raises GoncourtService.get_current_state.
Proof. unfold GoncourtService.get_current_state. never_raises_step. Qed.

Lemma get_available_books_never_raises n :
  never_raises (GoncourtService.get_available_books_for_selection n).
Proof. unfold GoncourtService.get_available_books_for_selection. never_raises_step. Qed.

#[local] Hint Resolve get_current_state_never_raises get_available_books_never_raises
  create_final_selection_never_raises : raises.

Lemma print_books_never_raises i books : never_raises (GoncourtApplication.print_books i books).
Proof. revert i. induction books as [|b rest IH]; intros i; simpl; never_raises_step. Qed.

#[local] Hint Resolve print_books_never_raises : raises.

(** main.py wraps the creation in [try]/[except Exception]. *)
Lemma app_create_deuxieme_selection_never_raises replace numbers :
  never_raises (GoncourtApplication.create_deuxieme_selection replace numbers).
Proof.
  unfold GoncourtApplication.create_deuxieme_selection.
  never_raises_step; apply never_raises_try; intros e; apply never_raises_print.
Qed.

Lemma app_create_troisieme_selection_never_raises replace numbers :
  never_raises (GoncourtApplication.create_troisieme_selection replace numbers).
Proof.
  unfold GoncourtApplication.create_troisieme_selection.
  never_raises_step; apply never_raises_try; intros e; apply never_raises_print.
Qed.

(* ===================================================================== *)
(** ** Reads under pending faults *)
(* ===================================================================== *)

Lemma query_cases {A} (q : Database -> A) w :
  (exists w', query q w = (Raised DatabaseError, w')
              /\ db w' = db w /\ stdout w' = stdout w)
  \/ (exists w', query q w = (Ok (q (db w)), w')
                 /\ db w' = db w /\ stdout w' = stdout w).
Proof.
  destruct w as [d f o]. unfold query, execute. simpl.
  destruct f as [|[|] fs]; [right | left | right]; eexists; repeat split.
Qed.

Lemma read_sound pk w :
  exists r w',
    BookDAO.read pk w = (Ok r, w') /\ db w' = db w
    /\ (forall b, r = Some b -> In b (t_book (db w)) /\ b_id b = pk).
Proof.
  destruct w as [d f o]. unfold BookDAO.read. run_step.
  destruct f as [|[|] fs]; simpl.
  - destruct (fetchone (BookDAO.select_by_id pk d)) as [b|] eqn:E; simpl;
      eexists _, _; (split; [reflexivity|]); (split; [reflexivity|]).
    + intros b' [= <-]. apply select_by_id_Some, E.
    + discriminate.
  - eexists _, _. split; [reflexivity|]. split; [reflexivity | discriminate].
  - destruct (fetchone (BookDAO.select_by_id pk d)) as [b|] eqn:E; simpl;
      eexists _, _; (split; [reflexivity|]); (split; [reflexivity|]).
    + intros b' [= <-]. apply select_by_id_Some, E.
    + discriminate.
Qed.

Lemma get_books_by_selection_sound sid w :
  exists l w',
    BookDAO.get_books_by_selection sid w = (Ok l, w') /\ db w' = db w
    /\ (forall b, In b l -> In b (BookDAO.select_by_selection sid (db w))).
Proof.
  destruct w as [d f o]. unfold BookDAO.get_books_by_selection. run_step.
  destruct f as [|[|] fs]; simpl; eexists _, _;
    (split; [reflexivity|]); (split; [reflexivity|]); auto.
  intros b [].
Qed.

Lemma find_by_round_sound n w :
  exists r w',
    SelectionDAO.find_by_round n w = (Ok r, w') /\ db w' = db w
    /\ (forall sel, r = Some sel ->
        exists row,
          round_row (db w) n = Some row
          /\ forall b, In b (book sel)
                       -> In b (BookDAO.select_by_selection (selection_row.s_id row) (db w))).
Proof.
  unfold SelectionDAO.find_by_round, try_except, bind at 1.
  destruct (query_cases (fun d => fetchone (SelectionDAO.select_by_round n d)) w)
    as [(w1 & -> & Hd & _) | (w1 & -> & Hd & _)].
  - eexists _, _. split; [reflexivity|]. split; [exact Hd | discriminate].
  - fold (round_row (db w) n). destruct (round_row (db w) n) as [row|] eqn:Er.
    + destruct (get_books_by_selection_sound
                  (s_id (SelectionDAO._create_selection_from_result row)) w1)
        as (l & w2 & Hrun & Hd2 & Hl).
      unfold bind. rewrite Hrun. unfold ret.
      eexists _, _. split; [reflexivity|]. split; [congruence|].
      intros sel [= <-]. exists row. split; [reflexivity|]. simpl.
      rewrite <- Hd. exact Hl.
    + eexists _, _. split; [reflexivity|]. split; [exact Hd | discriminate].
Qed.

Lemma read_books_sound ids : forall w,
  exists r w',
    GoncourtService.read_books ids w = (Ok r, w') /\ db w' = db w
    /\ (forall books, r = Some books ->
        map b_id books = ids /\ forall b, In b books -> In b (t_book (db w))).
Proof.
  induction ids as [|id rest IH]; intros w; simpl.
  - eexists _, _. split; [reflexivity|]. split; [reflexivity|].
    intros books [= <-]. split; [reflexivity | intros b []].
  - destruct (read_sound id w) as (r & w1 & Hrun & Hd & Hr).
    unfold bind at 1. rewrite Hrun. destruct r as [b|].
    + destruct (IH w1) as (r2 & w2 & Hrun2 & Hd2 & Hr2).
      unfold bind. rewrite Hrun2. unfold ret.
      eexists _, _. split; [reflexivity|]. split; [congruence|].
      destruct r2 as [books|]; [|discriminate]. simpl. intros ? [= <-].
      destruct (Hr b eq_refl) as [Hb Hid]. destruct (Hr2 books eq_refl) as [Hm Hall].
      split; [simpl; congruence|]. intros b' [<- | H]; [exact Hb|].
      rewrite <- Hd. apply Hall, H.
    + unfold bind, print, ret. cbn [db faults stdout].
      eexists _, _. split; [reflexivity|]. split; [exact Hd | discriminate].
Qed.

(* ===================================================================== *)
(** ** C2: creation of the second and third selections *)
(* ===================================================================== *)

Ltac refused tac :=
  eexists _, _; split; [reflexivity|]; split; [reflexivity|];
  split; [split; [discriminate | tac] | split; [intros _; reflexivity | discriminate]].

Ltac create_round_script d o book_ids Hwf :=
  let E := fresh "E" in
  run_step;
  match goal with
  | |- context [negb (Z.of_nat (List.length book_ids) =? ?k)] =>
      destruct (Z.of_nat (List.length book_ids) =? k) eqn:E; simpl
  end;
  [ apply Z.eqb_eq in E
  | apply Z.eqb_neq in E; refused ltac:(intros (_ & Hl & _); lia) ];
  let r := fresh "r" in
  let o' := fresh "o'" in
  let Hrun := fresh "Hrun" in
  let Hr := fresh "Hr" in
  destruct (read_books_quiet book_ids d o) as [r [o' [Hrun Hr]]];
  unfold bind; rewrite Hrun;
  destruct r as [books|];
  [ destruct Hr as (Hm & Hall & ->)
  | destruct Hr as [(id & Hin & Hns) _];
    refused ltac:(intros (_ & _ & Hs & _); exfalso; apply Hns, Hs, Hin) ];
  rewrite find_by_round_quiet;
  match goal with
  | |- context [round_selection d ?n] =>
      let sel := fresh "sel" in
      let Es := fresh "Es" in
      destruct (round_selection d n) as [sel|] eqn:Es;
      [ | apply round_selection_None, round_row_None in Es;
          refused ltac:(intros (Hex & _); contradiction) ];
      let Em := fresh "Em" in
      let bad := fresh "bad" in
      destruct (GoncourtService.first_missing book_ids (map b_id (book sel))) as [bad|] eqn:Em;
      [ apply first_missing_Some in Em; destruct Em as [Hin Hnot];
        refused ltac:(intros (_ & _ & _ & Hr); exfalso; apply Hnot;
                      apply (round_selection_ids _ _ _ Es), Hr, Hin)
      | rewrite create_quiet;
        destruct (selection_auto_increment d =? 0) eqn:Ez;
        [ apply Z.eqb_eq in Ez; pose proof (wf_auto_increment Hwf); lia | ];
        simpl; eexists _, _; split; [reflexivity|]; split; [reflexivity|];
        split;
        [ split; [intros _ | reflexivity];
          pose proof (proj1 (first_missing_None _ _) Em) as Hall';
          repeat split;
          [ apply round_exists_row; apply round_selection_Some in Es;
            destruct Es as (r0 & Hr0 & _); eauto
          | lia
          | intros id Hid; apply Hall', (round_selection_ids _ _ _ Es) in Hid;
            destruct Hid as (r0 & _ & _ & Hs); exact Hs
          | intros id Hid; apply (round_selection_ids _ _ _ Es), Hall', Hid ]
        | split; [discriminate | intros _; exists books; repeat split; assumption] ] ]
  end.

(** The outcome of a creation: the verdict, no write on refusal, and on
    success the tables [SelectionDAO.create] leaves for the books read. *)
Lemma create_deuxieme_selection_outcome d o book_ids :
  db_wf d ->
  exists r w',
    GoncourtService.create_deuxieme_selection book_ids (mkWorld d [] o) = (Ok r, w')
    /\ quiet w'
    /\ (r = true <-> round_request_ok d 2 8 book_ids)
    /\ (r = false -> db w' = d)
    /\ (r = true ->
        exists books,
          map b_id books = book_ids
          /\ (forall b, In b books -> In b (t_book d))
          /\ db w' = create_db (mkSelection 0 "DEUXIÈME SÉLECTION" 2
                                            (Some (mkDate 2025 10 7)) books) d).
Proof.
  intros Hwf. unfold GoncourtService.create_deuxieme_selection, round_request_ok.
  create_round_script d o book_ids Hwf.
Qed.

Lemma create_troisieme_selection_outcome d o book_ids :
  db_wf d ->
  exists r w',
    GoncourtService.create_troisieme_selection book_ids (mkWorld d [] o) = (Ok r, w')
    /\ quiet w'
    /\ (r = true <-> round_request_ok d 3 4 book_ids)
    /\ (r = false -> db w' = d)
    /\ (r = true ->
        exists books,
          map b_id books = book_ids
          /\ (forall b, In b books -> In b (t_book d))
          /\ db w' = create_db (mkSelection 0 "TROISIÈME SÉLECTION" 3
                                            (Some (mkDate 2025 10 28)) books) d).
Proof.
  intros Hwf. unfold GoncourtService.create_troisieme_selection, round_request_ok.
  create_round_script d o book_ids Hwf.
Qed.

Lemma create_deuxieme_selection_iff d o book_ids :
  db_wf d ->
  exists r w',
    GoncourtService.create_deuxieme_selection book_ids (mkWorld d [] o) = (Ok r, w')
    /\ (r = true <-> round_request_ok d 2 8 book_ids).
Proof.
  intros Hwf. destruct (create_deuxieme_selection_outcome d o book_ids Hwf)
    as (r & w' & H1 & _ & H2 & _). eauto.
Qed.

Lemma create_troisieme_selection_iff d o book_ids :
  db_wf d ->
  exists r w',
    GoncourtService.create_troisieme_selection book_ids (mkWorld d [] o) = (Ok r, w')
    /\ (r = true <-> round_request_ok d 3 4 book_ids).
Proof.
  intros Hwf. destruct (create_troisieme_selection_outcome d o book_ids Hwf)
    as (r & w' & H1 & _ & H2 & _). eauto.
Qed.

Ltac refused_any := unfold bind, print, ret; eexists _, _; split; [reflexivity | discriminate].

Ltac sound_round_script book_ids :=
  intros w;
  match goal with
  | |- context [negb (Z.of_nat (List.length book_ids) =? ?k)] =>
      let E := fresh "E" in
      destruct (Z.of_nat (List.length book_ids) =? k) eqn:E; cbn [negb];
      [apply Z.eqb_eq in E | refused_any]
  end;
  let r := fresh "r" in
  let w1 := fresh "w1" in
  let Hrun := fresh "Hrun" in
  let Hd := fresh "Hd" in
  let Hr := fresh "Hr" in
  destruct (read_books_sound book_ids w) as (r & w1 & Hrun & Hd & Hr);
  unfold bind at 1; rewrite Hrun;
  destruct r as [books|]; [|eexists _, _; split; [reflexivity | discriminate]];
  destruct (Hr books eq_refl) as [Hm Hall];
  unfold bind at 1;
  match goal with
  | |- context [SelectionDAO.find_by_round ?n ?wa] =>
      let r2 := fresh "r2" in
      let w2 := fresh "w2" in
      let Hrun2 := fresh "Hrun2" in
      let Hd2 := fresh "Hd2" in
      let Hr2 := fresh "Hr2" in
      destruct (find_by_round_sound n wa) as (r2 & w2 & Hrun2 & Hd2 & Hr2);
      rewrite Hrun2;
      destruct r2 as [sel|]; [|refused_any];
      destruct (Hr2 sel eq_refl) as (row & Hrow & Hbooks);
      let Em := fresh "Em" in
      destruct (GoncourtService.first_missing book_ids (map b_id (book sel))) eqn:Em;
      [refused_any|];
      pose proof (proj1 (first_missing_None _ _) Em) as Hin;
      unfold bind at 1;
      match goal with
      | |- context [SelectionDAO.create ?obj ?wb] =>
          let id := fresh "id" in
          let w3 := fresh "w3" in
          let Hrun3 := fresh "Hrun3" in
          destruct (create_never_raises obj wb) as (id & w3 & Hrun3);
          rewrite Hrun3;
          destruct (negb (id =? 0)); [|refused_any];
          unfold bind, print, ret; eexists _, _; split; [reflexivity|];
          intros _; rewrite Hd in Hrow, Hbooks;
          destruct (round_row_Some _ _ _ Hrow) as [Hrin Hrn];
          assert (Hround : forall x, In x book_ids -> in_round (db w) n x)
            by (intros x Hx; apply Hin, in_map_iff in Hx; destruct Hx as (b & <- & Hb);
                exists row; split; [exact Hrow | apply works_of_In, in_map, Hbooks, Hb]);
          repeat split;
          [ exists row; split; assumption
          | lia
          | intros x Hx; destruct (Hround x Hx) as (_ & _ & _ & Hs); exact Hs
          | exact Hround ]
      end
  end.

Lemma create_deuxieme_selection_sound book_ids : forall w,
  exists r w',
    GoncourtService.create_deuxieme_selection book_ids w = (Ok r, w')
    /\ (r = true -> round_request_ok (db w) 2 8 book_ids).
Proof.
  unfold GoncourtService.create_deuxieme_selection, round_request_ok.
  sound_round_script book_ids.
Qed.

Lemma create_troisieme_selection_sound book_ids : forall w,
  exists r w',
    GoncourtService.create_troisieme_selection book_ids w = (Ok r, w')
    /\ (r = true -> round_request_ok (db w) 3 4 book_ids).
Proof.
  unfold GoncourtService.create_troisieme_selection, round_request_ok.
  sound_round_script book_ids.
Qed.

(** C2.  [create_deuxieme_selection] and [create_troisieme_selection]
    always return a boolean.  Whatever faults are pending, they return
    [True] only if the previous round exists, the list has 8 (resp. 4)
    identifiers, each identifier is the key of a stored work and each
    belongs to the previous round; and with no persistence fault they
    return [True] whenever these conditions hold. *)
Theorem create_round_succeeds_iff (w : World) (book_ids : list Z) :
  (exists r w',
      GoncourtService.create_deuxieme_selection book_ids w = (Ok r, w')
      /\ (r = true -> round_request_ok (db w) 2 8 book_ids)
      /\ (quiet w -> db_wf (db w) -> round_request_ok (db w) 2 8 book_ids -> r = true))
  /\ (exists r w',
         GoncourtService.create_troisieme_selection book_ids w = (Ok r, w')
         /\ (r = true -> round_request_ok (db w) 3 4 book_ids)
         /\ (quiet w -> db_wf (db w) -> round_request_ok (db w) 3 4 book_ids -> r = true)).
Proof.
  split.
  - destruct (create_deuxieme_selection_sound book_ids w) as (r & w' & Hrun & Hs).
    exists r, w'. split; [exact Hrun|]. split; [exact Hs|].
    destruct w as [d f o]. unfold quiet. simpl. intros -> Hwf Hok.
    destruct (create_deuxieme_selection_iff d o book_ids Hwf) as (r' & w'' & Hrun' & Hiff).
    rewrite Hrun in Hrun'. injection Hrun' as -> _. apply Hiff, Hok.
  - destruct (create_troisieme_selection_sound book_ids w) as (r & w' & Hrun & Hs).
    exists r, w'. split; [exact Hrun|]. split; [exact Hs|].
    destruct w as [d f o]. unfold quiet. simpl. intros -> Hwf Hok.
    destruct (create_troisieme_selection_iff d o book_ids Hwf) as (r' & w'' & Hrun' & Hiff).
    rewrite Hrun in Hrun'. injection Hrun' as -> _. apply Hiff, Hok.
Qed.

(** The works listed first to eighth are accepted for round 2, and the
    conditions of the theorem hold for them. *)
Lemma create_round_succeeds_iff_witness :
  quiet w_round1 /\ db_wf (db w_round1)
  /\ round_request_ok (db w_round1) 2 8 [1; 2; 3; 4; 5; 6; 7; 8]
  /\ exists w',
      GoncourtService.create_deuxieme_selection [1; 2; 3; 4; 5; 6; 7; 8] w_round1
      = (Ok true, w').
Proof.
  assert (Hq : quiet w_round1) by reflexivity.
  assert (Hwf : db_wf (db w_round1)) by (apply db_wfb_sound; vm_compute; reflexivity).
  assert (Hrow : round_row (db w_round1) 1
                 = Some (selection_row.mk 1 "PREMIÈRE SÉLECTION" 1 (Some (mkDate 2025 9 3))))
    by (vm_compute; reflexivity).
  assert (Hworks : works_of (db w_round1) 1
                   = [1; 2; 3; 4; 5; 6; 7; 8; 9; 10; 11; 12; 13; 14; 15])
    by (vm_compute; reflexivity).
  assert (Hmem : forall id, In id [1; 2; 3; 4; 5; 6; 7; 8] -> member (db w_round1) 1 id).
  { intros id Hid. apply (proj1 (works_of_In (db w_round1) 1 id)). rewrite Hworks.
    simpl in Hid |- *. intuition. }
  assert (Hok : round_request_ok (db w_round1) 2 8 [1; 2; 3; 4; 5; 6; 7; 8]).
  { split; [apply (proj2 (round_exists_row (db w_round1) 1)); eauto|].
    split; [reflexivity|]. split.
    - intros id Hid. apply (Hmem id Hid).
    - intros id Hid. eexists. split; [exact Hrow | exact (Hmem id Hid)]. }
  split; [exact Hq|]. split; [exact Hwf|]. split; [exact Hok|].
  destruct (proj1 (create_round_succeeds_iff w_round1 [1; 2; 3; 4; 5; 6; 7; 8]))
    as (r & w' & Hrun & _ & Htrue).
  exists w'. rewrite Hrun, (Htrue Hq Hwf Hok). reflexivity.
Defined.

(* ===================================================================== *)
(** ** C4: the number of works of a round *)
(* ===================================================================== *)

(** The number of works a created round holds is the number of distinct
    identifiers requested: the required 8 or 4 exactly when no identifier
    is repeated. *)
Lemma create_deuxieme_selection_cardinality (w w' : World) (book_ids : list Z) :
  quiet w -> db_wf (db w) -> ~ round_exists (db w) 2 ->
  GoncourtService.create_deuxieme_selection book_ids w = (Ok true, w') ->
  exists l,
    round_works (db w') 2 = Some l
    /\ same_set l book_ids
    /\ List.length l = distinct book_ids
    /\ (NoDup book_ids -> List.length l = 8%nat).
Proof.
  destruct w as [d f o]. unfold quiet. simpl. intros -> Hwf Hno Hrun.
  destruct (create_deuxieme_selection_outcome d o book_ids Hwf)
    as (r & w1 & Hrun' & _ & Hiff & _ & Htrue).
  rewrite Hrun in Hrun'. injection Hrun' as <- <-.
  destruct (Htrue eq_refl) as (books & Hm & Hall & Hdb).
  apply round_row_None in Hno.
  destruct (create_db_new_round
              (mkSelection 0 "DEUXIÈME SÉLECTION" 2 (Some (mkDate 2025 10 7)) books)
              d Hwf Hno Hall) as (l & Hl & Hnd & Hs).
  simpl in Hl, Hs. rewrite Hm in Hs. rewrite Hdb.
  exists l. split; [exact Hl|]. split; [exact Hs|].
  pose proof (same_set_distinct l book_ids Hnd Hs) as Hlen. split; [exact Hlen|].
  intros Hnd'. rewrite Hlen, distinct_NoDup by exact Hnd'.
  apply (proj1 Hiff eq_refl).
Qed.

Lemma create_troisieme_selection_cardinality (w w' : World) (book_ids : list Z) :
  quiet w -> db_wf (db w) -> ~ round_exists (db w) 3 ->
  GoncourtService.create_troisieme_selection book_ids w = (Ok true, w') ->
  exists l,
    round_works (db w') 3 = Some l
    /\ same_set l book_ids
    /\ List.length l = distinct book_ids
    /\ (NoDup book_ids -> List.length l = 4%nat).
Proof.
  destruct w as [d f o]. unfold quiet. simpl. intros -> Hwf Hno Hrun.
  destruct (create_troisieme_selection_outcome d o book_ids Hwf)
    as (r & w1 & Hrun' & _ & Hiff & _ & Htrue).
  rewrite Hrun in Hrun'. injection Hrun' as <- <-.
  destruct (Htrue eq_refl) as (books & Hm & Hall & Hdb).
  apply round_row_None in Hno.
  destruct (create_db_new_round
              (mkSelection 0 "TROISIÈME SÉLECTION" 3 (Some (mkDate 2025 10 28)) books)
              d Hwf Hno Hall) as (l & Hl & Hnd & Hs).
  simpl in Hl, Hs. rewrite Hm in Hs. rewrite Hdb.
  exists l. split; [exact Hl|]. split; [exact Hs|].
  pose proof (same_set_distinct l book_ids Hnd Hs) as Hlen. split; [exact Hlen|].
  intros Hnd'. rewrite Hlen, distinct_NoDup by exact Hnd'.
  apply (proj1 Hiff eq_refl).
Qed.

(** C4 at the failing input.  Round 1 holds the fifteen works; the list
    1,1,2,3,4,5,6,7 has eight entries, so the service accepts it and
    reports eight books, and the stored second selection has seven works. *)
Theorem create_deuxieme_selection_duplicate_ids :
  round_works (db w_round1) 1 = Some [1; 2; 3; 4; 5; 6; 7; 8; 9; 10; 11; 12; 13; 14; 15]
  /\ (exists w',
         GoncourtService.create_deuxieme_selection [1; 1; 2; 3; 4; 5; 6; 7] w_round1
         = (Ok true, w')
         /\ last (stdout w') (mkMessage "" [])
            = mkMessage "✓ Deuxième sélection créée avec {len(books)} livres" [Int 8]
         /\ round_works (db w') 2 = Some [1; 2; 3; 4; 5; 6; 7])
  /\ round_works (db w_round2_duplicate) 2 = Some [1; 2; 3; 4; 5; 6; 7]
  /\ distinct [1; 2; 3; 4; 5; 6; 7] = 7%nat.
Proof.
  split; [vm_compute; reflexivity|]. split.
  - eexists. split; [vm_compute; reflexivity|]. split; vm_compute; reflexivity.
  - split; vm_compute; reflexivity.
Qed.

(* ===================================================================== *)
(** ** C3: the final selection *)
(* ===================================================================== *)

Lemma create_final_selection_quiet d o :
  GoncourtService.create_final_selection (mkWorld d [] o)
  = match round_selection d 3 with
    | None =>
        (Ok false,
         mkWorld d [] (o ++ [mkMessage
           "✗ La troisième sélection doit exister avant de créer la sélection finale." []]))
    | Some troisieme =>
        if negb (Z.of_nat (List.length (book troisieme)) =? 4) then
          (Ok false,
           mkWorld d [] (o ++ [mkMessage "✗ La troisième sélection doit contenir 4 livres." []]))
        else
          let finale := mkSelection 0 "FINALISTES DU PRIX GONCOURT" 4
                                    (Some (mkDate 2025 11 4)) (book troisieme) in
          if negb (selection_auto_increment d =? 0) then
            (Ok true,
             mkWorld (create_db finale d) []
                     (o ++ [mkMessage "✓ Sélection finale créée avec les 4 finalistes" []]))
          else (Ok false, mkWorld (create_db finale d) [] o)
    end.
Proof.
  unfold GoncourtService.create_final_selection.
  unfold bind at 1. rewrite find_by_round_quiet.
  destruct (round_selection d 3) as [t|]; [|reflexivity].
  destruct (negb (Z.of_nat (List.length (book t)) =? 4)); [reflexivity|].
  unfold bind at 1. rewrite create_quiet.
  destruct (negb (selection_auto_increment d =? 0)); reflexivity.
Qed.

Lemma create_final_selection_total d o :
  exists r d' o',
    GoncourtService.create_final_selection (mkWorld d [] o) = (Ok r, mkWorld d' [] o').
Proof.
  rewrite create_final_selection_quiet.
  destruct (round_selection d 3) as [t|]; [|eexists _, _, _; reflexivity].
  destruct (negb (Z.of_nat (List.length (book t)) =? 4)); [eexists _, _, _; reflexivity|].
  cbv zeta. destruct (negb (selection_auto_increment d =? 0)); eexists _, _, _; reflexivity.
Qed.

(** The part of C3 that holds: without a third selection of four works
    nothing is created, and the call returns [False]. *)
Lemma create_final_selection_refuses (w : World) :
  quiet w ->
  (forall l, round_works (db w) 3 = Some l -> List.length l <> 4%nat) ->
  exists w', GoncourtService.create_final_selection w = (Ok false, w') /\ db w' = db w.
Proof.
  destruct w as [d f o]. unfold quiet. simpl. intros -> H.
  rewrite create_final_selection_quiet. unfold round_selection, round_works in *.
  destruct (round_row d 3) as [r|]; [|eexists; split; reflexivity].
  simpl in *. specialize (H _ eq_refl). unfold works_of in H. rewrite length_map in H.
  destruct (Z.of_nat _ =? 4) eqn:E; [apply Z.eqb_eq in E; lia|].
  eexists; split; reflexivity.
Qed.

(** The first final selection copies the third one. *)
Lemma create_final_selection_copies (w : World) (l3 : list Z) :
  quiet w -> db_wf (db w) ->
  round_works (db w) 3 = Some l3 -> List.length l3 = 4%nat ->
  ~ round_exists (db w) 4 ->
  exists w' l4,
    GoncourtService.create_final_selection w = (Ok true, w')
    /\ round_works (db w') 4 = Some l4
    /\ same_set l4 l3 /\ List.length l4 = 4%nat
    /\ (exists l3', round_works (db w') 3 = Some l3' /\ same_set l3' l3).
Proof.
  destruct w as [d f o]. unfold quiet. simpl. intros -> Hwf H3 Hlen Hno.
  rewrite create_final_selection_quiet.
  unfold round_works in H3. unfold round_selection.
  destruct (round_row d 3) as [r3|] eqn:Er3; [|discriminate].
  simpl in H3. injection H3 as <-. unfold works_of in Hlen. rewrite length_map in Hlen.
  cbn [book]. rewrite Hlen. simpl.
  destruct (selection_auto_increment d =? 0) eqn:Ez;
    [apply Z.eqb_eq in Ez; pose proof (wf_auto_increment Hwf); lia|].
  simpl.
  set (finale := mkSelection 0 "FINALISTES DU PRIX GONCOURT" 4 (Some (mkDate 2025 11 4))
                             (BookDAO.select_by_selection (selection_row.s_id r3) d)).
  apply round_row_None in Hno.
  destruct (create_db_new_round finale d Hwf Hno) as (l4 & Hl4 & Hnd & Hs).
  { intros b Hb. apply select_by_selection_In in Hb. apply Hb. }
  simpl in Hl4, Hs. fold (works_of d (selection_row.s_id r3)) in Hs.
  eexists _, l4. split; [reflexivity|]. simpl. split; [exact Hl4|]. split; [exact Hs|].
  split.
  - rewrite (same_set_distinct l4 _ Hnd Hs), distinct_NoDup by (apply works_of_NoDup, Hwf).
    unfold works_of. rewrite length_map. exact Hlen.
  - destruct (create_keeps_existing_round finale d 3 r3 Hwf Er3) as [Hrow Hmem].
    unfold round_works. rewrite Hrow. simpl. eexists. split; [reflexivity|].
    intros id. rewrite !works_of_In. apply Hmem.
Qed.

(** C3 at the failing input.  Round 3 holds the works 1, 2, 3, 4 and a
    final selection with the works 1, 2, 3, 5 exists already.
    [create_final_selection] returns [True], yet round 4 as the application
    reads it still holds 1, 2, 3, 5: the earlier row stays in [selection]
    and a second row of round 4 is appended behind it. *)
Theorem create_final_selection_keeps_prior_round4 :
  db_wf db_prior_final
  /\ round_works db_prior_final 3 = Some [1; 2; 3; 4]
  /\ round_works db_prior_final 4 = Some [1; 2; 3; 5]
  /\ exists w',
      GoncourtService.create_final_selection w_prior_final = (Ok true, w')
      /\ round_works (db w') 3 = Some [1; 2; 3; 4]
      /\ round_works (db w') 4 = Some [1; 2; 3; 5]
      /\ map selection_row.s_id (SelectionDAO.select_by_round 4 (db w')) = [4; 5]
      /\ works_of (db w') 5 = [1; 2; 3; 4].
Proof.
  split; [apply db_wfb_sound; vm_compute; reflexivity|].
  split; [vm_compute; reflexivity|]. split; [vm_compute; reflexivity|].
  eexists. split; [vm_compute; reflexivity|].
  repeat split; vm_compute; reflexivity.
Qed.

(** The state of the failing input arises from the program itself: a
    final selection left incomplete by one failed INSERT is not repaired
    by running [create_final_selection] again. *)
Example create_final_selection_does_not_repair :
  quiet w_final_incomplete
  /\ round_works (db w_final_incomplete) 3 = Some [1; 2; 3; 4]
  /\ round_works (db w_final_incomplete) 4 = Some [1; 2; 3]
  /\ exists w',
      GoncourtService.create_final_selection w_final_incomplete = (Ok true, w')
      /\ round_works (db w') 3 = Some [1; 2; 3; 4]
      /\ round_works (db w') 4 = Some [1; 2; 3].
Proof.
  split; [vm_compute; reflexivity|]. split; [vm_compute; reflexivity|].
  split; [vm_compute; reflexivity|].
  eexists. split; [vm_compute; reflexivity|]. split; vm_compute; reflexivity.
Qed.

(* ===================================================================== *)
(** ** C5: main.py chains the final selection *)
(* ===================================================================== *)

Lemma get_current_state_quiet d o :
  GoncourtService.get_current_state (mkWorld d [] o)
  = (Ok (GoncourtService.mkState
           (GoncourtService.is_not_None (round_selection d 1))
           (GoncourtService.is_not_None (round_selection d 2))
           (GoncourtService.is_not_None (round_selection d 3))
           (GoncourtService.is_not_None (round_selection d 4))
           (0 <? Z.of_nat (List.length
                             (map (vote_of_result d) (VoteDAO.select_final_results d))))),
     mkWorld d [] o).
Proof.
  unfold GoncourtService.get_current_state, bind.
  rewrite !find_by_round_quiet, get_final_results_quiet. reflexivity.
Qed.

Lemma get_available_books_quiet n d o :
  exists books,
    GoncourtService.get_available_books_for_selection n (mkWorld d [] o)
    = (Ok books, mkWorld d [] o).
Proof.
  unfold GoncourtService.get_available_books_for_selection.
  destruct (n =? 1); [rewrite read_all_quiet; eauto|].
  destruct (n =? 2); [unfold bind; rewrite find_by_round_quiet; eexists; reflexivity|].
  destruct (n =? 3); [unfold bind; rewrite find_by_round_quiet; eexists; reflexivity|].
  eexists; reflexivity.
Qed.

Lemma print_books_quiet books : forall i d o,
  exists o', GoncourtApplication.print_books i books (mkWorld d [] o) = (Ok tt, mkWorld d [] o').
Proof.
  induction books as [|b rest IH]; intros i d o; simpl.
  - eexists; reflexivity.
  - unfold bind, print. simpl. apply IH.
Qed.

Lemma selected_ids_pure available indices w :
  (exists ids, GoncourtApplication.selected_ids available indices w = (Ok ids, w))
  \/ (exists e, GoncourtApplication.selected_ids available indices w = (Raised e, w)).
Proof.
  induction indices as [|idx rest IH]; simpl.
  - left. eexists; reflexivity.
  - destruct (nth_error available (Z.to_nat idx)); [|right; eexists; reflexivity].
    unfold bind. destruct IH as [(ids & ->) | (e & ->)].
    + left. eexists; reflexivity.
    + right. eexists; reflexivity.
Qed.

Ltac nothing_written :=
  unfold print; cbn [db faults stdout]; eexists _, _;
  split; [reflexivity | left; reflexivity].

Ltac president_action d o Hwf outcome :=
  unfold bind at 1; rewrite get_current_state_quiet;
  cbn [GoncourtService.premiere_selection GoncourtService.deuxieme_selection
       GoncourtService.troisieme_selection];
  match goal with
  | |- context [if negb ?exists_before then _ else _] =>
      destruct exists_before; cbn [negb]; [|nothing_written]
  end;
  unfold bind at 1;
  match goal with
  | |- context [(if ?again then ?ask else ret true) (mkWorld d [] o)] =>
      let Hgo := fresh "Hgo" in
      assert (Hgo : exists go o1,
                 (if again then ask else ret true) (mkWorld d [] o)
                 = (Ok go, mkWorld d [] o1))
        by (destruct again; eexists _, _; reflexivity);
      let go := fresh "go" in
      let o1 := fresh "o1" in
      destruct Hgo as (go & o1 & ->);
      destruct go; cbn [negb]; [|eexists _, _; split; [reflexivity | left; reflexivity]];
      unfold bind at 1;
      match goal with
      | |- context [GoncourtService.get_available_books_for_selection ?n (mkWorld d [] o1)] =>
          let available := fresh "available" in
          destruct (get_available_books_quiet n d o1) as (available & ->);
          destruct available as [|b0 rest0]; [nothing_written|]
      end
  end;
  do 4 (unfold bind at 1, print at 1; cbn [db faults stdout]);
  unfold bind at 1;
  match goal with
  | |- context [GoncourtApplication.print_books 1 ?available (mkWorld d [] ?o2)] =>
      let o3 := fresh "o3" in
      destruct (print_books_quiet available 1 d o2) as (o3 & ->)
  end;
  unfold bind at 1, print at 1; cbn [db faults stdout];
  unfold try_except;
  match goal with
  | |- context [match ?numbers with Some _ => _ | None => _ end] =>
      destruct numbers as [numbers|]; [|nothing_written]
  end;
  match goal with
  | |- context [if negb ?sized then _ else _] =>
      destruct sized; cbn [negb]; [|nothing_written]
  end;
  match goal with
  | |- context [match GoncourtApplication.first_invalid ?i ?n with _ => _ end] =>
      destruct (GoncourtApplication.first_invalid i n); [nothing_written|]
  end;
  unfold bind at 1;
  match goal with
  | |- context [GoncourtApplication.selected_ids ?a ?i ?w] =>
      let ids := fresh "ids" in
      let e := fresh "e" in
      destruct (selected_ids_pure a i w) as [(ids & ->) | (e & ->)];
      [|nothing_written];
      unfold bind at 1;
      match goal with
      | |- context [_ ids (mkWorld d [] ?o4)] =>
          let r := fresh "r" in
          let w1 := fresh "w1" in
          let Hrun := fresh "Hrun" in
          let Hq := fresh "Hq" in
          let Hfalse := fresh "Hfalse" in
          destruct (outcome d o4 ids Hwf) as (r & w1 & Hrun & Hq & _ & Hfalse & _);
          rewrite Hrun; destruct w1 as [d1 f1 out1];
          unfold quiet in Hq; cbn [db faults stdout] in *; subst f1;
          destruct r;
          [ unfold bind at 1, print at 1; cbn [db faults stdout];
            let rf := fresh "rf" in
            let d2 := fresh "d2" in
            let o5 := fresh "o5" in
            let Hfin := fresh "Hfin" in
            match goal with
            | |- context [mkWorld d1 [] ?o6] =>
                destruct (create_final_selection_total d1 o6) as (rf & d2 & o5 & Hfin)
            end;
            unfold bind; rewrite Hfin; unfold ret;
            eexists _, _; split; [reflexivity|];
            right; eexists _, _, _, _, _; split; [exact Hrun | exact Hfin]
          | rewrite (Hfalse eq_refl); nothing_written ]
      end
  end.

(** After the service reports a creation, main.py runs
    [create_final_selection]; in every other case it writes nothing. *)
Lemma app_create_deuxieme_selection_chains d o replace numbers :
  db_wf d ->
  exists d' o',
    GoncourtApplication.create_deuxieme_selection replace numbers (mkWorld d [] o)
    = (Ok tt, mkWorld d' [] o')
    /\ chained GoncourtService.create_deuxieme_selection
               "✓ Deuxième sélection créée avec succès!" d d'.
Proof.
  intros Hwf. unfold GoncourtApplication.create_deuxieme_selection.
  president_action d o Hwf create_deuxieme_selection_outcome.
Qed.

Lemma app_create_troisieme_selection_chains d o replace numbers :
  db_wf d ->
  exists d' o',
    GoncourtApplication.create_troisieme_selection replace numbers (mkWorld d [] o)
    = (Ok tt, mkWorld d' [] o')
    /\ chained GoncourtService.create_troisieme_selection
               "✓ Troisième sélection créée avec succès!" d d'.
Proof.
  intros Hwf. unfold GoncourtApplication.create_troisieme_selection.
  president_action d o Hwf create_troisieme_selection_outcome.
Qed.

(** After round 2 is created while round 3 does not exist, the chained
    [create_final_selection] refuses and writes nothing: no round 4 appears. *)
Lemma second_then_final (w w1 w1' : World) (book_ids : list Z) :
  quiet w -> db_wf (db w) ->
  ~ round_exists (db w) 3 -> ~ round_exists (db w) 4 ->
  GoncourtService.create_deuxieme_selection book_ids w = (Ok true, w1) ->
  quiet w1' -> db w1' = db w1 ->
  exists w2,
    GoncourtService.create_final_selection w1' = (Ok false, w2)
    /\ db w2 = db w1
    /\ ~ round_exists (db w2) 4.
Proof.
  destruct w as [d f o]. unfold quiet at 1. simpl. intros -> Hwf H3 H4 Hrun Hq1 Hdb1.
  destruct (create_deuxieme_selection_outcome d o book_ids Hwf)
    as (r & w1'' & Hrun' & _ & _ & _ & Htrue).
  rewrite Hrun in Hrun'. injection Hrun' as <- <-.
  destruct (Htrue eq_refl) as (books & _ & _ & Hdb).
  assert (Hrow : forall n, n <> 2 -> round_row d n = None -> round_row (db w1) n = None).
  { intros n Hn Hnone. rewrite Hdb, create_db_round_row, Hnone. cbn [s_round].
    destruct (2 =? n) eqn:E; [apply Z.eqb_eq in E; congruence | reflexivity]. }
  apply round_row_None in H3, H4.
  assert (H3' : round_row (db w1) 3 = None) by (apply Hrow; [lia | exact H3]).
  assert (H4' : round_row (db w1) 4 = None) by (apply Hrow; [lia | exact H4]).
  destruct (create_final_selection_refuses w1' Hq1) as (w2 & Hfin & Hsame).
  { intros l Hl. rewrite Hdb1 in Hl. unfold round_works in Hl. rewrite H3' in Hl. discriminate. }
  exists w2. split; [exact Hfin|]. split; [congruence|].
  rewrite Hsame, Hdb1. apply round_row_None, H4'.
Qed.

(** After round 3 is created from four distinct works where no round 3 or 4
    existed, the chained [create_final_selection] creates round 4 with
    exactly these four works. *)
Lemma third_then_final (w w1 w1' : World) (book_ids : list Z) :
  quiet w -> db_wf (db w) -> NoDup book_ids ->
  ~ round_exists (db w) 3 -> ~ round_exists (db w) 4 ->
  GoncourtService.create_troisieme_selection book_ids w = (Ok true, w1) ->
  quiet w1' -> db w1' = db w1 ->
  exists w2 l4,
    GoncourtService.create_final_selection w1' = (Ok true, w2)
    /\ round_works (db w2) 4 = Some l4
    /\ same_set l4 book_ids /\ List.length l4 = 4%nat.
Proof.
  intros Hq Hwf Hnd H3 H4 Hrun Hq1 Hdb1.
  destruct (create_troisieme_selection_cardinality w w1 book_ids Hq Hwf H3 Hrun)
    as (l3 & Hl3 & Hs3 & _ & Hlen3).
  destruct w as [d f o]. unfold quiet in Hq. simpl in *. subst f.
  destruct (create_troisieme_selection_outcome d o book_ids Hwf)
    as (r & w1'' & Hrun' & _ & _ & _ & Htrue).
  rewrite Hrun in Hrun'. injection Hrun' as <- <-.
  destruct (Htrue eq_refl) as (books & _ & _ & Hdb).
  assert (Hwf1 : db_wf (db w1')) by (rewrite Hdb1, Hdb; apply create_db_wf, Hwf).
  assert (H4' : ~ round_exists (db w1') 4).
  { apply round_row_None. apply round_row_None in H4.
    rewrite Hdb1, Hdb, create_db_round_row, H4. reflexivity. }
  rewrite <- Hdb1 in Hl3.
  destruct (create_final_selection_copies w1' l3 Hq1 Hwf1 Hl3 (Hlen3 Hnd) H4')
    as (w2 & l4 & Hfin & Hl4 & Hs4 & Hlen4 & _).
  exists w2, l4. split; [exact Hfin|]. split; [exact Hl4|]. split; [|exact Hlen4].
  intros x. rewrite (Hs4 x). apply Hs3.
Qed.

(** C5 at the failing input.  With round 2 in place and no round 3, the
    numbers 1,1,2,3 are accepted for the third selection: main.py reports
    the creation and calls [create_final_selection], which refuses a third
    selection of three works; no round 4 exists afterwards. *)
Theorem create_troisieme_selection_duplicate_ids :
  round_works (db w_round2) 2 = Some [1; 2; 3; 4; 5; 6; 7; 8]
  /\ round_works (db w_round2) 3 = None
  /\ (exists w',
         GoncourtService.create_troisieme_selection [1; 1; 2; 3] w_round2 = (Ok true, w'))
  /\ round_works (db w_round3_duplicate) 3 = Some [1; 2; 3]
  /\ round_works (db w_round3_duplicate) 4 = None
  /\ last_lines 3 w_round3_duplicate
     = [mkMessage "✓ Troisième sélection créée avec {len(books)} livres" [Int 4];
        mkMessage "✓ Troisième sélection créée avec succès!" [];
        mkMessage "✗ La troisième sélection doit contenir 4 livres." []].
Proof.
  split; [vm_compute; reflexivity|]. split; [vm_compute; reflexivity|]. split.
  - eexists. vm_compute. reflexivity.
  - split; [vm_compute; reflexivity|]. split; vm_compute; reflexivity.
Qed.

(* ===================================================================== *)
(** ** C8: the first selection *)
(* ===================================================================== *)

Lemma initialize_quiet d o :
  GoncourtService._initialize_first_selection (mkWorld d [] o)
  = match round_row d 1 with
    | Some _ => (Ok tt, mkWorld d [] o)
    | None =>
        let obj := mkSelection 0 "PREMIÈRE SÉLECTION" 1 (Some (mkDate 2025 9 3))
                               (BookDAO.select_all d) in
        (Ok tt,
         mkWorld (create_db obj d) []
                 (if negb (selection_auto_increment d =? 0)
                  then o ++ [mkMessage "✓ Première sélection initialisée avec 15 livres" []]
                  else o))
    end.
Proof.
  unfold GoncourtService._initialize_first_selection.
  unfold bind at 1. rewrite find_by_round_quiet. unfold round_selection.
  destruct (round_row d 1) as [r|]; [reflexivity|].
  unfold bind at 1. rewrite read_all_quiet.
  unfold bind. rewrite create_quiet.
  destruct (selection_auto_increment d =? 0); reflexivity.
Qed.

(** C8.  With no persistence fault, [_initialize_first_selection] never
    raises; when round 1 exists it returns with the state unchanged; when
    it does not, it stores round 1 with exactly the works of the catalogue;
    and a second call right after any call changes nothing. *)
Theorem initialize_first_selection_idempotent (w : World) :
  quiet w ->
  (round_exists (db w) 1 ->
   GoncourtService._initialize_first_selection w = (Ok tt, w))
  /\ (~ round_exists (db w) 1 -> db_wf (db w) ->
      exists w',
        GoncourtService._initialize_first_selection w = (Ok tt, w')
        /\ round_exists (db w') 1
        /\ (forall id, in_round (db w') 1 id <-> stored_work (db w) id)
        /\ t_book (db w') = t_book (db w) /\ t_vote (db w') = t_vote (db w))
  /\ (exists w',
        GoncourtService._initialize_first_selection w = (Ok tt, w')
        /\ GoncourtService._initialize_first_selection w' = (Ok tt, w')).
Proof.
  destruct w as [d f o]. unfold quiet. simpl. intros ->.
  rewrite initialize_quiet.
  destruct (round_row d 1) as [r|] eqn:E.
  - split; [reflexivity|]. split.
    + intros Hn. exfalso. apply Hn, round_exists_row. eauto.
    + eexists. split; [reflexivity|]. rewrite initialize_quiet, E. reflexivity.
  - split; [intros H; apply round_exists_row in H; destruct H; congruence|].
    set (obj := mkSelection 0 "PREMIÈRE SÉLECTION" 1 (Some (mkDate 2025 9 3))
                            (BookDAO.select_all d)).
    assert (Hrow : round_row (create_db obj d) 1
                   = Some (selection_row.mk (selection_auto_increment d) (s_name obj)
                                            (s_round obj) (s_date obj))).
    { rewrite create_db_round_row, E. reflexivity. }
    split.
    + intros _ Hwf. eexists. split; [reflexivity|]. simpl.
      split; [apply round_exists_row; eauto|]. split.
      * intros id. unfold in_round. rewrite Hrow. split.
        -- intros [r [Hr Hm]]. injection Hr as <-. simpl in Hm.
           apply create_db_member_new in Hm; [|exact Hwf]. apply Hm.
        -- intros Hs. eexists. split; [reflexivity|]. simpl.
           apply create_db_member_new; [exact Hwf|]. split; [|exact Hs].
           destruct Hs as [b [Hb Hid]]. apply in_map_iff. exists b.
           split; [exact Hid|]. apply select_all_In, Hb.
      * destruct (create_db_tables obj d) as (Hb & _ & Hv & _). auto.
    + eexists. split; [reflexivity|]. rewrite initialize_quiet, Hrow. reflexivity.
Qed.

Lemma initialize_first_selection_idempotent_witness :
  quiet w_round1
  /\ GoncourtService._initialize_first_selection w_round1 = (Ok tt, w_round1).
Proof.
  assert (Hq : quiet w_round1) by reflexivity.
  split; [exact Hq|].
  apply (proj1 (initialize_first_selection_idempotent w_round1 Hq)).
  apply round_exists_row. vm_compute. eexists. reflexivity.
Defined.

(* ===================================================================== *)
(** ** C1 and C10: recording the votes *)
(* ===================================================================== *)

Lemma insert_votes_db_tables entries sid vd d :
  t_book (insert_votes_db entries sid vd d) = t_book d
  /\ t_selection (insert_votes_db entries sid vd d) = t_selection d
  /\ t_book_selection (insert_votes_db entries sid vd d) = t_book_selection d
  /\ t_vote (insert_votes_db entries sid vd d)
     = t_vote d ++ vote_rows entries sid vd (vote_auto_increment d).
Proof.
  revert d. induction entries as [|[b c] rest IH]; intros d.
  - simpl. rewrite app_nil_r. repeat split.
  - specialize (IH (snd (VoteDAO.insert_vote c vd b sid d))).
    destruct IH as (H1 & H2 & H3 & H4).
    change (insert_votes_db ((b, c) :: rest) sid vd d)
      with (insert_votes_db rest sid vd (snd (VoteDAO.insert_vote c vd b sid d))).
    rewrite H1, H2, H3, H4. simpl. rewrite <- app_assoc. repeat split.
Qed.

Lemma vote_rows_sid entries sid vd next :
  filter (fun v => vote_row.s_id v =? sid) (vote_rows entries sid vd next)
  = vote_rows entries sid vd next.
Proof.
  revert next. induction entries as [|[b c] rest IH]; intros next; simpl.
  - reflexivity.
  - rewrite Z.eqb_refl, IH. reflexivity.
Qed.

Lemma vote_rows_items entries sid vd next :
  map (fun v => (vote_row.b_id v, vote_row.v_number_vote v)) (vote_rows entries sid vd next)
  = entries.
Proof.
  revert next. induction entries as [|[b c] rest IH]; intros next; simpl.
  - reflexivity.
  - rewrite IH. reflexivity.
Qed.

(** The votes of the selection are exactly the entries of the dictionary,
    in order; the votes of the other selections and the other tables stay. *)
Lemma record_db_tables votes_data sid vd d :
  votes_of (record_db votes_data sid vd d) sid = items votes_data
  /\ other_votes (record_db votes_data sid vd d) sid = other_votes d sid
  /\ t_book (record_db votes_data sid vd d) = t_book d
  /\ t_selection (record_db votes_data sid vd d) = t_selection d
  /\ t_book_selection (record_db votes_data sid vd d) = t_book_selection d.
Proof.
  unfold record_db.
  destruct (insert_votes_db_tables votes_data sid vd (snd (VoteDAO.delete_votes sid d)))
    as (H1 & H2 & H3 & H4).
  simpl in *. unfold votes_of, other_votes. rewrite H4, !filter_app.
  rewrite filter_filter_negb, filter_idem, vote_rows_sid.
  rewrite (filter_none _ _ (vote_rows_sid votes_data sid vd (vote_auto_increment d))).
  simpl. rewrite vote_rows_items, app_nil_r. auto.
Qed.

Lemma insert_votes_db_auto_increment entries sid vd d :
  selection_auto_increment (insert_votes_db entries sid vd d) = selection_auto_increment d.
Proof.
  revert d. induction entries as [|[b c] rest IH]; intros d; [reflexivity|].
  change (insert_votes_db ((b, c) :: rest) sid vd d)
    with (insert_votes_db rest sid vd (snd (VoteDAO.insert_vote c vd b sid d))).
  rewrite IH. reflexivity.
Qed.

Lemma record_db_wf votes_data sid vd d : db_wf d -> db_wf (record_db votes_data sid vd d).
Proof.
  intros Hwf. destruct (record_db_tables votes_data sid vd d) as (_ & _ & Hb & Hs & Hbs).
  assert (Ha : selection_auto_increment (record_db votes_data sid vd d)
               = selection_auto_increment d).
  { unfold record_db. rewrite insert_votes_db_auto_increment. reflexivity. }
  constructor.
  - rewrite Hb. apply (wf_book_key Hwf).
  - rewrite Hs. apply (wf_selection_key Hwf).
  - rewrite Hbs. apply (wf_book_selection_key Hwf).
  - rewrite Ha. apply (wf_auto_increment Hwf).
  - intros r Hr. rewrite Hs in Hr. rewrite Ha. apply (wf_selection_fresh Hwf), Hr.
  - intros b s Hin. rewrite Hbs in Hin. rewrite Ha. apply (wf_book_selection_fresh Hwf b), Hin.
Qed.

(** A dictionary has each key once, so each finalist voted for gets one record. *)
Lemma record_db_one_vote_per_key votes_data sid vd d :
  dict_wf votes_data -> NoDup (map fst (votes_of (record_db votes_data sid vd d) sid)).
Proof.
  intros H. destruct (record_db_tables votes_data sid vd d) as (-> & _). exact H.
Qed.

Lemma service_record_final_votes_quiet today votes_data d o :
  GoncourtService.record_final_votes today votes_data (mkWorld d [] o)
  = match round_selection d 4 with
    | None =>
        (Ok false,
         mkWorld d [] (o ++ [mkMessage
           "✗ La sélection finale doit exister avant d'enregistrer les votes." []]))
    | Some sel =>
        match GoncourtService.first_missing (keys votes_data) (map b_id (book sel)) with
        | Some id =>
            (Ok false,
             mkWorld d [] (o ++ [mkMessage
               "✗ Le livre avec ID {book_id} n'est pas dans la sélection finale." [Int id]]))
        | None =>
            if negb (sum (values votes_data) =? 10) then
              (Ok false,
               mkWorld d [] ((o ++ [mkMessage
                 "✗ Le total des votes doit être exactement 10 (nombre de membres du jury)." []])
                 ++ [mkMessage "  Total actuel: {total_votes}" [Int (sum (values votes_data))]]))
            else
              (Ok true,
               mkWorld (record_db votes_data (s_id sel) today d) []
                       (o ++ [mkMessage "✓ Votes enregistrés avec succès" []]))
        end
    end.
Proof.
  unfold GoncourtService.record_final_votes.
  unfold bind at 1. rewrite find_by_round_quiet.
  destruct (round_selection d 4) as [sel|]; [|reflexivity].
  destruct (GoncourtService.first_missing _ _); [reflexivity|].
  destruct (negb _); [reflexivity|].
  unfold bind at 1. rewrite record_final_votes_quiet. reflexivity.
Qed.

(** Whatever faults are pending, the service accepts only a dictionary
    that passes its checks on the tables it was called with. *)
Lemma service_record_final_votes_sound today votes_data w :
  exists r w',
    GoncourtService.record_final_votes today votes_data w = (Ok r, w')
    /\ (r = true -> votes_request_ok (db w) votes_data).
Proof.
  unfold GoncourtService.record_final_votes, votes_request_ok.
  destruct (find_by_round_sound 4 w) as (r & w1 & Hrun & Hd & Hr).
  unfold bind at 1. rewrite Hrun.
  destruct r as [sel|]; [|refused_any].
  destruct (Hr sel eq_refl) as (row & Hrow & Hbooks).
  destruct (GoncourtService.first_missing (keys votes_data) (map b_id (book sel))) eqn:Em;
    [refused_any|].
  pose proof (proj1 (first_missing_None _ _) Em) as Hin.
  destruct (sum (values votes_data) =? 10) eqn:E10; cbn [negb]; [|refused_any].
  apply Z.eqb_eq in E10.
  destruct (dao_record_final_votes_never_raises votes_data (s_id sel) today w1)
    as (ok & w2 & Hrun2).
  unfold bind at 1. rewrite Hrun2. destruct ok; [|refused_any].
  unfold bind, print, ret. eexists _, _. split; [reflexivity|]. intros _.
  split; [apply round_exists_row; eauto|]. split; [|exact E10].
  intros k Hk. apply Hin, in_map_iff in Hk. destruct Hk as (b & <- & Hb).
  exists row. split; [exact Hrow | apply works_of_In, in_map, Hbooks, Hb].
Qed.

Lemma service_record_final_votes_outcome (w : World) (today : date) (votes_data : Dict) :
  quiet w ->
  exists r w',
    GoncourtService.record_final_votes today votes_data w = (Ok r, w')
    /\ (r = true <-> votes_request_ok (db w) votes_data)
    /\ (r = false -> db w' = db w)
    /\ (r = true ->
        exists row,
          round_row (db w) 4 = Some row
          /\ votes_of (db w') (selection_row.s_id row) = items votes_data
          /\ other_votes (db w') (selection_row.s_id row)
             = other_votes (db w) (selection_row.s_id row)
          /\ t_book (db w') = t_book (db w)
          /\ t_selection (db w') = t_selection (db w)
          /\ t_book_selection (db w') = t_book_selection (db w)).
Proof.
  destruct w as [d f o]. unfold quiet. simpl. intros ->.
  rewrite service_record_final_votes_quiet. unfold votes_request_ok.
  destruct (round_selection d 4) as [sel|] eqn:Es.
  - destruct (GoncourtService.first_missing _ _) as [bad|] eqn:Em.
    + apply first_missing_Some in Em. destruct Em as [Hin Hnot].
      eexists _, _. split; [reflexivity|]. simpl.
      split; [|split; [reflexivity | discriminate]].
      split; [discriminate|]. intros (_ & Hk & _). exfalso. apply Hnot.
      apply (round_selection_ids _ _ _ Es), Hk, Hin.
    + pose proof (proj1 (first_missing_None _ _) Em) as Hall.
      destruct (sum (values votes_data) =? 10) eqn:E10; simpl.
      * apply Z.eqb_eq in E10.
        eexists _, _. split; [reflexivity|]. simpl.
        split; [|split; [discriminate|]].
        -- split; [intros _ | reflexivity]. repeat split.
           ++ apply round_selection_Some in Es. destruct Es as (r0 & Hr0 & _).
              apply round_exists_row. eauto.
           ++ intros k Hk. apply (round_selection_ids _ _ _ Es), Hall, Hk.
           ++ exact E10.
        -- intros _. apply round_selection_Some in Es.
           destruct Es as (r0 & Hr0 & Hid & _). exists r0. split; [exact Hr0|].
           rewrite Hid. apply record_db_tables.
      * apply Z.eqb_neq in E10.
        eexists _, _. split; [reflexivity|]. simpl.
        split; [|split; [reflexivity | discriminate]].
        split; [discriminate|]. intros (_ & _ & Hs). contradiction.
  - apply round_selection_None, round_row_None in Es.
    eexists _, _. split; [reflexivity|]. simpl.
    split; [|split; [reflexivity | discriminate]].
    split; [discriminate|]. intros (Hex & _). contradiction.
Qed.

(** C1, amended.  [record_final_votes] always returns a boolean; whatever
    faults are pending it returns [True] only if round 4 exists, every key
    of the dictionary is a work of round 4 and the values sum to 10.  With
    no persistence fault it returns [True] whenever these conditions hold;
    when it returns [False] the tables are unchanged; when it returns
    [True] the vote records of round 4 are exactly the entries of the
    dictionary and nothing else changed. *)
Theorem record_final_votes_spec (w : World) (today : date) (votes_data : Dict) :
  exists r w',
    GoncourtService.record_final_votes today votes_data w = (Ok r, w')
    /\ (r = true -> votes_request_ok (db w) votes_data)
    /\ (quiet w ->
        (votes_request_ok (db w) votes_data -> r = true)
        /\ (r = false -> db w' = db w)
        /\ (r = true ->
            exists row,
              round_row (db w) 4 = Some row
              /\ votes_of (db w') (selection_row.s_id row) = items votes_data
              /\ other_votes (db w') (selection_row.s_id row)
                 = other_votes (db w) (selection_row.s_id row)
              /\ t_book (db w') = t_book (db w)
              /\ t_selection (db w') = t_selection (db w)
              /\ t_book_selection (db w') = t_book_selection (db w))).
Proof.
  destruct (service_record_final_votes_sound today votes_data w) as (r & w' & Hrun & Hs).
  exists r, w'. split; [exact Hrun|]. split; [exact Hs|]. intros Hq.
  destruct (service_record_final_votes_outcome w today votes_data Hq)
    as (r' & w'' & Hrun' & Hiff & Hfalse & Htrue).
  rewrite Hrun in Hrun'. injection Hrun' as <- <-.
  split; [apply Hiff|]. split; assumption.
Qed.

(** The votes 4, 3, 2, 1 for the four finalists are recorded as given. *)
Lemma record_final_votes_spec_witness :
  quiet w_round3
  /\ exists w',
      GoncourtService.record_final_votes (mkDate 2025 11 4) [(1, 4); (2, 3); (3, 2); (4, 1)]
                                         w_round3 = (Ok true, w')
      /\ votes_of (db w') 4 = [(1, 4); (2, 3); (3, 2); (4, 1)].
Proof.
  assert (Hq : quiet w_round3) by (vm_compute; reflexivity).
  assert (Hrow : round_row (db w_round3) 4
                 = Some (selection_row.mk 4 "FINALISTES DU PRIX GONCOURT" 4
                                          (Some (mkDate 2025 11 4))))
    by (vm_compute; reflexivity).
  assert (Hworks : works_of (db w_round3) 4 = [1; 2; 3; 4]) by (vm_compute; reflexivity).
  assert (Hok : votes_request_ok (db w_round3) [(1, 4); (2, 3); (3, 2); (4, 1)]).
  { split; [apply (proj2 (round_exists_row (db w_round3) 4)); eauto|].
    split; [|reflexivity].
    intros k Hk. eexists. split; [exact Hrow|].
    apply (proj1 (works_of_In (db w_round3) 4 k)). rewrite Hworks. exact Hk. }
  split; [exact Hq|].
  destruct (record_final_votes_spec w_round3 (mkDate 2025 11 4)
                                    [(1, 4); (2, 3); (3, 2); (4, 1)])
    as (r & w' & Hrun & _ & Hquiet).
  destruct (Hquiet Hq) as (Hyes & _ & Htrue).
  pose proof (Hyes Hok) as ->.
  destruct (Htrue eq_refl) as (row & Hrow' & Hvotes & _).
  exists w'. split; [exact Hrun|].
  rewrite Hrow in Hrow'. injection Hrow' as <-. exact Hvotes.
Defined.

(** C1 as stated fails: a dictionary whose only key is one finalist, with
    all ten votes, is accepted although its key set is not the set of the
    four works of round 4. *)
Lemma record_final_votes_accepts_partial_keys :
  (exists w',
      GoncourtService.record_final_votes (mkDate 2025 11 4) [(1, 10)] w_round3 = (Ok true, w')
      /\ votes_of (db w') 4 = [(1, 10)])
  /\ round_works (db w_round3) 4 = Some [1; 2; 3; 4]
  /\ ~ same_set (keys [(1, 10)]) [1; 2; 3; 4].
Proof.
  split; [|split].
  - eexists. split; vm_compute; reflexivity.
  - vm_compute. reflexivity.
  - intros H. destruct (proj2 (H 2)) as [E | []].
    + simpl. auto.
    + discriminate E.
Qed.

(** What the amended C1 leaves out: [VoteDAO.record_final_votes] has no
    rollback, so a statement that raises after the DELETE returns [False]
    with the former votes gone and the replacement half done. *)
Example record_final_votes_fault_half_way :
  votes_of (db w_votes_insert_fails) 4 = [(1, 1); (2, 4); (3, 2); (4, 3)]
  /\ exists w',
      GoncourtService.record_final_votes (mkDate 2025 11 5) [(1, 4); (2, 3); (3, 2); (4, 1)]
                                         w_votes_insert_fails = (Ok false, w')
      /\ votes_of (db w') 4 = [(1, 4)].
Proof.
  split; [vm_compute; reflexivity|].
  eexists. split; vm_compute; reflexivity.
Qed.

(** C10.  The service never looks at the sign of a count: with no
    persistence fault, a dictionary that passes the checks on keys and sum
    and holds a negative count is accepted, and a vote record with that
    negative count is stored for round 4. *)
Theorem record_final_votes_accepts_negative
        (w : World) (today : date) (votes_data : Dict) (k c : Z) :
  quiet w ->
  votes_request_ok (db w) votes_data ->
  In (k, c) (items votes_data) -> c < 0 ->
  exists w' row v,
    GoncourtService.record_final_votes today votes_data w = (Ok true, w')
    /\ round_row (db w) 4 = Some row
    /\ In v (t_vote (db w'))
    /\ vote_row.s_id v = selection_row.s_id row
    /\ vote_row.b_id v = k
    /\ vote_row.v_number_vote v = c
    /\ vote_row.v_number_vote v < 0.
Proof.
  intros Hq Hok Hin Hc.
  destruct (service_record_final_votes_outcome w today votes_data Hq)
    as (r & w' & Hrun & Hiff & _ & Htrue).
  apply Hiff in Hok. subst r.
  destruct (Htrue eq_refl) as (row & Hrow & Hvotes & _).
  rewrite <- Hvotes in Hin. unfold votes_of in Hin.
  apply in_map_iff in Hin. destruct Hin as (v & Ev & Hv).
  apply filter_In in Hv. destruct Hv as [Hv Hs]. apply Z.eqb_eq in Hs.
  injection Ev as Eb Ec.
  exists w', row, v. repeat split; try assumption. lia.
Qed.

Lemma record_final_votes_accepts_negative_witness :
  quiet w_round3
  /\ votes_request_ok (db w_round3) [(1, 11); (2, -1); (3, 0); (4, 0)]
  /\ same_set (keys [(1, 11); (2, -1); (3, 0); (4, 0)]) [1; 2; 3; 4]
  /\ round_works (db w_round3) 4 = Some [1; 2; 3; 4]
  /\ exists w' row v,
      GoncourtService.record_final_votes (mkDate 2025 11 4)
                                         [(1, 11); (2, -1); (3, 0); (4, 0)] w_round3
      = (Ok true, w')
      /\ round_row (db w_round3) 4 = Some row
      /\ In v (t_vote (db w'))
      /\ vote_row.s_id v = selection_row.s_id row
      /\ vote_row.b_id v = 2
      /\ vote_row.v_number_vote v = -1
      /\ vote_row.v_number_vote v < 0.
Proof.
  assert (Hq : quiet w_round3) by (vm_compute; reflexivity).
  assert (Hrow : round_row (db w_round3) 4
                 = Some (selection_row.mk 4 "FINALISTES DU PRIX GONCOURT" 4
                                          (Some (mkDate 2025 11 4))))
    by (vm_compute; reflexivity).
  assert (Hworks : works_of (db w_round3) 4 = [1; 2; 3; 4]) by (vm_compute; reflexivity).
  assert (Hok : votes_request_ok (db w_round3) [(1, 11); (2, -1); (3, 0); (4, 0)]).
  { split; [apply round_exists_row; eauto|]. split; [|reflexivity].
    intros k Hk. exists (selection_row.mk 4 "FINALISTES DU PRIX GONCOURT" 4
                                          (Some (mkDate 2025 11 4))).
    split; [exact Hrow|].
    apply (proj1 (works_of_In (db w_round3) 4 k)). rewrite Hworks. exact Hk. }
  split; [exact Hq|]. split; [exact Hok|]. split; [intros x; reflexivity|].
  split; [vm_compute; reflexivity|].
  apply (record_final_votes_accepts_negative
           w_round3 (mkDate 2025 11 4) [(1, 11); (2, -1); (3, 0); (4, 0)] 2 (-1) Hq Hok).
  - simpl. auto.
  - lia.
Defined.

(* ===================================================================== *)
(** ** C6: the ranked results *)
(* ===================================================================== *)

Lemma final_join_In d v b s :
  In (v, b, s) (final_join d)
  <-> In v (t_vote d) /\ In b (t_book d) /\ In s (t_selection d)
      /\ vote_row.b_id v = b_id b /\ vote_row.s_id v = selection_row.s_id s
      /\ selection_row.s_round s = 4.
Proof.
  unfold final_join, join_vote. rewrite in_flat_map. split.
  - intros (v' & Hv & H). apply in_flat_map in H. destruct H as (b' & Hb & H).
    apply in_flat_map in H. destruct H as (s' & Hs & H).
    destruct (_ && _) eqn:E in H; [|destruct H].
    destruct H as [H | []]. injection H as -> -> ->.
    apply andb_true_iff in E. destruct E as [E E3].
    apply andb_true_iff in E. destruct E as [E1 E2].
    apply Z.eqb_eq in E1, E2, E3. auto 10.
  - intros (Hv & Hb & Hs & E1 & E2 & E3). exists v. split; [exact Hv|].
    apply in_flat_map. exists b. split; [exact Hb|].
    apply in_flat_map. exists s. split; [exact Hs|].
    rewrite E1, E2, E3, !Z.eqb_refl. left; reflexivity.
Qed.

Lemma find_key_stored d k :
  stored_work d k -> exists b, find (fun b => b_id b =? k) (t_book d) = Some b.
Proof.
  intros (b & Hb & E). destruct (find _ (t_book d)) eqn:F; [eauto|].
  apply (find_none _ _ F) in Hb. apply Z.eqb_neq in Hb. contradiction.
Qed.

(** With the keys of the schema, a vote joins to one row when it belongs to
    round 4 and to none otherwise. *)
Lemma join_vote_row d v :
  db_wf d -> stored_work d (vote_row.b_id v) ->
  map (fun r : VoteDAO.result_row => fst (fst r)) (join_vote d v)
  = if round4_row d v then [v] else [].
Proof.
  intros Hwf Hs. unfold join_vote.
  rewrite (flat_map_select b_id (vote_row.b_id v)).
  - destruct (find_key_stored _ _ Hs) as (b & Eb).
    rewrite Eb. apply find_some in Eb. destruct Eb as [_ Eb]. apply Z.eqb_eq in Eb.
    rewrite (flat_map_select selection_row.s_id (vote_row.s_id v)).
    + unfold round4_row.
      rewrite (find_key_existsb selection_row.s_id (vote_row.s_id v)
                                (fun s => selection_row.s_round s =? 4)
                                _ (wf_selection_key Hwf)).
      destruct (find _ (t_selection d)) as [s|] eqn:Es; [|reflexivity].
      apply find_some in Es. destruct Es as [_ Es]. apply Z.eqb_eq in Es.
      rewrite Eb, Es, !Z.eqb_refl. simpl.
      destruct (selection_row.s_round s =? 4); reflexivity.
    + apply (wf_selection_key Hwf).
    + intros s Hne. apply not_eq_sym, Z.eqb_neq in Hne. rewrite Hne, andb_false_r. reflexivity.
  - apply (wf_book_key Hwf).
  - intros b Hb. apply flat_map_nil. intros s _.
    apply not_eq_sym, Z.eqb_neq in Hb. rewrite Hb. reflexivity.
Qed.

Lemma final_join_rows d :
  db_wf d -> votes_reference_works d ->
  map (fun r : VoteDAO.result_row => fst (fst r)) (final_join d) = round4_votes d.
Proof.
  intros Hwf Hfk. unfold final_join, round4_votes, votes_reference_works in *.
  induction (t_vote d) as [|v t IH]; [reflexivity|].
  change (flat_map (join_vote d) (v :: t)) with (join_vote d v ++ flat_map (join_vote d) t).
  rewrite map_app, IH by (intros v' Hv'; apply Hfk; right; exact Hv').
  rewrite join_vote_row by (try exact Hwf; apply Hfk; left; reflexivity).
  simpl. destruct (round4_row d v); reflexivity.
Qed.

Lemma select_final_results_join d :
  VoteDAO.select_final_results d
  = order_by (fun x y : VoteDAO.result_row => number_vote_desc (fst (fst x)) (fst (fst y)))
             (final_join d).
Proof. reflexivity. Qed.

Lemma vote_of_result_represents d v b s :
  In (v, b, s) (final_join d) -> represents d (vote_of_result d (v, b, s)) v.
Proof.
  intros H. apply final_join_In in H. destruct H as (_ & Hb & _ & E1 & _ & E3).
  unfold represents, vote_of_result. simpl. repeat split; try assumption.
  destruct (fetchone (BookDAO.select_by_id (vote_row.b_id v) d)) as [b'|] eqn:F.
  - apply select_by_id_Some in F. destruct F as [Hin Hid]. exists b'. auto.
  - apply select_by_id_None in F. exfalso. apply F. exists b. auto.
Qed.

Lemma results_sorted d :
  StronglySorted by_votes_desc (map (vote_of_result d) (VoteDAO.select_final_results d)).
Proof.
  apply StronglySorted_map. rewrite select_final_results_join.
  eapply StronglySorted_impl; [|apply order_by_sorted].
  - intros [[v1 b1] s1] [[v2 b2] s2] H. unfold by_votes_desc, number_vote_desc in *.
    simpl in *. apply Z.leb_le, H.
  - intros x y. unfold number_vote_desc.
    destruct (Z.le_ge_cases (vote_row.v_number_vote (fst (fst y)))
                            (vote_row.v_number_vote (fst (fst x))));
      [left | right]; apply Z.leb_le; assumption.
  - intros x y z. unfold number_vote_desc. rewrite !Z.leb_le. lia.
Qed.

(** C6.  With no persistence fault, [get_final_results] returns its votes
    in descending order of count; the list is empty while table [vote] is
    empty; and, the keys of the schema holding, the objects returned carry
    exactly the vote records of round 4, each once. *)
Theorem get_final_results_spec (w : World) :
  quiet w ->
  exists votes,
    GoncourtService.get_final_results w = (Ok votes, w)
    /\ StronglySorted by_votes_desc votes
    /\ (t_vote (db w) = [] -> votes = [])
    /\ (db_wf (db w) -> votes_reference_works (db w) ->
        exists rows,
          Permutation rows (round4_votes (db w))
          /\ Forall2 (represents (db w)) votes rows).
Proof.
  destruct w as [d f o]. unfold quiet. simpl. intros ->.
  unfold GoncourtService.get_final_results. rewrite get_final_results_quiet.
  eexists. split; [reflexivity|]. split; [apply results_sorted|]. split.
  - intros Hv. rewrite select_final_results_join. unfold final_join. rewrite Hv. reflexivity.
  - intros Hwf Hfk.
    exists (map (fun r : VoteDAO.result_row => fst (fst r)) (VoteDAO.select_final_results d)).
    split.
    + rewrite <- (final_join_rows d Hwf Hfk), select_final_results_join.
      apply Permutation_map, order_by_perm.
    + apply Forall2_map_same. intros [[v b] s] Hin.
      rewrite select_final_results_join in Hin. apply order_by_In in Hin.
      apply vote_of_result_represents, Hin.
Qed.

Lemma get_final_results_spec_witness :
  quiet w_votes
  /\ exists votes,
      GoncourtService.get_final_results w_votes = (Ok votes, w_votes)
      /\ StronglySorted by_votes_desc votes
      /\ (t_vote (db w_votes) = [] -> votes = [])
      /\ (db_wf (db w_votes) -> votes_reference_works (db w_votes) ->
          exists rows,
            Permutation rows (round4_votes (db w_votes))
            /\ Forall2 (represents (db w_votes)) votes rows).
Proof.
  assert (Hq : quiet w_votes) by (vm_compute; reflexivity).
  split; [exact Hq|].
  exact (get_final_results_spec w_votes Hq).
Defined.

(* ===================================================================== *)
(** ** C7: the winner and the percentages *)
(* ===================================================================== *)

(** The guard keeps the division away from a zero total. *)
Lemma percentage_guarded number_vote total w :
  exists p,
    GoncourtService.percentage number_vote total w = (Ok p, w)
    /\ is_percentage number_vote total p.
Proof.
  unfold GoncourtService.percentage, truediv, is_percentage.
  destruct (total >? 0) eqn:E.
  - apply Z.gtb_lt in E. destruct (total =? 0) eqn:E0; [apply Z.eqb_eq in E0; lia|].
    eexists. split; [reflexivity|]. split; [reflexivity | lia].
  - eexists. split; [reflexivity|]. split; [|reflexivity].
    intros H. apply Z.gtb_lt in H. congruence.
Qed.

Lemma display_votes_quiet total votes :
  (forall vote, In vote votes -> exists b, v_book vote = Some b) ->
  forall i d o,
  exists lines,
    GoncourtService.display_votes i votes total (mkWorld d [] o)
    = (Ok tt, mkWorld d [] (o ++ lines))
    /\ rendered total i votes lines.
Proof.
  induction votes as [|vote rest IH]; intros Hb i d o; simpl.
  - exists []. rewrite app_nil_r. split; [reflexivity | constructor].
  - destruct (percentage_guarded (v_number_vote vote) total (mkWorld d [] o))
      as (p & Hp & Hperc).
    destruct (Hb vote (or_introl eq_refl)) as (b & Ebook).
    unfold bind at 1. rewrite Hp.
    unfold bind at 1, GoncourtService.book_of. rewrite Ebook. unfold ret at 1.
    unfold bind, print. simpl.
    destruct (IH (fun v Hv => Hb v (or_intror Hv)) (i + 1) d
                 (((o ++ [mkMessage "\n{i}. {vote.book.b_title}" [Int i; Str (b_title b)]])
                   ++ [mkMessage
                         "   Auteur: {vote.book.author.full_name() if vote.book.author else 'Inconnu'}"
                         [Str (GoncourtService.author_name b)]])
                   ++ [mkMessage "   Votes: {vote.v_number_vote} ({percentage:.1f}%)"
                                 [Int (v_number_vote vote); p]]))
      as (lines & Hrun & Hren).
    exists (vote_block i vote b p ++ lines). split.
    + rewrite Hrun. unfold vote_block. rewrite <- !app_assoc. reflexivity.
    + econstructor; eassumption.
Qed.

Lemma results_have_books d vote :
  In vote (map (vote_of_result d) (VoteDAO.select_final_results d)) ->
  exists b, v_book vote = Some b.
Proof.
  intros H. apply in_map_iff in H. destruct H as ([[v b] s] & <- & Hin).
  rewrite select_final_results_join in Hin. apply order_by_In in Hin.
  destruct (vote_of_result_represents d v b s Hin) as (_ & _ & _ & (b' & Hb & _) & _).
  eauto.
Qed.

(** C7.  With no persistence fault, [display_final_results] never raises
    (in particular no division by zero); with no vote it prints the single
    line saying so and announces no winner; otherwise it prints every vote
    of [get_final_results] with the percentage count / total * 100 (0 when
    the total is not positive) and announces the first one as the winner. *)
Theorem display_final_results_spec (w : World) :
  quiet w ->
  exists votes lines,
    GoncourtService.get_final_results w = (Ok votes, w)
    /\ GoncourtService.display_final_results w
       = (Ok tt, mkWorld (db w) (faults w) (stdout w ++ lines))
    /\ match votes with
       | [] => lines = no_result
       | winner :: _ =>
           exists b vote_lines,
             v_book winner = Some b
             /\ rendered (sum (map v_number_vote votes)) 1 votes vote_lines
             /\ lines = results_header ++ vote_lines ++ winner_block winner b
       end.
Proof.
  destruct w as [d f o]. unfold quiet. simpl. intros ->.
  unfold GoncourtService.display_final_results, GoncourtService.get_final_results.
  rewrite get_final_results_quiet.
  pose proof (results_have_books d) as Hbooks.
  set (votes := map (vote_of_result d) (VoteDAO.select_final_results d)) in *.
  unfold bind at 1. rewrite get_final_results_quiet. fold votes.
  destruct votes as [|winner rest] eqn:Ev.
  - exists [], no_result. repeat split.
  - destruct (Hbooks winner (or_introl eq_refl)) as (b & Eb).
    unfold bind, print. cbn [db faults stdout].
    match goal with
    | |- context [GoncourtService.display_votes 1 _ ?t (mkWorld d [] ?o')] =>
        destruct (display_votes_quiet t (winner :: rest) Hbooks 1 d o')
          as (vlines & Hrun & Hren)
    end.
    rewrite Hrun. unfold GoncourtService.book_of. rewrite Eb. unfold ret.
    cbn [db faults stdout].
    exists (winner :: rest), (results_header ++ vlines ++ winner_block winner b).
    split; [reflexivity|]. split.
    + unfold results_header, winner_block. rewrite <- !app_assoc. reflexivity.
    + exists b, vlines. auto.
Qed.

Lemma display_final_results_spec_witness :
  quiet w_votes
  /\ exists votes lines,
      GoncourtService.get_final_results w_votes = (Ok votes, w_votes)
      /\ GoncourtService.display_final_results w_votes
         = (Ok tt, mkWorld (db w_votes) (faults w_votes) (stdout w_votes ++ lines))
      /\ match votes with
         | [] => lines = no_result
         | winner :: _ =>
             exists b vote_lines,
               v_book winner = Some b
               /\ rendered (sum (map v_number_vote votes)) 1 votes vote_lines
               /\ lines = results_header ++ vote_lines ++ winner_block winner b
         end.
Proof.
  assert (Hq : quiet w_votes) by (vm_compute; reflexivity).
  split; [exact Hq|].
  exact (display_final_results_spec w_votes Hq).
Defined.

(** The session of the specification: the votes 1, 4, 2, 3 for the four
    finalists come back ranked, and work 2 wins with 4 votes out of 10. *)
Example session_results :
  exists votes,
    GoncourtService.get_final_results w_votes = (Ok votes, w_votes)
    /\ map (fun v => (option_map b_id (v_book v), v_number_vote v)) votes
       = [(Some 2, 4); (Some 4, 3); (Some 3, 2); (Some 1, 1)].
Proof. eexists. split; vm_compute; reflexivity. Qed.

(* ===================================================================== *)
(** ** C9: a fault the caller never sees *)
(* ===================================================================== *)

(** C9 at the failing input.  Every membership INSERT of the second
    selection raises; each exception is caught and printed inside
    [add_book_to_selection], [create] drops the [False] it returns, and the
    service reports success for a selection that holds no work. *)
Theorem create_deuxieme_selection_hides_faults :
  exists w',
    GoncourtService.create_deuxieme_selection [1; 2; 3; 4; 5; 6; 7; 8] w_round1_server_lost
    = (Ok true, w')
    /\ round_exists (db w') 2
    /\ round_works (db w') 2 = Some []
    /\ stdout w'
       = repeat (mkMessage "Erreur lors de l'ajout du livre à la sélection: {e}" []) 8
         ++ [mkMessage "✓ Deuxième sélection créée avec {len(books)} livres" [Int 8]].
Proof.
  eexists. split; [vm_compute; reflexivity|]. split.
  - apply round_exists_row. vm_compute. eexists. reflexivity.
  - split; vm_compute; reflexivity.
Qed.

(* ===================================================================== *)
(** ** Pre- and postconditions *)
(* ===================================================================== *)

Section Hoare.
Context {A B : Type}.

Lemma hoare_ret (a : A) (P : World -> Prop) (Q : A -> World -> Prop) (E : World -> Prop) :
  (forall w, P w -> Q a w) -> hoare P (ret a) Q E.
Proof. intros H w Hw. apply H, Hw. Qed.

Lemma hoare_bind (m : M A) (k : A -> M B) (P : World -> Prop) (Q : A -> World -> Prop)
      (R : B -> World -> Prop) (E : World -> Prop) :
  hoare P m Q E -> (forall a, hoare (Q a) (k a) R E) -> hoare P (bind m k) R E.
Proof.
  intros Hm Hk w Hw. unfold bind. specialize (Hm w Hw).
  destruct (m w) as [[a|e] w1]; [apply Hk, Hm | exact Hm].
Qed.

Lemma hoare_try (body : M A) (handler : Exception -> M A) (P : World -> Prop)
      (Q : A -> World -> Prop) (E1 E : World -> Prop) :
  hoare P body Q E1 -> (forall e, hoare E1 (handler e) Q E) ->
  hoare P (try_except body handler) Q E.
Proof.
  intros Hb Hh w Hw. unfold try_except. specialize (Hb w Hw).
  destruct (body w) as [[a|e] w1]; [exact Hb | apply Hh, Hb].
Qed.

Lemma hoare_conseq (m : M A) (P P' : World -> Prop) (Q Q' : A -> World -> Prop)
      (E E' : World -> Prop) :
  hoare P' m Q' E' ->
  (forall w, P w -> P' w) -> (forall a w, Q' a w -> Q a w) -> (forall w, E' w -> E w) ->
  hoare P m Q E.
Proof.
  intros Hm HP HQ HE w Hw. specialize (Hm w (HP w Hw)).
  destruct (m w) as [[a|e] w1]; auto.
Qed.

Lemma hoare_execute (q : Database -> A * Database) (P : World -> Prop)
      (Q : A -> World -> Prop) (E : World -> Prop) :
  (forall w fs, P w -> Q (fst (q (db w))) (mkWorld (snd (q (db w))) fs (stdout w))) ->
  (forall w fs, P w -> E (mkWorld (db w) fs (stdout w))) ->
  hoare P (execute q) Q E.
Proof.
  intros HQ HE w Hw. unfold execute.
  destruct (faults w) as [|[|] fs].
  - specialize (HQ w [] Hw). destruct (q (db w)). exact HQ.
  - apply HE, Hw.
  - specialize (HQ w fs Hw). destruct (q (db w)). exact HQ.
Qed.

Lemma hoare_returns (m : M A) (P : World -> Prop) (Q : A -> World -> Prop) (w : World) :
  hoare P m Q (fun _ => False) -> P w -> returns m w Q.
Proof.
  intros Hm Hw. specialize (Hm w Hw). unfold returns.
  destruct (m w) as [[a|e] w1]; [eauto | destruct Hm].
Qed.

End Hoare.

Lemma hoare_query {A} (q : Database -> A) (P : World -> Prop) (Q : A -> World -> Prop)
      (E : World -> Prop) :
  (forall w fs, P w -> Q (q (db w)) (mkWorld (db w) fs (stdout w))) ->
  (forall w fs, P w -> E (mkWorld (db w) fs (stdout w))) ->
  hoare P (query q) Q E.
Proof. intros HQ HE. apply hoare_execute; assumption. Qed.

Lemma hoare_print (f : string) (a : list Value) (P : World -> Prop)
      (Q : unit -> World -> Prop) (E : World -> Prop) :
  (forall w, P w -> Q tt (mkWorld (db w) (faults w) (stdout w ++ [mkMessage f a]))) ->
  hoare P (print f a) Q E.
Proof. intros H w Hw. apply H, Hw. Qed.

(* ===================================================================== *)
(** ** The tables only grow *)
(* ===================================================================== *)

Lemma evolves_refl d : evolves d d.
Proof.
  constructor.
  - reflexivity.
  - exists []. rewrite app_nil_r. split; [reflexivity | intros r []].
  - exists []. rewrite app_nil_r. split; [reflexivity | intros b s []].
  - lia.
Qed.

Lemma evolves_insert_selection obj d0 d :
  evolves d0 d -> evolves d0 (snd (SelectionDAO.insert_selection obj d)).
Proof.
  intros [Hb (rows & Hs & Hrows) Hbs Ha]. constructor; simpl.
  - exact Hb.
  - exists (rows ++ [selection_row.mk (selection_auto_increment d) (s_name obj)
                                      (s_round obj) (s_date obj)]).
    rewrite Hs, app_assoc. split; [reflexivity|].
    intros r Hr. apply in_app_iff in Hr. destruct Hr as [Hr | [<- | []]]; [auto | exact Ha].
  - exact Hbs.
  - lia.
Qed.

Lemma evolves_insert_ignore b s d0 d :
  selection_auto_increment d0 <= s ->
  evolves d0 d -> evolves d0 (snd (SelectionDAO.insert_ignore_book_selection b s d)).
Proof.
  intros Hle [Hb Hs (pairs & Hbs & Hpairs) Ha].
  unfold SelectionDAO.insert_ignore_book_selection.
  destruct (existsb _ _); simpl; constructor; simpl; eauto.
  exists (pairs ++ [(b, s)]). rewrite Hbs, app_assoc. split; [reflexivity|].
  intros b' s' H. apply in_app_iff in H. destruct H as [H | [H | []]]; [eauto|].
  injection H as <- <-. exact Hle.
Qed.

(** A statement on table [vote] alone. *)
Lemma evolves_vote_statement d0 d d' :
  t_book d' = t_book d -> t_selection d' = t_selection d ->
  t_book_selection d' = t_book_selection d ->
  selection_auto_increment d' = selection_auto_increment d ->
  evolves d0 d -> evolves d0 d'.
Proof.
  intros Eb Es Ebs Ea [Hb Hs Hbs Ha]. constructor; rewrite ?Eb, ?Es, ?Ebs, ?Ea; assumption.
Qed.

Lemma db_wf_vote_statement d d' :
  t_book d' = t_book d -> t_selection d' = t_selection d ->
  t_book_selection d' = t_book_selection d ->
  selection_auto_increment d' = selection_auto_increment d ->
  db_wf d -> db_wf d'.
Proof.
  intros Eb Es Ebs Ea [H1 H2 H3 H4 H5 H6].
  constructor; rewrite ?Eb, ?Es, ?Ebs, ?Ea; assumption.
Qed.

Lemma insert_selection_wf obj d : db_wf d -> db_wf (snd (SelectionDAO.insert_selection obj d)).
Proof.
  intros Hwf.
  apply (create_db_wf (mkSelection (s_id obj) (s_name obj) (s_round obj) (s_date obj) []) d Hwf).
Qed.

Lemma insert_ignore_wf b s d :
  db_wf d -> s < selection_auto_increment d ->
  db_wf (snd (SelectionDAO.insert_ignore_book_selection b s d)).
Proof.
  intros Hwf Hs.
  destruct (insert_ignore_tables b s d) as (Eb & Es & _ & Ea & _).
  constructor; rewrite ?Eb, ?Es, ?Ea.
  - apply (wf_book_key Hwf).
  - apply (wf_selection_key Hwf).
  - apply insert_ignore_NoDup, (wf_book_selection_key Hwf).
  - apply (wf_auto_increment Hwf).
  - apply (wf_selection_fresh Hwf).
  - intros b' s' H. apply insert_ignore_In in H. destruct H as [H | H].
    + apply (wf_book_selection_fresh Hwf) in H. exact H.
    + injection H as -> ->. exact Hs.
Qed.

(** A round the application could read is read unchanged afterwards. *)
Lemma evolves_round_row d d' n r :
  evolves d d' -> round_row d n = Some r -> round_row d' n = Some r.
Proof.
  intros [_ (rows & Hs & _) _ _]. unfold round_row, SelectionDAO.select_by_round, fetchone.
  rewrite Hs, filter_app.
  destruct (filter _ (t_selection d)); simpl; [discriminate | auto].
Qed.

Lemma evolves_select_by_selection d d' sid :
  evolves d d' -> sid < selection_auto_increment d ->
  BookDAO.select_by_selection sid d' = BookDAO.select_by_selection sid d.
Proof.
  intros [Hb _ (pairs & Hbs & Hpairs) _] Hsid. unfold BookDAO.select_by_selection.
  rewrite Hb, Hbs. f_equal. apply flat_map_ext. intros b.
  rewrite flat_map_app.
  rewrite (flat_map_nil _ pairs); [apply app_nil_r|].
  intros [b' s'] Hin. simpl.
  destruct (s' =? sid) eqn:E; [|rewrite andb_false_r; reflexivity].
  apply Z.eqb_eq in E. subst s'. apply Hpairs in Hin. lia.
Qed.

Lemma evolves_round_works d d' n l :
  db_wf d -> evolves d d' -> round_works d n = Some l -> round_works d' n = Some l.
Proof.
  intros Hwf Hev. unfold round_works.
  destruct (round_row d n) as [r|] eqn:Er; [|discriminate].
  rewrite (evolves_round_row d d' n r Hev Er). simpl. intros [= <-]. f_equal.
  unfold works_of. f_equal. apply evolves_select_by_selection; [exact Hev|].
  apply round_row_Some in Er. destruct Er as [Hin _].
  apply (wf_selection_fresh Hwf), Hin.
Qed.

Lemma evolves_stored_work d d' id : evolves d d' -> (stored_work d' id <-> stored_work d id).
Proof. intros [Hb _ _ _]. unfold stored_work. rewrite Hb. reflexivity. Qed.

(* ===================================================================== *)
(** ** What a call keeps, whatever raises *)
(* ===================================================================== *)

Lemma inv_faults J n w fs : inv J n w -> inv J n (mkWorld (db w) fs (stdout w)).
Proof. intros H. exact H. Qed.

Lemma inv_print J n w m :
  inv J n w ->
  inv J n (mkWorld (db w) (faults w) (stdout w ++ [m]))
  /\ printed_since n (mkWorld (db w) (faults w) (stdout w ++ [m])).
Proof.
  intros (HJ & Hn).
  unfold inv, printed_since; cbn [db stdout]; rewrite length_app; cbn [List.length].
  split; [split; [exact HJ | lia] | lia].
Qed.

Lemma inv_statement (J J' : Database -> Prop) n w fs d :
  inv J n w -> (J (db w) -> J' d) -> inv J' n (mkWorld d fs (stdout w)).
Proof. intros (HJ & Hn) H. split; [apply H, HJ | exact Hn]. Qed.

Create HintDb keeps.

(** A proof that a call keeps the invariant [I]: the control flow is taken
    apart, [base] closes the goals about single statements and calls. *)
Ltac keeps_base :=
  first [ assumption
        | apply inv_faults; assumption
        | apply inv_print; assumption
        | solve [auto with keeps]
        | eapply inv_statement; [eassumption | solve [auto with keeps]] ].

Ltac keeps_step I :=
  repeat first
    [ solve [keeps_base]
    | apply hoare_ret; intros ? ?; keeps_base
    | apply hoare_print; intros ? ?; keeps_base
    | apply hoare_query; intros ? ? ?; keeps_base
    | apply hoare_execute; intros ? ? ?; keeps_base
    | apply hoare_bind with (Q := fun _ => I); [| intros ?]
    | apply hoare_try with (E1 := I); [| intros ?]
    | match goal with
      | |- hoare _ (match ?x with _ => _ end) _ _ => destruct x
      | |- hoare _ (if ?x then _ else _) _ _ => destruct x
      end ].

Section Reads.
Variable J : Database -> Prop.
Variable n : nat.
Variable E : World -> Prop.

Lemma read_keeps pk : hoare (inv J n) (BookDAO.read pk) (fun _ => inv J n) E.
Proof. unfold BookDAO.read. keeps_step (inv J n). Qed.

Lemma read_all_keeps : hoare (inv J n) BookDAO.read_all (fun _ => inv J n) E.
Proof. unfold BookDAO.read_all. keeps_step (inv J n). Qed.

Lemma get_books_by_selection_keeps sid :
  hoare (inv J n) (BookDAO.get_books_by_selection sid) (fun _ => inv J n) E.
Proof. unfold BookDAO.get_books_by_selection. keeps_step (inv J n). Qed.

End Reads.

#[local] Hint Resolve read_keeps read_all_keeps get_books_by_selection_keeps : keeps.

(** [find_by_round] returns the first row of the round, or nothing. *)
Lemma find_by_round_keeps J n E round_number :
  hoare (inv J n) (SelectionDAO.find_by_round round_number)
        (fun r w =>
           inv J n w
           /\ forall sel, r = Some sel ->
                exists row, round_row (db w) round_number = Some row
                            /\ s_id sel = selection_row.s_id row)
        E.
Proof.
  unfold SelectionDAO.find_by_round.
  apply hoare_try with (E1 := inv J n).
  - apply hoare_bind
      with (Q := fun result => inv (fun d => J d /\ round_row d round_number = result) n).
    + apply hoare_query; intros w fs Hw; [|apply inv_faults, Hw].
      apply (inv_statement J _ n w fs (db w) Hw). intros HJ. split; [exact HJ | reflexivity].
    + intros [row|].
      * apply hoare_bind
          with (Q := fun _ => inv (fun d => J d /\ round_row d round_number = Some row) n).
        -- apply get_books_by_selection_keeps.
        -- intros books. apply hoare_ret. intros w [[HJ Hrow] Hn].
           split; [split; assumption|].
           intros sel [= <-]. exists row. split; [exact Hrow | reflexivity].
      * apply hoare_ret. intros w [[HJ _] Hn]. split; [split; assumption | discriminate].
  - intros e. apply hoare_bind with (Q := fun _ => inv J n).
    + apply hoare_print. intros w Hw. apply inv_print, Hw.
    + intros _. apply hoare_ret. intros w Hw. split; [exact Hw | discriminate].
Qed.

Lemma find_by_round_keeps_inv J n E round_number :
  hoare (inv J n) (SelectionDAO.find_by_round round_number) (fun _ => inv J n) E.
Proof.
  intros w Hw. pose proof (find_by_round_keeps J n E round_number w Hw) as H.
  destruct (SelectionDAO.find_by_round round_number w) as [[r|e] w1];
    [exact (proj1 H) | exact H].
Qed.

#[local] Hint Resolve find_by_round_keeps_inv : keeps.

(** *** Writes to [selection] and [book_selection] *)

Lemma safe_insert_selection d0 obj d :
  safe d0 d ->
  safe_for d0 (selection_auto_increment d) (snd (SelectionDAO.insert_selection obj d))
  /\ 0 < selection_auto_increment d.
Proof.
  intros [Hwf Hev]. split; [split; [split|]|].
  - apply insert_selection_wf, Hwf.
  - apply evolves_insert_selection, Hev.
  - pose proof (ev_auto_increment Hev). simpl. lia.
  - apply (wf_auto_increment Hwf).
Qed.

Lemma safe_for_insert_ignore d0 sid b d :
  safe_for d0 sid d ->
  safe_for d0 sid (snd (SelectionDAO.insert_ignore_book_selection b sid d)).
Proof.
  intros [[Hwf Hev] Hsid].
  destruct (insert_ignore_tables b sid d) as (_ & _ & _ & Ea & _).
  split; [split|].
  - apply insert_ignore_wf; [exact Hwf | lia].
  - apply evolves_insert_ignore; [lia | exact Hev].
  - rewrite Ea. exact Hsid.
Qed.

Lemma add_book_to_selection_keeps d0 n E b sid :
  hoare (inv (safe_for d0 sid) n) (SelectionDAO.add_book_to_selection b sid)
        (fun _ => inv (safe_for d0 sid) n) E.
Proof.
  unfold SelectionDAO.add_book_to_selection, commit.
  apply hoare_try with (E1 := inv (safe_for d0 sid) n).
  - apply hoare_bind with (Q := fun _ => inv (safe_for d0 sid) n).
    + apply hoare_execute; intros w fs Hw; [|apply inv_faults, Hw].
      apply (inv_statement _ _ n w fs _ Hw), safe_for_insert_ignore.
    + intros rowcount. keeps_step (inv (safe_for d0 sid) n).
  - intros e. keeps_step (inv (safe_for d0 sid) n).
Qed.

Lemma add_books_keeps d0 n E sid books :
  hoare (inv (safe_for d0 sid) n) (SelectionDAO.add_books books sid)
        (fun _ => inv (safe_for d0 sid) n) E.
Proof.
  induction books as [|b rest IH]; cbn [SelectionDAO.add_books].
  - apply hoare_ret. auto.
  - apply hoare_bind with (Q := fun _ => inv (safe_for d0 sid) n);
      [apply add_book_to_selection_keeps | intros _; exact IH].
Qed.

(** [create] keeps the tables well formed; a result of 0 comes with a line
    printed by the handler. *)
Lemma create_keeps d0 n E obj :
  hoare (inv (safe d0) n) (SelectionDAO.create obj)
        (fun id w => inv (safe d0) n w /\ (id = 0 -> printed_since n w)) E.
Proof.
  unfold SelectionDAO.create, commit.
  apply hoare_try with (E1 := inv (safe d0) n).
  - apply hoare_bind with (Q := fun id => inv (fun d => safe_for d0 id d /\ 0 < id) n).
    + apply hoare_execute; intros w fs Hw; [|apply inv_faults, Hw].
      apply (inv_statement _ _ n w fs _ Hw). intros Hs. cbn [fst].
      apply safe_insert_selection, Hs.
    + intros id.
      assert (Hweak : forall w, inv (fun d => safe_for d0 id d /\ 0 < id) n w ->
                                inv (safe d0) n w).
      { intros w [[[Hs _] _] Hn]. split; assumption. }
      apply hoare_bind with (Q := fun _ => inv (fun d => safe_for d0 id d /\ 0 < id) n).
      { apply hoare_query; intros w fs Hw; [exact Hw | apply Hweak, Hw]. }
      intros _.
      apply hoare_bind with (Q := fun _ => inv (fun d => safe_for d0 id d /\ 0 < id) n).
      { intros w [[Hs Hid] Hn].
        pose proof (add_books_keeps d0 n (inv (safe d0) n) id (book obj) w
                                    (conj Hs Hn)) as H.
        destruct (SelectionDAO.add_books (book obj) id w) as [[[]|e] w1].
        - destruct H as [Hs1 Hn1]. split; [split|]; assumption.
        - exact H. }
      intros _. apply hoare_ret. intros w Hw. split; [apply Hweak, Hw|].
      destruct Hw as [[_ Hid] _]. lia.
  - intros e. apply hoare_bind with (Q := fun _ w => inv (safe d0) n w /\ printed_since n w).
    + apply hoare_print. intros w Hw. apply inv_print, Hw.
    + intros _. apply hoare_ret. intros w [Hw Hp]. split; [exact Hw | intros _; exact Hp].
Qed.

(** *** Writes to [vote] *)

Lemma delete_votes_written sid d : votes_written sid d (snd (VoteDAO.delete_votes sid d)).
Proof.
  unfold votes_written, other_votes. cbn. repeat split.
  apply filter_idem.
Qed.

Lemma insert_vote_written c vd b sid d :
  votes_written sid d (snd (VoteDAO.insert_vote c vd b sid d)).
Proof.
  unfold votes_written, other_votes. cbn. repeat split.
  rewrite filter_app. cbn. rewrite Z.eqb_refl. cbn. apply app_nil_r.
Qed.

Lemma safe_votes_written d0 sid d d' : safe d0 d -> votes_written sid d d' -> safe d0 d'.
Proof.
  intros [Hwf Hev] (Eb & Es & Ebs & Ea & _). split.
  - apply (db_wf_vote_statement d d'); assumption.
  - apply (evolves_vote_statement d0 d d'); assumption.
Qed.

Section VoteWrites.
Variable J : Database -> Prop.
Variable sid : Z.
Hypothesis J_closed : forall d d', J d -> votes_written sid d d' -> J d'.
Variable n : nat.

Lemma insert_votes_keeps vd entries :
  hoare (inv J n) (VoteDAO.insert_votes entries sid vd) (fun _ => inv J n) (inv J n).
Proof.
  induction entries as [|[book_id vote_count] rest IH]; cbn [VoteDAO.insert_votes].
  - apply hoare_ret. auto.
  - apply hoare_bind with (Q := fun _ => inv J n); [|intros _; exact IH].
    apply hoare_execute; intros w fs Hw; [|apply inv_faults, Hw].
    apply (inv_statement J J n w fs _ Hw). intros HJ.
    apply (J_closed (db w)); [exact HJ | apply insert_vote_written].
Qed.

(** [record_final_votes] touches the votes of [sid] only; a result of
    [False] comes with a line printed by the handler. *)
Lemma dao_record_final_votes_keeps E votes_data vd :
  hoare (inv J n) (VoteDAO.record_final_votes votes_data sid vd)
        (fun r w => inv J n w /\ (r = false -> printed_since n w)) E.
Proof.
  unfold VoteDAO.record_final_votes, commit.
  apply hoare_try with (E1 := inv J n).
  - apply hoare_bind with (Q := fun _ => inv J n).
    + apply hoare_execute; intros w fs Hw; [|apply inv_faults, Hw].
      apply (inv_statement J J n w fs _ Hw). intros HJ.
      apply (J_closed (db w)); [exact HJ | apply delete_votes_written].
    + intros _. apply hoare_bind with (Q := fun _ => inv J n); [apply insert_votes_keeps|].
      intros _. apply hoare_bind with (Q := fun _ => inv J n).
      * apply hoare_query; intros w fs Hw; apply inv_faults, Hw.
      * intros _. apply hoare_ret. intros w Hw. split; [exact Hw | discriminate].
  - intros e. apply hoare_bind with (Q := fun _ w => inv J n w /\ printed_since n w).
    + apply hoare_print. intros w Hw. apply inv_print, Hw.
    + intros _. apply hoare_ret. intros w [Hw Hp]. split; [exact Hw | intros _; exact Hp].
Qed.

End VoteWrites.

Lemma create_votes_keeps J n E results :
  hoare (inv J n) (VoteDAO.create_votes results) (fun _ => inv J n) E.
Proof.
  induction results as [|[[v b] s] rest IH]; cbn [VoteDAO.create_votes].
  - apply hoare_ret. auto.
  - unfold VoteDAO._create_vote_from_result.
    keeps_step (inv J n).
Qed.

#[local] Hint Resolve create_votes_keeps : keeps.

Lemma dao_get_final_results_keeps J n E :
  hoare (inv J n) VoteDAO.get_final_results (fun _ => inv J n) E.
Proof. unfold VoteDAO.get_final_results. keeps_step (inv J n). Qed.

#[local] Hint Resolve dao_get_final_results_keeps : keeps.

(** *** The service *)

(** [print(...); return False] *)
Lemma refusal_keeps J n E f a :
  hoare (inv J n) (print f a ;;; ret false)
        (fun r w => inv J n w /\ (r = false -> printed_since n w)) E.
Proof.
  apply hoare_bind with (Q := fun _ w => inv J n w /\ printed_since n w).
  - apply hoare_print. intros w Hw. apply inv_print, Hw.
  - intros _. apply hoare_ret. intros w [Hw Hp]. split; [exact Hw | intros _; exact Hp].
Qed.

Lemma read_books_keeps J n E book_ids :
  hoare (inv J n) (GoncourtService.read_books book_ids)
        (fun r w => inv J n w /\ (r = None -> printed_since n w)) E.
Proof.
  induction book_ids as [|book_id rest IH]; cbn [GoncourtService.read_books].
  - apply hoare_ret. intros w Hw. split; [exact Hw | discriminate].
  - apply hoare_bind with (Q := fun _ => inv J n); [apply read_keeps|].
    intros [b|].
    + apply hoare_bind with (Q := fun r w => inv J n w /\ (r = None -> printed_since n w));
        [exact IH|].
      intros [books|]; apply hoare_ret; intros w [Hw Hp];
        (split; [exact Hw|]); cbn; [discriminate | intros _; apply Hp; reflexivity].
    + apply hoare_bind with (Q := fun _ w => inv J n w /\ printed_since n w).
      * apply hoare_print. intros w Hw. apply inv_print, Hw.
      * intros _. apply hoare_ret. intros w [Hw Hp]. split; [exact Hw | intros _; exact Hp].
Qed.

(** The end of the three creations: [create], then the success line. *)
Lemma created_keeps d0 n E obj f a :
  hoare (inv (safe d0) n)
        (selection_id <- SelectionDAO.create obj ;;
         if negb (selection_id =? 0) then print f a ;;; ret true else ret false)
        (fun r w => inv (safe d0) n w /\ (r = false -> printed_since n w)) E.
Proof.
  apply hoare_bind with (Q := fun id w => inv (safe d0) n w /\ (id = 0 -> printed_since n w));
    [apply create_keeps|].
  intros id. destruct (id =? 0) eqn:Eid; cbn [negb].
  - apply Z.eqb_eq in Eid. apply hoare_ret. intros w [Hw Hp]. split; [exact Hw | auto].
  - apply hoare_bind with (Q := fun _ => inv (safe d0) n).
    + apply hoare_print. intros w [Hw _]. apply inv_print, Hw.
    + intros _. apply hoare_ret. intros w Hw. split; [exact Hw | discriminate].
Qed.

Ltac creation_keeps d0 n :=
  match goal with
  | |- hoare _ (if ?c then _ else _) _ _ => destruct c; [apply refusal_keeps|]
  end;
  apply hoare_bind
    with (Q := fun r w => inv (safe d0) n w /\ (r = None -> printed_since n w));
    [apply read_books_keeps|];
  intros [books|];
    [|apply hoare_ret; intros w [Hw Hp]; split; [exact Hw | intros _; apply Hp; reflexivity]];
  apply hoare_bind with (Q := fun _ w => inv (safe d0) n w);
    [intros w [Hw _]; apply find_by_round_keeps_inv, Hw|];
  intros [previous|]; [|apply refusal_keeps];
  match goal with
  | |- hoare _ (match ?c with _ => _ end) _ _ => destruct c; [apply refusal_keeps|]
  end;
  apply created_keeps.

Lemma create_deuxieme_selection_keeps d0 n E book_ids :
  hoare (inv (safe d0) n) (GoncourtService.create_deuxieme_selection book_ids)
        (fun r w => inv (safe d0) n w /\ (r = false -> printed_since n w)) E.
Proof. unfold GoncourtService.create_deuxieme_selection. creation_keeps d0 n. Qed.

Lemma create_troisieme_selection_keeps d0 n E book_ids :
  hoare (inv (safe d0) n) (GoncourtService.create_troisieme_selection book_ids)
        (fun r w => inv (safe d0) n w /\ (r = false -> printed_since n w)) E.
Proof. unfold GoncourtService.create_troisieme_selection. creation_keeps d0 n. Qed.

Lemma create_final_selection_keeps d0 n E :
  hoare (inv (safe d0) n) GoncourtService.create_final_selection
        (fun r w => inv (safe d0) n w /\ (r = false -> printed_since n w)) E.
Proof.
  unfold GoncourtService.create_final_selection.
  apply hoare_bind with (Q := fun _ => inv (safe d0) n); [apply find_by_round_keeps_inv|].
  intros [troisieme|]; [|apply refusal_keeps].
  destruct (negb _); [apply refusal_keeps | apply created_keeps].
Qed.

Lemma initialize_keeps d0 n E :
  hoare (inv (safe d0) n) GoncourtService._initialize_first_selection
        (fun _ => inv (safe d0) n) E.
Proof.
  unfold GoncourtService._initialize_first_selection.
  apply hoare_bind with (Q := fun _ => inv (safe d0) n); [apply find_by_round_keeps_inv|].
  intros [premiere|]; [apply hoare_ret; auto|].
  apply hoare_bind with (Q := fun _ => inv (safe d0) n); [apply read_all_keeps|].
  intros all_books.
  apply hoare_bind with (Q := fun _ => inv (safe d0) n).
  - intros w Hw. pose proof (create_keeps d0 n E
      (mkSelection 0 "PREMIÈRE SÉLECTION" 1 (Some (mkDate 2025 9 3)) all_books) w Hw) as H.
    destruct (SelectionDAO.create _ w) as [[id|e] w1]; [exact (proj1 H) | exact H].
  - intros id. destruct (negb _); [|apply hoare_ret; auto].
    apply hoare_print. intros w Hw. apply inv_print, Hw.
Qed.

Lemma votes_written_round_row sid d d' k :
  votes_written sid d d' -> round_row d' k = round_row d k.
Proof.
  intros (_ & Es & _). unfold round_row, SelectionDAO.select_by_round. rewrite Es. reflexivity.
Qed.

(** The service call touches the votes of the final selection it read. *)
Lemma service_record_final_votes_keeps (J : Database -> Prop) n E today votes_data :
  (forall sid d d',
      J d -> (exists row, round_row d 4 = Some row /\ selection_row.s_id row = sid) ->
      votes_written sid d d' -> J d') ->
  hoare (inv J n) (GoncourtService.record_final_votes today votes_data)
        (fun r w => inv J n w /\ (r = false -> printed_since n w)) E.
Proof.
  intros J_closed. unfold GoncourtService.record_final_votes.
  apply hoare_bind
    with (Q := fun r w =>
                 inv J n w
                 /\ forall sel, r = Some sel ->
                      exists row, round_row (db w) 4 = Some row
                                  /\ s_id sel = selection_row.s_id row);
    [apply find_by_round_keeps|].
  intros [finale_selection|];
    [|apply hoare_conseq
        with (P' := inv J n) (Q' := fun r w => inv J n w /\ (r = false -> printed_since n w))
             (E' := E);
      [apply refusal_keeps | intros w [Hw _]; exact Hw | auto | auto]].
  set (J' := fun d => J d /\ exists row, round_row d 4 = Some row
                                       /\ selection_row.s_id row = s_id finale_selection).
  assert (Hin : forall w,
             inv J n w
             /\ (forall sel, Some finale_selection = Some sel ->
                   exists row, round_row (db w) 4 = Some row
                               /\ s_id sel = selection_row.s_id row) ->
             inv J' n w).
  { intros w [[HJ Hn] Hsel]. destruct (Hsel _ eq_refl) as (row & Hrow & Eid).
    split; [split; [exact HJ | exists row; auto] | exact Hn]. }
  assert (Hout : forall (r : bool) w,
             inv J' n w /\ (r = false -> printed_since n w) ->
             inv J n w /\ (r = false -> printed_since n w)).
  { intros r w [[[HJ _] Hn] Hp]. split; [split; assumption | exact Hp]. }
  apply hoare_conseq
    with (P' := inv J' n) (Q' := fun r w => inv J' n w /\ (r = false -> printed_since n w))
         (E' := E); [|exact Hin | exact Hout | auto].
  destruct (GoncourtService.first_missing _ _); [apply refusal_keeps|].
  destruct (negb _).
  - apply hoare_bind with (Q := fun _ => inv J' n).
    + apply hoare_print. intros w Hw. apply inv_print, Hw.
    + intros _. apply refusal_keeps.
  - apply hoare_bind with (Q := fun r w => inv J' n w /\ (r = false -> printed_since n w)).
    + apply dao_record_final_votes_keeps.
      intros d d' [HJ (row & Hrow & Eid)] Hw. split.
      * apply (J_closed (s_id finale_selection) d d' HJ); [eauto | exact Hw].
      * exists row. rewrite (votes_written_round_row _ _ _ 4 Hw). auto.
    + intros [|].
      * apply hoare_bind with (Q := fun _ => inv J' n).
        -- apply hoare_print. intros w [Hw _]. apply inv_print, Hw.
        -- intros _. apply hoare_ret. intros w Hw. split; [exact Hw | discriminate].
      * apply hoare_ret. auto.
Qed.

Lemma service_record_final_votes_keeps_inv (J : Database -> Prop) n E today votes_data :
  (forall sid d d',
      J d -> (exists row, round_row d 4 = Some row /\ selection_row.s_id row = sid) ->
      votes_written sid d d' -> J d') ->
  hoare (inv J n) (GoncourtService.record_final_votes today votes_data) (fun _ => inv J n) E.
Proof.
  intros HJ w Hw.
  pose proof (service_record_final_votes_keeps J n E today votes_data HJ w Hw) as H.
  destruct (GoncourtService.record_final_votes today votes_data w) as [[r|e] w1];
    [exact (proj1 H) | exact H].
Qed.

(** *** What the creations keep once [SelectionDAO.create] keeps it *)

Section Creations.
Variable J : Database -> Prop.
Variable n : nat.
Hypothesis create_keeps_J :
  forall E obj, hoare (inv J n) (SelectionDAO.create obj) (fun _ => inv J n) E.
Variable E : World -> Prop.

Lemma initialize_keeps_J :
  hoare (inv J n) GoncourtService._initialize_first_selection (fun _ => inv J n) E.
Proof. unfold GoncourtService._initialize_first_selection. keeps_step (inv J n). Qed.

Lemma read_books_keeps_J book_ids :
  hoare (inv J n) (GoncourtService.read_books book_ids) (fun _ => inv J n) E.
Proof.
  induction book_ids as [|book_id rest IH]; cbn [GoncourtService.read_books];
    keeps_step (inv J n).
Qed.

Lemma create_deuxieme_selection_keeps_J book_ids :
  hoare (inv J n) (GoncourtService.create_deuxieme_selection book_ids) (fun _ => inv J n) E.
Proof.
  pose proof read_books_keeps_J.
  unfold GoncourtService.create_deuxieme_selection. keeps_step (inv J n).
Qed.

Lemma create_troisieme_selection_keeps_J book_ids :
  hoare (inv J n) (GoncourtService.create_troisieme_selection book_ids) (fun _ => inv J n) E.
Proof.
  pose proof read_books_keeps_J.
  unfold GoncourtService.create_troisieme_selection. keeps_step (inv J n).
Qed.

Lemma create_final_selection_keeps_J :
  hoare (inv J n) GoncourtService.create_final_selection (fun _ => inv J n) E.
Proof. unfold GoncourtService.create_final_selection. keeps_step (inv J n). Qed.

End Creations.

Section ServiceReads.
Variable J : Database -> Prop.
Variable n : nat.
Variable E : World -> Prop.

Lemma get_current_state_keeps :
  hoare (inv J n) GoncourtService.get_current_state (fun _ => inv J n) E.
Proof. unfold GoncourtService.get_current_state. keeps_step (inv J n). Qed.

Lemma get_available_books_keeps round_number :
  hoare (inv J n) (GoncourtService.get_available_books_for_selection round_number)
        (fun _ => inv J n) E.
Proof. unfold GoncourtService.get_available_books_for_selection. keeps_step (inv J n). Qed.

Lemma print_books_keeps books : forall i,
  hoare (inv J n) (GoncourtApplication.print_books i books) (fun _ => inv J n) E.
Proof.
  induction books as [|b rest IH]; intros i; cbn [GoncourtApplication.print_books];
    keeps_step (inv J n).
Qed.

Lemma selected_ids_keeps available indices :
  hoare (inv J n) (GoncourtApplication.selected_ids available indices)
        (fun _ => inv J n) (inv J n).
Proof.
  induction indices as [|idx rest IH]; cbn [GoncourtApplication.selected_ids].
  - keeps_step (inv J n).
  - destruct (nth_error available (Z.to_nat idx)); [keeps_step (inv J n)|].
    intros w Hw. exact Hw.
Qed.

End ServiceReads.

#[local] Hint Resolve get_current_state_keeps get_available_books_keeps print_books_keeps
  selected_ids_keeps : keeps.

Section PresidentCreations.
Variable J : Database -> Prop.
Variable n : nat.
Hypothesis create_keeps_J :
  forall E obj, hoare (inv J n) (SelectionDAO.create obj) (fun _ => inv J n) E.
Variable E : World -> Prop.

Lemma app_create_deuxieme_selection_keeps_J replace numbers :
  hoare (inv J n) (GoncourtApplication.create_deuxieme_selection replace numbers)
        (fun _ => inv J n) E.
Proof.
  pose proof (create_deuxieme_selection_keeps_J J n create_keeps_J).
  pose proof (create_final_selection_keeps_J J n create_keeps_J).
  unfold GoncourtApplication.create_deuxieme_selection. keeps_step (inv J n).
Qed.

Lemma app_create_troisieme_selection_keeps_J replace numbers :
  hoare (inv J n) (GoncourtApplication.create_troisieme_selection replace numbers)
        (fun _ => inv J n) E.
Proof.
  pose proof (create_troisieme_selection_keeps_J J n create_keeps_J).
  pose proof (create_final_selection_keeps_J J n create_keeps_J).
  unfold GoncourtApplication.create_troisieme_selection. keeps_step (inv J n).
Qed.

End PresidentCreations.

Section PresidentVotes.
Variable J : Database -> Prop.
Variable n : nat.
Hypothesis J_closed :
  forall sid d d',
    J d -> (exists row, round_row d 4 = Some row /\ selection_row.s_id row = sid) ->
    votes_written sid d d' -> J d'.
Variable E : World -> Prop.

Lemma read_votes_keeps lines :
  hoare (inv J n) (GoncourtApplication.read_votes lines) (fun _ => inv J n) E.
Proof.
  induction lines as [|[votes|] rest IH]; cbn [GoncourtApplication.read_votes];
    keeps_step (inv J n).
Qed.

Lemma read_all_votes_keeps books : forall lines votes_data total_votes,
  hoare (inv J n) (GoncourtApplication.read_all_votes books lines votes_data total_votes)
        (fun _ => inv J n) E.
Proof.
  pose proof read_votes_keeps.
  induction books as [|b rest IH]; intros lines votes_data total_votes;
    cbn [GoncourtApplication.read_all_votes]; keeps_step (inv J n).
Qed.

Lemma print_recap_keeps votes_data books :
  hoare (inv J n) (GoncourtApplication.print_recap books votes_data) (fun _ => inv J n) E.
Proof.
  induction books as [|b rest IH]; cbn [GoncourtApplication.print_recap];
    keeps_step (inv J n).
Qed.

Lemma app_record_final_votes_keeps lines confirm today :
  hoare (inv J n) (GoncourtApplication.record_final_votes lines confirm today)
        (fun _ => inv J n) E.
Proof.
  pose proof read_all_votes_keeps. pose proof print_recap_keeps.
  pose proof (fun votes_data =>
                service_record_final_votes_keeps_inv J n E today votes_data J_closed).
  unfold GoncourtApplication.record_final_votes. keeps_step (inv J n).
Qed.

End PresidentVotes.

(** *** Conditions the writes to [selection] and [book_selection] keep *)

Section SelectionWrites.
Variable J : Database -> Prop.
Hypothesis J_insert_selection :
  forall obj d, J d -> J (snd (SelectionDAO.insert_selection obj d)).
Hypothesis J_insert_ignore :
  forall b s d, J d -> J (snd (SelectionDAO.insert_ignore_book_selection b s d)).
Variable n : nat.

Lemma add_book_to_selection_keeps_J E b sid :
  hoare (inv J n) (SelectionDAO.add_book_to_selection b sid) (fun _ => inv J n) E.
Proof. unfold SelectionDAO.add_book_to_selection, commit. keeps_step (inv J n). Qed.

Lemma add_books_keeps_J E sid books :
  hoare (inv J n) (SelectionDAO.add_books books sid) (fun _ => inv J n) E.
Proof.
  pose proof add_book_to_selection_keeps_J.
  induction books as [|b rest IH]; cbn [SelectionDAO.add_books]; keeps_step (inv J n).
Qed.

Lemma create_keeps_J E obj :
  hoare (inv J n) (SelectionDAO.create obj) (fun _ => inv J n) E.
Proof.
  pose proof add_books_keeps_J.
  unfold SelectionDAO.create, commit. keeps_step (inv J n).
Qed.

End SelectionWrites.

(* ===================================================================== *)
(** ** Every entry point, whatever raises *)
(* ===================================================================== *)

Lemma safe_create_keeps d0 n E obj :
  hoare (inv (safe d0) n) (SelectionDAO.create obj) (fun _ => inv (safe d0) n) E.
Proof.
  intros w Hw. pose proof (create_keeps d0 n E obj w Hw) as H.
  destruct (SelectionDAO.create obj w) as [[id|e] w1]; [exact (proj1 H) | exact H].
Qed.

Lemma creates_keep J n :
  (forall E obj, hoare (inv J n) (SelectionDAO.create obj) (fun _ => inv J n) E) ->
  forall A (m : M A) E, creates m -> hoare (inv J n) m (fun _ => inv J n) E.
Proof.
  intros H A m E Hm. destruct Hm.
  - apply initialize_keeps_J, H.
  - apply create_deuxieme_selection_keeps_J, H.
  - apply create_troisieme_selection_keeps_J, H.
  - apply create_final_selection_keeps_J, H.
  - apply app_create_deuxieme_selection_keeps_J, H.
  - apply app_create_troisieme_selection_keeps_J, H.
Qed.

Lemma records_keep J n :
  (forall sid d d',
      J d -> (exists row, round_row d 4 = Some row /\ selection_row.s_id row = sid) ->
      votes_written sid d d' -> J d') ->
  forall A (m : M A) E, records m -> hoare (inv J n) m (fun _ => inv J n) E.
Proof.
  intros H A m E Hm. destruct Hm.
  - apply service_record_final_votes_keeps_inv, H.
  - apply app_record_final_votes_keeps, H.
Qed.

Lemma kept_returns J A (m : M A) w :
  hoare (inv J (List.length (stdout w))) m (fun _ => inv J (List.length (stdout w)))
        (fun _ => False) ->
  J (db w) -> returns m w (fun _ w' => J (db w')).
Proof.
  intros Hm HJ.
  assert (Hw : inv J (List.length (stdout w)) w) by (split; [exact HJ | apply le_n]).
  specialize (Hm w Hw). unfold returns.
  destruct (m w) as [[a|e] w1]; [|destruct Hm].
  exists a, w1. split; [reflexivity | exact (proj1 Hm)].
Qed.

Lemma writes_safe A (m : M A) w :
  writes m -> db_wf (db w) -> returns m w (fun _ w' => safe (db w) (db w')).
Proof.
  intros Hm Hwf. apply kept_returns; [|split; [exact Hwf | apply evolves_refl]].
  destruct Hm as [Hm | Hm].
  - apply creates_keep; [|exact Hm]. intros E obj. apply safe_create_keeps.
  - apply records_keep; [|exact Hm]. intros sid d d' Hs _ Hv.
    apply (safe_votes_written (db w) sid d d' Hs Hv).
Qed.

(** X1.  Whatever statements raise, every entry point that writes returns
    and leaves the keys of the tables sound ([db_wf]); it writes neither
    table [book] nor an existing row of [selection] or [book_selection]:
    both only grow at their end, by rows with new selection keys. *)
Theorem writes_keep_tables_well_formed (A : Type) (m : M A) (w : World) :
  writes m -> db_wf (db w) ->
  returns m w (fun _ w' => db_wf (db w') /\ evolves (db w) (db w')).
Proof.
  intros Hm Hwf. destruct (writes_safe A m w Hm Hwf) as (a & w' & Hrun & Hs).
  exists a, w'. split; [exact Hrun | exact Hs].
Qed.

(** The president establishes the second selection and two membership
    INSERTs raise: the action returns and the tables stay well formed. *)
Lemma writes_keep_tables_well_formed_witness :
  db_wf (db w_round1_flaky)
  /\ returns (GoncourtApplication.create_deuxieme_selection "" (Some [1; 2; 3; 4; 5; 6; 7; 8]))
             w_round1_flaky
             (fun _ w' => db_wf (db w') /\ evolves (db w_round1_flaky) (db w')).
Proof.
  assert (Hwf : db_wf (db w_round1_flaky)) by (apply db_wfb_sound; vm_compute; reflexivity).
  split; [exact Hwf|].
  apply (writes_keep_tables_well_formed
           unit (GoncourtApplication.create_deuxieme_selection "" (Some [1; 2; 3; 4; 5; 6; 7; 8]))
           w_round1_flaky).
  - left. apply creates_president_deuxieme.
  - exact Hwf.
Defined.

(** X2.  A round the application can read is never changed: whatever
    entry point runs and whatever raises, the round keeps its list of works. *)
Theorem writes_never_change_a_round (A : Type) (m : M A) (w : World) (k : Z) (l : list Z) :
  writes m -> db_wf (db w) -> round_works (db w) k = Some l ->
  returns m w (fun _ w' => round_works (db w') k = Some l).
Proof.
  intros Hm Hwf Hl. destruct (writes_safe A m w Hm Hwf) as (a & w' & Hrun & _ & Hev).
  exists a, w'. split; [exact Hrun|].
  apply (evolves_round_works (db w) (db w') k l Hwf Hev Hl).
Qed.

(** The president answers "o" to recreate the second selection with other
    works: the second selection read afterwards is the one of the session. *)
Lemma writes_never_change_a_round_witness :
  db_wf (db w_round2)
  /\ round_works (db w_round2) 2 = Some [1; 2; 3; 4; 5; 6; 7; 8]
  /\ returns (GoncourtApplication.create_deuxieme_selection
                "o" (Some [8; 9; 10; 11; 12; 13; 14; 15]))
             w_round2
             (fun _ w' => round_works (db w') 2 = Some [1; 2; 3; 4; 5; 6; 7; 8]).
Proof.
  assert (Hwf : db_wf (db w_round2)) by (apply db_wfb_sound; vm_compute; reflexivity).
  assert (Hl : round_works (db w_round2) 2 = Some [1; 2; 3; 4; 5; 6; 7; 8])
    by (vm_compute; reflexivity).
  split; [exact Hwf|]. split; [exact Hl|].
  apply (writes_never_change_a_round
           unit (GoncourtApplication.create_deuxieme_selection
                   "o" (Some [8; 9; 10; 11; 12; 13; 14; 15]))
           w_round2 2 [1; 2; 3; 4; 5; 6; 7; 8]).
  - left. apply creates_president_deuxieme.
  - exact Hwf.
  - exact Hl.
Defined.

(** X3.  Whatever raises, an entry point that creates a selection returns
    and writes neither table [book] nor table [vote]. *)
Theorem creations_leave_books_and_votes (A : Type) (m : M A) (w : World) :
  creates m -> returns m w (fun _ w' => same_books_and_votes (db w) (db w')).
Proof.
  intros Hm. apply kept_returns; [|repeat split].
  apply creates_keep; [|exact Hm]. intros E obj. apply create_keeps_J.
  - intros obj' d H. exact H.
  - intros b s d (Hb & Hv & Ha).
    destruct (insert_ignore_tables b s d) as (Eb & _ & Ev & _ & Ea).
    unfold same_books_and_votes. rewrite Eb, Ev, Ea. auto.
Qed.

(** The final selection is created again after the votes of the session,
    a commit raising on the way: the votes are those of the session. *)
Lemma creations_leave_books_and_votes_witness :
  returns GoncourtService.create_final_selection w_votes_flaky
          (fun _ w' => votes_of (db w') 4 = [(1, 1); (2, 4); (3, 2); (4, 3)]).
Proof.
  destruct (creations_leave_books_and_votes bool GoncourtService.create_final_selection
                                            w_votes_flaky creates_final)
    as (r & w' & Hrun & _ & Hv & _).
  exists r, w'. split; [exact Hrun|].
  unfold votes_of. rewrite Hv. vm_compute. reflexivity.
Defined.

Lemma only_final_votes_differ_refl d : only_final_votes_differ d d.
Proof. unfold only_final_votes_differ. destruct (round_row d 4); auto. Qed.

Lemma only_final_votes_differ_written d0 sid d d' :
  only_final_votes_differ d0 d ->
  (exists row, round_row d 4 = Some row /\ selection_row.s_id row = sid) ->
  votes_written sid d d' ->
  only_final_votes_differ d0 d'.
Proof.
  intros (Eb & Es & Ebs & Ea & Hv) (row & Hrow & Hsid) (Eb' & Es' & Ebs' & Ea' & Hv').
  assert (Hrow0 : round_row d0 4 = Some row).
  { unfold round_row, SelectionDAO.select_by_round in *. rewrite <- Es. exact Hrow. }
  unfold only_final_votes_differ. rewrite Hrow0 in *. subst sid.
  repeat split; congruence.
Qed.

(** X4.  Whatever raises, an entry point that records the votes returns
    and writes no table but [vote], where it touches only the votes of the
    final selection the application reads. *)
Theorem recording_leaves_selections_and_other_votes (A : Type) (m : M A) (w : World) :
  records m -> returns m w (fun _ w' => only_final_votes_differ (db w) (db w')).
Proof.
  intros Hm. apply kept_returns; [|apply only_final_votes_differ_refl].
  apply records_keep; [|exact Hm].
  intros sid d d'. apply only_final_votes_differ_written.
Qed.

(** The votes are recorded again and the third INSERT raises: the four
    selections of the session are as they were. *)
Lemma recording_leaves_selections_and_other_votes_witness :
  returns (GoncourtService.record_final_votes (mkDate 2025 11 5)
                                              [(1, 4); (2, 3); (3, 2); (4, 1)])
          w_votes_flaky
          (fun _ w' => map (round_works (db w')) [1; 2; 3; 4]
                       = map (round_works (db w_votes)) [1; 2; 3; 4]).
Proof.
  destruct (recording_leaves_selections_and_other_votes
              bool (GoncourtService.record_final_votes (mkDate 2025 11 5)
                                                       [(1, 4); (2, 3); (3, 2); (4, 1)])
              w_votes_flaky (records_service _ _))
    as (r & w' & Hrun & Eb & Es & Ebs & _).
  exists r, w'. split; [exact Hrun|].
  unfold round_works, round_row, works_of, SelectionDAO.select_by_round,
    BookDAO.select_by_selection.
  rewrite Eb, Es, Ebs. reflexivity.
Defined.

Lemma reports_keep d0 n (m : M bool) :
  reports m ->
  hoare (inv (safe d0) n) m (fun r w => inv (safe d0) n w /\ (r = false -> printed_since n w))
        (fun _ => False).
Proof.
  intros Hm. destruct Hm.
  - apply create_deuxieme_selection_keeps.
  - apply create_troisieme_selection_keeps.
  - apply create_final_selection_keeps.
  - apply service_record_final_votes_keeps. intros sid d d' Hs _ Hv.
    apply (safe_votes_written d0 sid d d' Hs Hv).
Qed.

(** X5.  No refusal is silent: whatever raises, when a call of the service
    that reports success returns [False], it has printed at least one line. *)
Theorem refusal_is_printed (m : M bool) (w : World) :
  reports m -> db_wf (db w) ->
  returns m w (fun r w' =>
                 r = false -> (List.length (stdout w) < List.length (stdout w'))%nat).
Proof.
  intros Hm Hwf.
  assert (Hw : inv (safe (db w)) (List.length (stdout w)) w).
  { split; [split; [exact Hwf | apply evolves_refl] | apply le_n]. }
  pose proof (reports_keep (db w) (List.length (stdout w)) m Hm w Hw) as H.
  unfold returns. destruct (m w) as [[r|e] w1]; [|destruct H].
  exists r, w1. split; [reflexivity | exact (proj2 H)].
Qed.

(** The INSERT of the second selection raises: the service returns [False]
    after the line printed by the DAO. *)
Lemma refusal_is_printed_witness :
  db_wf (db w_round1_insert_fails)
  /\ returns (GoncourtService.create_deuxieme_selection [1; 2; 3; 4; 5; 6; 7; 8])
             w_round1_insert_fails
             (fun r w' =>
                r = false
                -> (List.length (stdout w_round1_insert_fails) < List.length (stdout w'))%nat).
Proof.
  assert (Hwf : db_wf (db w_round1_insert_fails))
    by (apply db_wfb_sound; vm_compute; reflexivity).
  split; [exact Hwf|].
  apply (refusal_is_printed (GoncourtService.create_deuxieme_selection [1; 2; 3; 4; 5; 6; 7; 8])
                            w_round1_insert_fails (reports_deuxieme _) Hwf).
Defined.

(* ===================================================================== *)
(** ** The rounds stay nested *)
(* ===================================================================== *)

Lemma add_books_db_evolves d0 books sid : forall d,
  selection_auto_increment d0 <= sid -> evolves d0 d -> evolves d0 (add_books_db books sid d).
Proof.
  induction books as [|b rest IH]; intros d Hle Hev; [exact Hev|].
  apply IH; [exact Hle | apply evolves_insert_ignore; assumption].
Qed.

Lemma create_db_evolves obj d : evolves d (create_db obj d).
Proof.
  unfold create_db. apply add_books_db_evolves; [lia|].
  apply evolves_insert_selection, evolves_refl.
Qed.

Lemma round_works_Some d k l :
  round_works d k = Some l <->
  exists r, round_row d k = Some r /\ l = works_of d (selection_row.s_id r).
Proof.
  unfold round_works. destruct (round_row d k) as [r|]; simpl; split.
  - intros [= <-]. eauto.
  - intros (r' & [= <-] & ->). reflexivity.
  - discriminate.
  - intros (r' & Hr & _). discriminate.
Qed.

Lemma round_works_None d k : round_works d k = None <-> round_row d k = None.
Proof. unfold round_works. destruct (round_row d k); simpl; split; congruence. Qed.

Lemma in_round_works d k id :
  in_round d k id <-> exists l, round_works d k = Some l /\ In id l.
Proof.
  unfold in_round. split.
  - intros (r & Hr & Hm). exists (works_of d (selection_row.s_id r)). split.
    + apply round_works_Some. eauto.
    + apply works_of_In, Hm.
  - intros (l & Hl & Hin). apply round_works_Some in Hl. destruct Hl as (r & Hr & ->).
    exists r. split; [exact Hr | apply works_of_In, Hin].
Qed.

(** The rounds after one [create]. *)
Lemma create_db_round_works obj d k :
  db_wf d -> (forall b, In b (book obj) -> In b (t_book d)) ->
  match round_works d k with
  | Some l => round_works (create_db obj d) k = Some l
  | None =>
      if s_round obj =? k
      then exists l, round_works (create_db obj d) k = Some l
                     /\ NoDup l /\ same_set l (map b_id (book obj))
      else round_works (create_db obj d) k = None
  end.
Proof.
  intros Hwf Hall. destruct (round_works d k) as [l|] eqn:El.
  - apply (evolves_round_works d _ k l Hwf (create_db_evolves obj d) El).
  - apply round_works_None in El. destruct (s_round obj =? k) eqn:Ek.
    + apply Z.eqb_eq in Ek. subst k. apply create_db_new_round; assumption.
    + apply round_works_None. rewrite create_db_round_row, El, Ek. reflexivity.
Qed.

Lemma linked_kept d d' k (R : list Z -> list Z -> Prop) :
  (forall j l, round_works d j = Some l -> round_works d' j = Some l) ->
  linked d k R ->
  (round_works d k = None ->
   forall l, round_works d' k = Some l -> exists p, round_works d (k - 1) = Some p /\ R l p) ->
  linked d' k R.
Proof.
  intros Hstable Hlink Hnew l Hl.
  destruct (round_works d k) as [l0|] eqn:E0.
  - pose proof (Hstable k l0 E0) as H. rewrite Hl in H. injection H as ->.
    destruct (Hlink l0 E0) as (p & Hp & HR). exists p. split; [apply Hstable, Hp | exact HR].
  - destruct (Hnew eq_refl l Hl) as (p & Hp & HR).
    exists p. split; [apply Hstable, Hp | exact HR].
Qed.

Lemma NoDup_same_set_length (l p : list Z) :
  NoDup l -> NoDup p -> same_set l p -> List.length l = List.length p.
Proof.
  intros Hl Hp Hs. apply Nat.le_antisymm; apply NoDup_incl_length; try assumption;
    intros x Hx; apply Hs, Hx.
Qed.

Lemma round_works_NoDup d k l : db_wf d -> round_works d k = Some l -> NoDup l.
Proof.
  intros Hwf Hl. apply round_works_Some in Hl. destruct Hl as (r & _ & ->).
  apply works_of_NoDup, Hwf.
Qed.

Lemma creation_step_nested d d' :
  creation_step d d' -> db_wf d -> rounds_nested d -> db_wf d' /\ rounds_nested d'.
Proof.
  intros [-> | (obj & (Hall & Hround & H2 & H3 & H4) & ->)] Hwf Hn; [auto|].
  split; [apply create_db_wf, Hwf|].
  assert (Hstable : forall j l, round_works d j = Some l ->
                                round_works (create_db obj d) j = Some l).
  { intros j l Hl. apply (evolves_round_works d _ j l Hwf (create_db_evolves obj d) Hl). }
  assert (Hnew : forall k l,
             round_works d k = None -> round_works (create_db obj d) k = Some l ->
             s_round obj = k /\ NoDup l /\ same_set l (map b_id (book obj))).
  { intros k l Hnone Hl. pose proof (create_db_round_works obj d k Hwf Hall) as H.
    rewrite Hnone in H. destruct (s_round obj =? k) eqn:Ek; [|congruence].
    apply Z.eqb_eq in Ek. destruct H as (l' & Hl' & Hnd & Hs).
    rewrite Hl in Hl'. injection Hl' as <-. auto. }
  destruct Hn as (N2 & N3 & N4). split; [|split].
  - apply (linked_kept d _ 2 _ Hstable N2). intros Hnone l Hl.
    destruct (Hnew 2 l Hnone Hl) as (Ek & Hnd & Hs).
    destruct (H2 Ek) as (p & Hp & Hincl & Hlen). exists p. split; [exact Hp|]. split.
    + intros x Hx. apply Hincl, Hs, Hx.
    + rewrite <- Hlen, <- (length_map b_id). apply NoDup_incl_length; [exact Hnd|].
      intros x Hx. apply Hs, Hx.
  - apply (linked_kept d _ 3 _ Hstable N3). intros Hnone l Hl.
    destruct (Hnew 3 l Hnone Hl) as (Ek & Hnd & Hs).
    destruct (H3 Ek) as (p & Hp & Hincl & Hlen). exists p. split; [exact Hp|]. split.
    + intros x Hx. apply Hincl, Hs, Hx.
    + rewrite <- Hlen, <- (length_map b_id). apply NoDup_incl_length; [exact Hnd|].
      intros x Hx. apply Hs, Hx.
  - apply (linked_kept d _ 4 _ Hstable N4). intros Hnone l Hl.
    destruct (Hnew 4 l Hnone Hl) as (Ek & Hnd & Hs).
    destruct (H4 Ek) as (p & Hp & Hids & Hlen). exists p. split; [exact Hp|].
    rewrite Hids in Hs. split; [exact Hs|].
    rewrite <- Hlen. apply NoDup_same_set_length; [exact Hnd | | exact Hs].
    apply (round_works_NoDup d 3 p Hwf Hp).
Qed.

(* ===================================================================== *)
(** ** main.py: the votes typed by the president *)
(* ===================================================================== *)

Lemma accepted_next_vote lines :
  accepted lines = match next_vote lines with
                   | Some (votes, rest) => votes :: accepted rest
                   | None => []
                   end.
Proof.
  induction lines as [|[votes|] rest IH]; cbn [accepted flat_map next_vote]; [reflexivity| |].
  - destruct (votes <? 0); [exact IH | reflexivity].
  - exact IH.
Qed.

Lemma read_votes_quiet lines : forall d o,
  exists o',
    GoncourtApplication.read_votes lines (mkWorld d [] o)
    = (Ok (match next_vote lines with
           | Some x => inr x
           | None => inl GoncourtApplication.EOFError
           end),
       mkWorld d [] o').
Proof.
  induction lines as [|[votes|] rest IH]; intros d o;
    cbn [GoncourtApplication.read_votes next_vote].
  - eexists. reflexivity.
  - destruct (votes <? 0); [|eexists; reflexivity].
    unfold bind at 1, print at 1. cbn [db faults stdout]. apply IH.
  - unfold bind at 1, print at 1. cbn [db faults stdout]. apply IH.
Qed.

Lemma read_all_votes_quiet books : forall lines votes_data total_votes d o,
  exists o',
    GoncourtApplication.read_all_votes books lines votes_data total_votes (mkWorld d [] o)
    = (Ok (if (List.length books <=? List.length (accepted lines))%nat
           then inr (assign votes_data (combine (map b_id books) (accepted lines)),
                     fold_left Z.add (firstn (List.length books) (accepted lines)) total_votes)
           else inl GoncourtApplication.EOFError),
       mkWorld d [] o').
Proof.
  induction books as [|b rest IH]; intros lines votes_data total_votes d o;
    cbn [GoncourtApplication.read_all_votes].
  - eexists. reflexivity.
  - destruct (read_votes_quiet lines d o) as (o1 & Hrun).
    unfold bind at 1. rewrite Hrun. rewrite (accepted_next_vote lines).
    destruct (next_vote lines) as [[votes lines']|].
    + destruct (IH lines' (GoncourtApplication.setitem votes_data (b_id b) votes)
                   (total_votes + votes) d o1) as (o2 & Hrest).
      exists o2. rewrite Hrest. reflexivity.
    + exists o1. reflexivity.
Qed.

Lemma setitem_fresh votes_data k v :
  ~ In k (keys votes_data) -> GoncourtApplication.setitem votes_data k v = votes_data ++ [(k, v)].
Proof.
  induction votes_data as [|[k' v'] rest IH]; intros Hk; cbn; [reflexivity|].
  destruct (k' =? k) eqn:E.
  - apply Z.eqb_eq in E. exfalso. apply Hk. left. exact E.
  - rewrite IH; [reflexivity|]. intros H. apply Hk. right. exact H.
Qed.

Lemma assign_fresh ids : forall counts votes_data,
  NoDup ids -> (forall k, In k ids -> ~ In k (keys votes_data)) ->
  assign votes_data (combine ids counts) = votes_data ++ combine ids counts.
Proof.
  induction ids as [|k ids IH]; intros counts votes_data Hnd Hfresh.
  - cbn. rewrite app_nil_r. reflexivity.
  - destruct counts as [|c counts]; [cbn; rewrite app_nil_r; reflexivity|].
    apply NoDup_cons_iff in Hnd. destruct Hnd as [Hk Hnd].
    cbn [combine assign fold_left fst snd].
    rewrite (setitem_fresh votes_data k c) by (apply Hfresh; left; reflexivity).
    change (assign (votes_data ++ [(k, c)]) (combine ids counts)
            = votes_data ++ (k, c) :: combine ids counts).
    rewrite IH; [rewrite <- app_assoc; reflexivity | exact Hnd |].
    intros k' Hk' Hin. unfold keys in Hin. rewrite map_app, in_app_iff in Hin.
    destruct Hin as [Hin | [<- | []]].
    + apply (Hfresh k'); [right; exact Hk' | exact Hin].
    + apply Hk, Hk'.
Qed.

Lemma getitem_combine ids : forall counts k,
  (List.length ids <= List.length counts)%nat -> In k ids ->
  GoncourtApplication.getitem (combine ids counts) k <> None.
Proof.
  induction ids as [|k' ids IH]; intros counts k Hlen Hin; [destruct Hin|].
  destruct counts as [|c counts]; [cbn in Hlen; lia|].
  cbn. destruct (k' =? k) eqn:E; [discriminate|].
  apply IH; [cbn in Hlen; lia|].
  destruct Hin as [-> | Hin]; [rewrite Z.eqb_refl in E; discriminate | exact Hin].
Qed.

Lemma print_recap_quiet votes_data books : forall d o,
  (forall b, In b books -> GoncourtApplication.getitem votes_data (b_id b) <> None) ->
  exists o',
    GoncourtApplication.print_recap books votes_data (mkWorld d [] o)
    = (Ok (inr tt), mkWorld d [] o').
Proof.
  induction books as [|b rest IH]; intros d o Hall; cbn [GoncourtApplication.print_recap].
  - eexists. reflexivity.
  - destruct (GoncourtApplication.getitem votes_data (b_id b)) as [votes|] eqn:E.
    + unfold bind at 1, print at 1. cbn [db faults stdout]. apply IH.
      intros b' Hb'. apply Hall. right. exact Hb'.
    + exfalso. apply (Hall b); [left; reflexivity | exact E].
Qed.

Lemma values_combine (ids counts : list Z) :
  (List.length counts <= List.length ids)%nat -> values (combine ids counts) = counts.
Proof.
  revert counts. induction ids as [|k ids IH]; intros [|c counts] Hlen; cbn in *;
    try reflexivity; try lia.
  f_equal. apply IH. lia.
Qed.

Lemma keys_combine (ids counts : list Z) :
  (List.length ids <= List.length counts)%nat -> keys (combine ids counts) = ids.
Proof.
  revert counts. induction ids as [|k ids IH]; intros [|c counts] Hlen; cbn in *;
    try reflexivity; try lia.
  f_equal. apply IH. lia.
Qed.

Lemma combine_firstn_length (ids counts : list Z) :
  combine ids counts = combine ids (firstn (List.length ids) counts).
Proof.
  revert counts. induction ids as [|k ids IH]; intros [|c counts]; cbn; try reflexivity.
  f_equal. apply IH.
Qed.

Lemma round_selection_works d k sel :
  round_selection d k = Some sel ->
  exists row, round_row d k = Some row /\ s_id sel = selection_row.s_id row
              /\ round_works d k = Some (map b_id (book sel)).
Proof.
  intros Es. destruct (round_selection_Some d k sel Es) as (row & Hrow & Hid & Hbooks).
  exists row. split; [exact Hrow|]. split; [exact Hid|].
  unfold round_works. rewrite Hrow. cbn. unfold works_of. rewrite Hbooks. reflexivity.
Qed.

(** The president's action when nothing raises: it records the accepted
    counts of the four finalists when they are confirmed, and writes
    nothing otherwise. *)
Lemma app_record_final_votes_quiet d o lines confirm today :
  db_wf d ->
  exists r d' o',
    GoncourtApplication.record_final_votes lines confirm today (mkWorld d [] o)
    = (Ok r, mkWorld d' [] o')
    /\ ((votes_confirmed d lines confirm
         /\ r = inr tt
         /\ exists row finalists,
              round_row d 4 = Some row
              /\ round_works d 4 = Some finalists
              /\ d' = record_db (combine finalists (firstn 4 (accepted lines)))
                                (selection_row.s_id row) today d)
        \/ (~ votes_confirmed d lines confirm /\ d' = d)).
Proof.
  intros Hwf. unfold GoncourtApplication.record_final_votes.
  unfold bind at 1. rewrite get_current_state_quiet.
  cbn [GoncourtService.final_selection].
  destruct (round_selection d 4) as [sel|] eqn:Es; cbn [GoncourtService.is_not_None negb].
  2:{ unfold bind, print, ret. cbn [db faults stdout].
      eexists _, _, _. split; [reflexivity|]. right. split; [|reflexivity].
      intros ((finalists & Hf & _) & _).
      apply round_selection_None, round_works_None in Es. congruence. }
  destruct (round_selection_works d 4 sel Es) as (row & Hrow & Hid & Hworks).
  unfold bind at 1. rewrite find_by_round_quiet, Es.
  destruct (Z.of_nat (List.length (book sel)) =? 4) eqn:Elen; cbn [negb].
  2:{ unfold bind, print, ret. cbn [db faults stdout].
      eexists _, _, _. split; [reflexivity|]. right. split; [|reflexivity].
      intros ((finalists & Hf & Hl) & _). rewrite Hworks in Hf. injection Hf as <-.
      rewrite length_map in Hl. apply Z.eqb_neq in Elen. lia. }
  apply Z.eqb_eq in Elen.
  assert (Hlen : List.length (book sel) = 4%nat) by lia.
  do 5 (unfold bind at 1, print at 1; cbn [db faults stdout]).
  unfold bind at 1.
  match goal with
  | |- context [GoncourtApplication.print_books 1 (book sel) (mkWorld d [] ?o1)] =>
      destruct (print_books_quiet (book sel) 1 d o1) as (o2 & ->)
  end.
  unfold bind at 1, print at 1; cbn [db faults stdout].
  unfold bind at 1.
  match goal with
  | |- context [GoncourtApplication.read_all_votes (book sel) lines [] 0 (mkWorld d [] ?o3)] =>
      destruct (read_all_votes_quiet (book sel) lines [] 0 d o3) as (o4 & ->)
  end.
  rewrite Hlen.
  destruct (4 <=? List.length (accepted lines))%nat eqn:Eacc.
  2:{ unfold ret. eexists _, _, _. split; [reflexivity|]. right. split; [|reflexivity].
      intros (_ & H4 & _). apply Nat.leb_gt in Eacc. lia. }
  apply Nat.leb_le in Eacc.
  change (fold_left Z.add (firstn 4 (accepted lines)) 0) with (sum (firstn 4 (accepted lines))).
  destruct (sum (firstn 4 (accepted lines)) =? 10) eqn:Esum; cbn [negb].
  2:{ unfold bind, print, ret. cbn [db faults stdout].
      eexists _, _, _. split; [reflexivity|]. right. split; [|reflexivity].
      intros (_ & _ & H10 & _). apply Z.eqb_neq in Esum. contradiction. }
  apply Z.eqb_eq in Esum.
  assert (Hnd : NoDup (map b_id (book sel))).
  { apply (round_works_NoDup d 4 _ Hwf Hworks). }
  assert (Hvd : assign [] (combine (map b_id (book sel)) (accepted lines))
                = combine (map b_id (book sel)) (firstn 4 (accepted lines))).
  { rewrite (assign_fresh _ _ [] Hnd) by (intros k _ []).
    cbn [app]. rewrite (combine_firstn_length (map b_id (book sel)) (accepted lines)).
    rewrite length_map, Hlen. reflexivity. }
  rewrite Hvd.
  set (votes_data := combine (map b_id (book sel)) (firstn 4 (accepted lines))).
  assert (Hfirst : List.length (firstn 4 (accepted lines)) = 4%nat)
    by (rewrite length_firstn; lia).
  unfold bind at 1, print at 1; cbn [db faults stdout].
  unfold bind at 1.
  match goal with
  | |- context [GoncourtApplication.print_recap (book sel) votes_data (mkWorld d [] ?o5)] =>
      destruct (print_recap_quiet votes_data (book sel) d o5) as (o6 & ->)
  end.
  { intros b Hb. apply getitem_combine; [rewrite length_map; lia | apply in_map, Hb]. }
  destruct (String.eqb confirm "o") eqn:Ec; cbn [negb].
  2:{ unfold bind, print, ret. cbn [db faults stdout].
      eexists _, _, _. split; [reflexivity|]. right. split; [|reflexivity].
      intros (_ & _ & _ & Hc). apply String.eqb_neq in Ec. contradiction. }
  apply String.eqb_eq in Ec.
  unfold bind at 1. rewrite service_record_final_votes_quiet, Es.
  assert (Hkeys : keys votes_data = map b_id (book sel)).
  { apply keys_combine. rewrite length_map. lia. }
  assert (Hmiss : GoncourtService.first_missing (keys votes_data) (map b_id (book sel)) = None).
  { apply first_missing_None. rewrite Hkeys. auto. }
  rewrite Hmiss.
  assert (Hvalues : values votes_data = firstn 4 (accepted lines)).
  { apply values_combine. rewrite length_map. lia. }
  rewrite Hvalues, Esum. cbn [Z.eqb Pos.eqb negb].
  unfold bind, print, ret. cbn [db faults stdout].
  eexists _, _, _. split; [reflexivity|]. left. split; [|split; [reflexivity|]].
  - split; [|auto]. exists (map b_id (book sel)). split; [exact Hworks|].
    rewrite length_map. exact Hlen.
  - exists row, (map b_id (book sel)). split; [exact Hrow|]. split; [exact Hworks|].
    rewrite Hid. reflexivity.
Qed.

Lemma accepted_nonnegative lines : Forall (fun c => 0 <= c) (accepted lines).
Proof.
  unfold accepted. apply Forall_flat_map, Forall_forall. intros [votes|] _; [|constructor].
  destruct (votes <? 0) eqn:E; constructor; [|constructor].
  apply Z.ltb_ge in E. exact E.
Qed.

Lemma Forall_firstn_keeps {A} (P : A -> Prop) (l : list A) : forall n,
  Forall P l -> Forall P (firstn n l).
Proof.
  induction l as [|x l IH]; intros [|n] H; cbn; try constructor.
  - apply (Forall_inv H).
  - apply IH, (Forall_inv_tail H).
Qed.

(** X6.  Through the president's menu the recorded votes are always valid.
    When nothing raises, the action either writes nothing, or the
    confirmation was "o" and the first four accepted lines, all
    non-negative and adding up to 10, are recorded one for each of the four
    finalists in the order shown; lines that are not integers or are
    negative are asked again and never recorded. *)
Theorem president_votes_are_valid
        (w : World) (lines : list (option Z)) (confirm : string) (today : date) :
  quiet w -> db_wf (db w) ->
  returns (GoncourtApplication.record_final_votes lines confirm today) w
          (fun r w' =>
             quiet w'
             /\ ((votes_confirmed (db w) lines confirm
                  /\ exists row finalists counts,
                       round_row (db w) 4 = Some row
                       /\ round_works (db w) 4 = Some finalists
                       /\ counts = firstn 4 (accepted lines)
                       /\ List.length finalists = 4%nat
                       /\ List.length counts = 4%nat
                       /\ Forall (fun c => 0 <= c) counts
                       /\ sum counts = 10
                       /\ votes_of (db w') (selection_row.s_id row) = combine finalists counts)
                 \/ (~ votes_confirmed (db w) lines confirm /\ db w' = db w))).
Proof.
  destruct w as [d f o]. unfold quiet. cbn [db faults]. intros -> Hwf.
  destruct (app_record_final_votes_quiet d o lines confirm today Hwf)
    as (r & d' & o' & Hrun & H).
  exists r, (mkWorld d' [] o'). split; [exact Hrun|]. split; [reflexivity|].
  cbn [db]. destruct H as [(Hc & _ & row & finalists & Hrow & Hworks & ->) | H]; [left | right; exact H].
  split; [exact Hc|]. exists row, finalists, (firstn 4 (accepted lines)).
  destruct Hc as ((finalists' & Hf & Hl) & H4 & H10 & _).
  rewrite Hworks in Hf. injection Hf as <-.
  repeat (split; [first [assumption | reflexivity]|]).
  split; [rewrite length_firstn; lia|].
  split; [apply Forall_firstn_keeps, accepted_nonnegative|].
  split; [exact H10|].
  apply (proj1 (record_db_tables _ _ _ _)).
Qed.

(** The president types 1, then a word, then -2, then 4, 2 and 3, and
    confirms: the word and the negative number are asked again, and the
    votes 1, 4, 2, 3 are recorded for the four finalists. *)
Lemma president_votes_are_valid_witness :
  quiet w_round3 /\ db_wf (db w_round3)
  /\ exists r w',
      GoncourtApplication.record_final_votes
        [Some 1; None; Some (-2); Some 4; Some 2; Some 3] "o" (mkDate 2025 11 4) w_round3
      = (Ok r, w')
      /\ votes_of (db w') 4 = [(1, 1); (2, 4); (3, 2); (4, 3)].
Proof.
  assert (Hq : quiet w_round3) by (vm_compute; reflexivity).
  assert (Hwf : db_wf (db w_round3)) by (apply db_wfb_sound; vm_compute; reflexivity).
  split; [exact Hq|]. split; [exact Hwf|].
  destruct (president_votes_are_valid
              w_round3 [Some 1; None; Some (-2); Some 4; Some 2; Some 3] "o"
              (mkDate 2025 11 4) Hq Hwf) as (r & w' & Hrun & _ & H).
  exists r, w'. split; [exact Hrun|].
  assert (Hrow4 : round_row (db w_round3) 4
                  = Some (selection_row.mk 4 "FINALISTES DU PRIX GONCOURT" 4
                                           (Some (mkDate 2025 11 4))))
    by (vm_compute; reflexivity).
  assert (Hworks4 : round_works (db w_round3) 4 = Some [1; 2; 3; 4])
    by (vm_compute; reflexivity).
  destruct H as [(_ & row & finalists & counts & Hrow & Hworks & -> & _ & _ & _ & _ & Hv)
                | (Hno & _)].
  - rewrite Hrow4 in Hrow. injection Hrow as <-.
    rewrite Hworks4 in Hworks. injection Hworks as <-.
    exact Hv.
  - exfalso. apply Hno. split; [exists [1; 2; 3; 4]; split; [exact Hworks4 | reflexivity]|].
    split; [vm_compute; lia|]. split; reflexivity.
Defined.

(* ===================================================================== *)
(** ** The rounds stay nested: the entry points *)
(* ===================================================================== *)

Lemma request_checked d k size book_ids p :
  round_request_ok d k size book_ids -> round_works d (k - 1) = Some p -> incl book_ids p.
Proof.
  intros (_ & _ & _ & Hin) Hp id Hid.
  destruct (proj1 (in_round_works d (k - 1) id) (Hin id Hid)) as (l & Hl & Hx).
  rewrite Hp in Hl. injection Hl as <-. exact Hx.
Qed.

Lemma request_previous_round d k size book_ids :
  round_request_ok d k size book_ids -> exists p, round_works d (k - 1) = Some p.
Proof.
  intros (Hex & _). apply round_exists_row in Hex. destruct Hex as (r & Hr).
  exists (works_of d (selection_row.s_id r)). apply round_works_Some. eauto.
Qed.

Lemma create_deuxieme_selection_step d o book_ids :
  db_wf d ->
  exists r w',
    GoncourtService.create_deuxieme_selection book_ids (mkWorld d [] o) = (Ok r, w')
    /\ quiet w' /\ creation_step d (db w').
Proof.
  intros Hwf.
  destruct (create_deuxieme_selection_outcome d o book_ids Hwf)
    as (r & w' & Hrun & Hq & Hiff & Hfalse & Htrue).
  exists r, w'. split; [exact Hrun|]. split; [exact Hq|].
  destruct r; [|left; apply Hfalse; reflexivity].
  destruct (Htrue eq_refl) as (books & Hm & Hall & Hdb).
  pose proof (proj1 Hiff eq_refl) as Hok.
  right. eexists. split; [|exact Hdb].
  split; [exact Hall|]. split; [cbn; auto|]. cbn [s_round book].
  split; [|split; discriminate].
  intros _. destruct (request_previous_round d 2 8 book_ids Hok) as (p & Hp).
  exists p. split; [exact Hp|]. rewrite Hm. split.
  - apply (request_checked d 2 8 book_ids p Hok Hp).
  - rewrite <- (length_map b_id), Hm. apply Hok.
Qed.

Lemma create_troisieme_selection_step d o book_ids :
  db_wf d ->
  exists r w',
    GoncourtService.create_troisieme_selection book_ids (mkWorld d [] o) = (Ok r, w')
    /\ quiet w' /\ creation_step d (db w').
Proof.
  intros Hwf.
  destruct (create_troisieme_selection_outcome d o book_ids Hwf)
    as (r & w' & Hrun & Hq & Hiff & Hfalse & Htrue).
  exists r, w'. split; [exact Hrun|]. split; [exact Hq|].
  destruct r; [|left; apply Hfalse; reflexivity].
  destruct (Htrue eq_refl) as (books & Hm & Hall & Hdb).
  pose proof (proj1 Hiff eq_refl) as Hok.
  right. eexists. split; [|exact Hdb].
  split; [exact Hall|]. split; [cbn; auto|]. cbn [s_round book].
  split; [discriminate|]. split; [|discriminate].
  intros _. destruct (request_previous_round d 3 4 book_ids Hok) as (p & Hp).
  exists p. split; [exact Hp|]. rewrite Hm. split.
  - apply (request_checked d 3 4 book_ids p Hok Hp).
  - rewrite <- (length_map b_id), Hm. apply Hok.
Qed.

Lemma create_final_selection_step d o :
  db_wf d ->
  exists r w',
    GoncourtService.create_final_selection (mkWorld d [] o) = (Ok r, w')
    /\ quiet w' /\ creation_step d (db w').
Proof.
  intros Hwf. rewrite create_final_selection_quiet.
  destruct (round_selection d 3) as [troisieme|] eqn:Es;
    [|eexists _, _; split; [reflexivity|]; split; [reflexivity | left; reflexivity]].
  destruct (Z.of_nat (List.length (book troisieme)) =? 4) eqn:Elen; cbn [negb];
    [|eexists _, _; split; [reflexivity|]; split; [reflexivity | left; reflexivity]].
  apply Z.eqb_eq in Elen.
  destruct (selection_auto_increment d =? 0) eqn:Ez;
    [apply Z.eqb_eq in Ez; pose proof (wf_auto_increment Hwf); lia|].
  cbn [negb]. eexists _, _. split; [reflexivity|]. split; [reflexivity|].
  right. eexists. split; [|reflexivity].
  destruct (round_selection_works d 3 troisieme Es) as (row & Hrow & Hid & Hworks).
  destruct (round_selection_Some d 3 troisieme Es) as (row' & _ & _ & Hbooks).
  split; [|split; [cbn; auto|]]; cbn [s_round book].
  - intros b Hb. rewrite Hbooks in Hb. apply select_by_selection_In in Hb. apply Hb.
  - split; [discriminate|]. split; [discriminate|]. intros _.
    exists (map b_id (book troisieme)). split; [exact Hworks|]. split; [reflexivity|].
    rewrite length_map. lia.
Qed.

Lemma initialize_step d o :
  exists w',
    GoncourtService._initialize_first_selection (mkWorld d [] o) = (Ok tt, w')
    /\ quiet w' /\ creation_step d (db w').
Proof.
  rewrite initialize_quiet. destruct (round_row d 1).
  - eexists. split; [reflexivity|]. split; [reflexivity | left; reflexivity].
  - eexists. split; [reflexivity|]. split; [reflexivity|]. right. eexists.
    split; [|reflexivity]. split; [|split; [cbn; auto|]]; cbn [s_round book].
    + intros b Hb. apply select_all_In, Hb.
    + split; [|split]; discriminate.
Qed.

Lemma record_db_round_works votes_data sid vd d k :
  round_works (record_db votes_data sid vd d) k = round_works d k.
Proof.
  destruct (record_db_tables votes_data sid vd d) as (_ & _ & Eb & Es & Ebs).
  unfold round_works, round_row, works_of, SelectionDAO.select_by_round,
    BookDAO.select_by_selection.
  rewrite Eb, Es, Ebs. reflexivity.
Qed.

Lemma record_db_nested votes_data sid vd d :
  rounds_nested d -> rounds_nested (record_db votes_data sid vd d).
Proof.
  unfold rounds_nested, linked. intros H.
  repeat setoid_rewrite record_db_round_works. exact H.
Qed.

(** Every entry point keeps well-formed tables with nested rounds so. *)
Lemma writes_nested A (m : M A) d o :
  writes m -> db_wf d -> rounds_nested d ->
  returns m (mkWorld d [] o)
          (fun _ w' => quiet w' /\ db_wf (db w') /\ rounds_nested (db w')).
Proof.
  intros Hm Hwf Hn.
  assert (Hstep : forall (B : Type) (r : B) w',
             quiet w' -> creation_step d (db w') ->
             quiet w' /\ db_wf (db w') /\ rounds_nested (db w')).
  { intros B r w' Hq Hs. split; [exact Hq|]. apply (creation_step_nested d _ Hs Hwf Hn). }
  assert (Hchain : forall creation success d',
             (forall d0 o0 ids, db_wf d0 ->
                exists r w', creation ids (mkWorld d0 [] o0) = (Ok r, w')
                             /\ quiet w' /\ creation_step d0 (db w')) ->
             chained creation success d d' -> db_wf d' /\ rounds_nested d').
  { intros creation success d' Hcreation [-> | (ids & o1 & w1 & r & o' & Hrun & Hfin)]; [auto|].
    destruct (Hcreation d o1 ids Hwf) as (r1 & w1' & Hrun1 & Hq1 & Hs1).
    rewrite Hrun in Hrun1. injection Hrun1 as <- <-.
    destruct (creation_step_nested d _ Hs1 Hwf Hn) as [Hwf1 Hn1].
    destruct w1 as [d1 f1 o1']. unfold quiet in Hq1. cbn [db faults stdout] in *. subst f1.
    destruct (create_final_selection_step d1 (o1' ++ [mkMessage success []]) Hwf1)
      as (r2 & w2 & Hrun2 & _ & Hs2).
    rewrite Hfin in Hrun2. injection Hrun2 as _ <-.
    apply (creation_step_nested d1 _ Hs2 Hwf1 Hn1). }
  destruct Hm as [Hm | Hm]; destruct Hm.
  - destruct (initialize_step d o) as (w' & Hrun & Hq & Hs).
    exists tt, w'. split; [exact Hrun | apply (Hstep unit tt w' Hq Hs)].
  - destruct (create_deuxieme_selection_step d o book_ids Hwf) as (r & w' & Hrun & Hq & Hs).
    exists r, w'. split; [exact Hrun | apply (Hstep bool r w' Hq Hs)].
  - destruct (create_troisieme_selection_step d o book_ids Hwf) as (r & w' & Hrun & Hq & Hs).
    exists r, w'. split; [exact Hrun | apply (Hstep bool r w' Hq Hs)].
  - destruct (create_final_selection_step d o Hwf) as (r & w' & Hrun & Hq & Hs).
    exists r, w'. split; [exact Hrun | apply (Hstep bool r w' Hq Hs)].
  - destruct (app_create_deuxieme_selection_chains d o replace numbers Hwf)
      as (d' & o' & Hrun & Hc).
    exists tt, (mkWorld d' [] o'). split; [exact Hrun|]. split; [reflexivity|].
    apply (Hchain _ _ d' (fun d0 o0 ids => create_deuxieme_selection_step d0 o0 ids) Hc).
  - destruct (app_create_troisieme_selection_chains d o replace numbers Hwf)
      as (d' & o' & Hrun & Hc).
    exists tt, (mkWorld d' [] o'). split; [exact Hrun|]. split; [reflexivity|].
    apply (Hchain _ _ d' (fun d0 o0 ids => create_troisieme_selection_step d0 o0 ids) Hc).
  - unfold returns. rewrite service_record_final_votes_quiet.
    destruct (round_selection d 4) as [sel|];
      [|eexists _, _; split; [reflexivity|]; split; [reflexivity|]; split; assumption].
    destruct (GoncourtService.first_missing _ _);
      [eexists _, _; split; [reflexivity|]; split; [reflexivity|]; split; assumption|].
    destruct (negb _);
      eexists _, _; (split; [reflexivity|]); (split; [reflexivity|]); cbn [db].
    + split; assumption.
    + split; [apply record_db_wf, Hwf | apply record_db_nested, Hn].
  - destruct (app_record_final_votes_quiet d o lines confirm today Hwf)
      as (r & d' & o' & Hrun & H).
    exists r, (mkWorld d' [] o'). split; [exact Hrun|]. split; [reflexivity|]. cbn [db].
    destruct H as [(_ & _ & row & finalists & _ & _ & ->) | (_ & ->)].
    + split; [apply record_db_wf, Hwf | apply record_db_nested, Hn].
    + split; assumption.
Qed.

(** X7.  The rounds stay nested.  When nothing raises, every entry point
    that writes keeps this: the second selection holds at most eight
    works, all of the first; the third at most four, all of the second;
    and the final selection exactly the four works of the third.  With the
    well-formedness of the tables, the condition holds again afterwards. *)
Theorem rounds_stay_nested (A : Type) (m : M A) (w : World) :
  writes m -> quiet w -> db_wf (db w) -> rounds_nested (db w) ->
  returns m w (fun _ w' => quiet w' /\ db_wf (db w') /\ rounds_nested (db w')).
Proof.
  destruct w as [d f o]. unfold quiet. cbn [db faults]. intros Hm -> Hwf Hn.
  apply (writes_nested A m d o Hm Hwf Hn).
Qed.

(** After the second selection of the session, the president establishes
    the third: the rounds are nested before and after. *)
Lemma rounds_stay_nested_witness :
  quiet w_round2 /\ db_wf (db w_round2) /\ rounds_nested (db w_round2)
  /\ returns (GoncourtApplication.create_troisieme_selection "" (Some [1; 2; 3; 4])) w_round2
             (fun _ w' => quiet w' /\ db_wf (db w') /\ rounds_nested (db w')).
Proof.
  assert (Hq : quiet w_round2) by (vm_compute; reflexivity).
  assert (Hwf : db_wf (db w_round2)) by (apply db_wfb_sound; vm_compute; reflexivity).
  assert (H1 : round_works (db w_round2) 1
               = Some [1; 2; 3; 4; 5; 6; 7; 8; 9; 10; 11; 12; 13; 14; 15])
    by (vm_compute; reflexivity).
  assert (H2 : round_works (db w_round2) 2 = Some [1; 2; 3; 4; 5; 6; 7; 8])
    by (vm_compute; reflexivity).
  assert (H3 : round_works (db w_round2) 3 = None) by (vm_compute; reflexivity).
  assert (H4 : round_works (db w_round2) 4 = None) by (vm_compute; reflexivity).
  assert (Hn : rounds_nested (db w_round2)).
  { split; [|split]; intros l Hl.
    - rewrite H2 in Hl. injection Hl as <-.
      exists [1; 2; 3; 4; 5; 6; 7; 8; 9; 10; 11; 12; 13; 14; 15].
      split; [exact H1|]. split; [|cbn; lia].
      intros x Hx. cbn in Hx |- *. intuition.
    - rewrite H3 in Hl. discriminate.
    - rewrite H4 in Hl. discriminate. }
  split; [exact Hq|]. split; [exact Hwf|]. split; [exact Hn|].
  apply (rounds_stay_nested
           unit (GoncourtApplication.create_troisieme_selection "" (Some [1; 2; 3; 4]))
           w_round2).
  - left. apply creates_president_troisieme.
  - exact Hq.
  - exact Hwf.
  - exact Hn.
Defined.

(* ===================================================================== *)
(** ** main.py: the selections typed by the president *)
(* ===================================================================== *)

Lemma first_invalid_None indices n :
  (forall idx, In idx indices -> 0 <= idx < n) ->
  GoncourtApplication.first_invalid indices n = None.
Proof.
  intros H. unfold GoncourtApplication.first_invalid.
  destruct (find _ indices) as [idx|] eqn:F; [|reflexivity].
  apply find_some in F. destruct F as [Hin Hbad]. specialize (H idx Hin).
  apply orb_true_iff in Hbad. destruct Hbad as [Hbad | Hbad].
  - apply Z.ltb_lt in Hbad. lia.
  - apply Z.geb_le in Hbad. lia.
Qed.

Lemma selected_ids_in_range available indices w :
  (forall idx, In idx indices -> 0 <= idx < Z.of_nat (List.length available)) ->
  GoncourtApplication.selected_ids available indices w
  = (Ok (map (fun idx => nth (Z.to_nat idx) (map b_id available) 0) indices), w).
Proof.
  induction indices as [|idx rest IH]; intros H; cbn [GoncourtApplication.selected_ids map].
  - reflexivity.
  - assert (Hidx : (Z.to_nat idx < List.length available)%nat).
    { specialize (H idx (or_introl eq_refl)). lia. }
    destruct (nth_error available (Z.to_nat idx)) as [b|] eqn:E.
    + unfold bind. rewrite IH by (intros i Hi; apply H; right; exact Hi).
      unfold ret. do 3 f_equal. symmetry. apply nth_error_nth.
      rewrite nth_error_map, E. reflexivity.
    + apply nth_error_None in E. lia.
Qed.

Lemma get_available_books_2_quiet d o :
  GoncourtService.get_available_books_for_selection 2 (mkWorld d [] o)
  = (Ok (match round_selection d 1 with Some p => book p | None => [] end), mkWorld d [] o).
Proof.
  unfold GoncourtService.get_available_books_for_selection. cbn [Z.eqb Pos.eqb].
  unfold bind. rewrite find_by_round_quiet. reflexivity.
Qed.

Lemma get_available_books_3_quiet d o :
  GoncourtService.get_available_books_for_selection 3 (mkWorld d [] o)
  = (Ok (match round_selection d 2 with Some p => book p | None => [] end), mkWorld d [] o).
Proof.
  unfold GoncourtService.get_available_books_for_selection. cbn [Z.eqb Pos.eqb].
  unfold bind. rewrite find_by_round_quiet. reflexivity.
Qed.

Lemma on_screen_indices (size : Z) numbers :
  (forall n, In n numbers -> 1 <= n <= size) ->
  forall idx, In idx (map (fun n => n - 1) numbers) -> 0 <= idx < size.
Proof.
  intros H idx Hin. apply in_map_iff in Hin. destruct Hin as (n & <- & Hn).
  specialize (H n Hn). lia.
Qed.

(** The president's creation up to the call of the service, when nothing
    raises, the previous selection [p] exists, the selection to create does
    not exist or is to be recreated, and [size] numbers of the list shown
    were typed. *)
Ltac president_run d o p numbers Hprev Hgo Hlen Hscreen available_quiet :=
  unfold bind at 1; rewrite get_current_state_quiet;
  cbn [GoncourtService.premiere_selection GoncourtService.deuxieme_selection
       GoncourtService.troisieme_selection];
  rewrite Hprev; cbn [GoncourtService.is_not_None negb];
  unfold bind at 1;
  match goal with
  | |- context [(if ?again then ?ask else ret true) (mkWorld d [] o)] =>
      let Hgo' := fresh "Hgo" in
      assert (Hgo' : exists o1,
                 (if again then ask else ret true) (mkWorld d [] o)
                 = (Ok true, mkWorld d [] o1));
      [ destruct Hgo as [Hgo | Hgo];
        [ rewrite Hgo; cbn [GoncourtService.is_not_None]; eexists; reflexivity
        | destruct again; [|eexists; reflexivity];
          rewrite Hgo; unfold bind, print, ret; cbn [db faults stdout];
          eexists; reflexivity ]
      | let o1 := fresh "o1" in
        destruct Hgo' as (o1 & ->); cbn [negb];
        unfold bind at 1; rewrite available_quiet, Hprev ]
  end;
  let b0 := fresh "b0" in
  let rest0 := fresh "rest0" in
  let Ebooks := fresh "Ebooks" in
  destruct (book p) as [|b0 rest0] eqn:Ebooks;
  [ exfalso; destruct numbers as [|n0 numbers0]; [discriminate Hlen|];
    specialize (Hscreen n0 (or_introl eq_refl)); cbn in Hscreen; lia
  | ];
  rewrite <- Ebooks in *; clear Ebooks;
  do 4 (unfold bind at 1, print at 1; cbn [db faults stdout]);
  unfold bind at 1;
  match goal with
  | |- context [GoncourtApplication.print_books 1 (book p) (mkWorld d [] ?o2)] =>
      let o3 := fresh "o3" in
      destruct (print_books_quiet (book p) 1 d o2) as (o3 & ->)
  end;
  unfold bind at 1, print at 1; cbn [db faults stdout];
  rewrite length_map, Hlen; cbn [Z.of_nat Pos.of_succ_nat Pos.succ Z.eqb Pos.eqb negb];
  rewrite (first_invalid_None _ _ (on_screen_indices _ _ Hscreen));
  unfold try_except at 1, bind at 1;
  rewrite (selected_ids_in_range (book p) _ _ (on_screen_indices _ _ Hscreen));
  rewrite map_map; fold (chosen (map b_id (book p)) numbers).

Lemma app_create_deuxieme_selection_run d o replace numbers p :
  round_selection d 1 = Some p ->
  (round_selection d 2 = None \/ replace = "o") ->
  List.length numbers = 8%nat ->
  on_screen (map b_id (book p)) numbers ->
  exists o1,
    GoncourtApplication.create_deuxieme_selection replace (Some numbers) (mkWorld d [] o)
    = try_except
        (success <- GoncourtService.create_deuxieme_selection
                      (chosen (map b_id (book p)) numbers) ;;
         if success : bool then
           print "✓ Deuxième sélection créée avec succès!" [] ;;;
           _ <- GoncourtService.create_final_selection ;;
           ret tt
         else print "✗ Échec de la création de la deuxième sélection." [])
        (fun e => print "✗ Erreur: {e}" [])
        (mkWorld d [] o1).
Proof.
  intros Hprev Hgo Hlen Hscreen. unfold on_screen in Hscreen. rewrite length_map in Hscreen.
  unfold GoncourtApplication.create_deuxieme_selection.
  president_run d o p numbers Hprev Hgo Hlen Hscreen get_available_books_2_quiet.
  eexists. reflexivity.
Qed.

Lemma app_create_troisieme_selection_run d o replace numbers p :
  round_selection d 2 = Some p ->
  (round_selection d 3 = None \/ replace = "o") ->
  List.length numbers = 4%nat ->
  on_screen (map b_id (book p)) numbers ->
  exists o1,
    GoncourtApplication.create_troisieme_selection replace (Some numbers) (mkWorld d [] o)
    = try_except
        (success <- GoncourtService.create_troisieme_selection
                      (chosen (map b_id (book p)) numbers) ;;
         if success : bool then
           print "✓ Troisième sélection créée avec succès!" [] ;;;
           _ <- GoncourtService.create_final_selection ;;
           ret tt
         else print "✗ Échec de la création de la troisième sélection." [])
        (fun e => print "✗ Erreur: {e}" [])
        (mkWorld d [] o1).
Proof.
  intros Hprev Hgo Hlen Hscreen. unfold on_screen in Hscreen. rewrite length_map in Hscreen.
  unfold GoncourtApplication.create_troisieme_selection.
  president_run d o p numbers Hprev Hgo Hlen Hscreen get_available_books_3_quiet.
  eexists. reflexivity.
Qed.

Lemma round_works_selection d k l :
  round_works d k = Some l ->
  exists p, round_selection d k = Some p /\ map b_id (book p) = l.
Proof.
  intros Hl. apply round_works_Some in Hl. destruct Hl as (r & Hr & ->).
  unfold round_selection. rewrite Hr. eexists. split; reflexivity.
Qed.

Lemma chosen_on_screen shown numbers id :
  on_screen shown numbers -> In id (chosen shown numbers) -> In id shown.
Proof.
  intros H Hin. apply in_map_iff in Hin. destruct Hin as (n & <- & Hn).
  specialize (H n Hn). apply nth_In. lia.
Qed.

Lemma chosen_NoDup shown numbers :
  NoDup shown -> NoDup numbers -> on_screen shown numbers -> NoDup (chosen shown numbers).
Proof.
  intros Hs Hn Hon. unfold chosen.
  induction numbers as [|n rest IH]; cbn; constructor.
  - intros Hin. apply in_map_iff in Hin. destruct Hin as (m & E & Hm).
    apply NoDup_cons_iff in Hn. destruct Hn as [Hn _].
    pose proof (Hon n (or_introl eq_refl)) as Rn.
    pose proof (Hon m (or_intror Hm)) as Rm.
    apply (proj1 (NoDup_nth shown 0) Hs) in E; [|lia|lia].
    assert (m = n) by lia. subst m. contradiction.
  - apply IH.
    + apply NoDup_cons_iff in Hn. apply Hn.
    + intros m Hm. apply Hon. right. exact Hm.
Qed.

(** The checks of the service pass for works chosen on the screen. *)
Lemma chosen_request_ok d k size shown numbers :
  round_works d (k - 1) = Some shown ->
  List.length numbers = size -> on_screen shown numbers ->
  round_request_ok d k size (chosen shown numbers).
Proof.
  intros Hshown Hlen Hon.
  assert (Hin : forall id, In id (chosen shown numbers) -> in_round d (k - 1) id).
  { intros id Hid. apply in_round_works. exists shown. split; [exact Hshown|].
    apply (chosen_on_screen shown numbers id Hon Hid). }
  split; [|split; [|split]].
  - apply round_works_Some in Hshown. destruct Hshown as (r & Hr & _).
    apply round_row_Some in Hr. exists r. exact Hr.
  - unfold chosen. rewrite length_map. exact Hlen.
  - intros id Hid. destruct (Hin id Hid) as (r & _ & _ & Hs). exact Hs.
  - exact Hin.
Qed.

Lemma creation_step_evolves d d' : creation_step d d' -> evolves d d'.
Proof.
  intros [-> | (obj & _ & ->)]; [apply evolves_refl | apply create_db_evolves].
Qed.

(** X8.  The second selection is the one typed.  When nothing raises, the
    first selection exists, no second selection exists and the president
    types eight numbers of the list on the screen, the action creates the
    second selection with exactly the works designated (the list shown is
    the first selection, by author's last name), and as many works as
    there are distinct numbers. *)
Theorem president_second_selection
        (w : World) (replace : string) (numbers shown : list Z) :
  quiet w -> db_wf (db w) ->
  round_works (db w) 1 = Some shown -> round_works (db w) 2 = None ->
  List.length numbers = 8%nat -> on_screen shown numbers ->
  returns (GoncourtApplication.create_deuxieme_selection replace (Some numbers)) w
          (fun _ w' =>
             quiet w'
             /\ exists l2,
                  round_works (db w') 2 = Some l2
                  /\ same_set l2 (chosen shown numbers)
                  /\ List.length l2 = distinct (chosen shown numbers)).
Proof.
  destruct w as [d f o]. unfold quiet. cbn [db faults]. intros -> Hwf H1 H2 Hlen Hon.
  destruct (round_works_selection d 1 shown H1) as (p & Hp & Hids).
  destruct (app_create_deuxieme_selection_run d o replace numbers p Hp) as (o1 & Hrun);
    [left; apply round_selection_None, round_works_None, H2 | exact Hlen
     | rewrite Hids; exact Hon |].
  rewrite Hids in Hrun. unfold returns. rewrite Hrun. clear Hrun.
  destruct (create_deuxieme_selection_outcome d o1 (chosen shown numbers) Hwf)
    as (r & w1 & Hrun & Hq1 & Hiff & _ & Htrue).
  assert (Hr : r = true).
  { apply Hiff. apply (chosen_request_ok d 2 8 shown numbers H1 Hlen Hon). }
  subst r. destruct (Htrue eq_refl) as (books & _ & _ & Hdb).
  destruct (create_deuxieme_selection_cardinality
              (mkWorld d [] o1) w1 (chosen shown numbers) eq_refl Hwf)
    as (l2 & Hl2 & Hs2 & Hn2 & _);
    [apply round_row_None, round_works_None, H2 | exact Hrun |].
  unfold try_except, bind at 1. rewrite Hrun.
  unfold bind at 1, print at 1. destruct w1 as [d1 f1 out1].
  unfold quiet in Hq1. cbn [db faults stdout] in *. subst f1.
  assert (Hwf1 : db_wf d1) by (rewrite Hdb; apply create_db_wf, Hwf).
  destruct (create_final_selection_step
              d1 (out1 ++ [mkMessage "✓ Deuxième sélection créée avec succès!" []]) Hwf1)
    as (r2 & w2 & Hfin & Hq2 & Hstep).
  unfold bind. rewrite Hfin. unfold ret.
  eexists _, _. split; [reflexivity|]. split; [exact Hq2|].
  exists l2. split; [|split; assumption].
  apply (evolves_round_works d1 (db w2) 2 l2 Hwf1 (creation_step_evolves _ _ Hstep) Hl2).
Qed.

(** From the fifteen works of the first selection the president keeps the
    last two and the first six. *)
Lemma president_second_selection_witness :
  quiet w_round1 /\ db_wf (db w_round1)
  /\ round_works (db w_round1) 1 = Some [1; 2; 3; 4; 5; 6; 7; 8; 9; 10; 11; 12; 13; 14; 15]
  /\ round_works (db w_round1) 2 = None
  /\ chosen [1; 2; 3; 4; 5; 6; 7; 8; 9; 10; 11; 12; 13; 14; 15] [15; 14; 1; 2; 3; 4; 5; 6]
     = [15; 14; 1; 2; 3; 4; 5; 6]
  /\ returns (GoncourtApplication.create_deuxieme_selection
                "" (Some [15; 14; 1; 2; 3; 4; 5; 6]))
             w_round1
             (fun _ w' =>
                quiet w'
                /\ exists l2,
                     round_works (db w') 2 = Some l2
                     /\ same_set l2 (chosen [1; 2; 3; 4; 5; 6; 7; 8; 9; 10; 11; 12; 13; 14; 15]
                                            [15; 14; 1; 2; 3; 4; 5; 6])
                     /\ List.length l2
                        = distinct (chosen [1; 2; 3; 4; 5; 6; 7; 8; 9; 10; 11; 12; 13; 14; 15]
                                           [15; 14; 1; 2; 3; 4; 5; 6])).
Proof.
  assert (Hq : quiet w_round1) by reflexivity.
  assert (Hwf : db_wf (db w_round1)) by (apply db_wfb_sound; vm_compute; reflexivity).
  assert (H1 : round_works (db w_round1) 1
               = Some [1; 2; 3; 4; 5; 6; 7; 8; 9; 10; 11; 12; 13; 14; 15])
    by (vm_compute; reflexivity).
  assert (H2 : round_works (db w_round1) 2 = None) by (vm_compute; reflexivity).
  assert (Hon : on_screen [1; 2; 3; 4; 5; 6; 7; 8; 9; 10; 11; 12; 13; 14; 15]
                          [15; 14; 1; 2; 3; 4; 5; 6]).
  { intros n Hn. cbn in Hn |- *. intuition lia. }
  split; [exact Hq|]. split; [exact Hwf|]. split; [exact H1|]. split; [exact H2|].
  split; [reflexivity|].
  apply (president_second_selection
           w_round1 "" [15; 14; 1; 2; 3; 4; 5; 6]
           [1; 2; 3; 4; 5; 6; 7; 8; 9; 10; 11; 12; 13; 14; 15] Hq Hwf H1 H2 eq_refl Hon).
Defined.

(** X9.  The third selection typed becomes the final selection.  When
    nothing raises, the second selection exists, no third and no final
    selection exist and the president types four different numbers of the
    list on the screen, the action creates the third selection and, right
    after, the final selection, both with exactly the four works designated. *)
Theorem president_third_selection_and_final
        (w : World) (replace : string) (numbers shown : list Z) :
  quiet w -> db_wf (db w) ->
  round_works (db w) 2 = Some shown ->
  round_works (db w) 3 = None -> round_works (db w) 4 = None ->
  List.length numbers = 4%nat -> on_screen shown numbers -> NoDup numbers ->
  returns (GoncourtApplication.create_troisieme_selection replace (Some numbers)) w
          (fun _ w' =>
             exists l3 l4,
               round_works (db w') 3 = Some l3 /\ same_set l3 (chosen shown numbers)
               /\ round_works (db w') 4 = Some l4 /\ same_set l4 (chosen shown numbers)
               /\ List.length l3 = 4%nat /\ List.length l4 = 4%nat).
Proof.
  destruct w as [d f o]. unfold quiet. cbn [db faults].
  intros -> Hwf H2 H3 H4 Hlen Hon Hnd.
  destruct (round_works_selection d 2 shown H2) as (p & Hp & Hids).
  destruct (app_create_troisieme_selection_run d o replace numbers p Hp) as (o1 & Hrun);
    [left; apply round_selection_None, round_works_None, H3 | exact Hlen
     | rewrite Hids; exact Hon |].
  rewrite Hids in Hrun. unfold returns. rewrite Hrun. clear Hrun.
  destruct (create_troisieme_selection_outcome d o1 (chosen shown numbers) Hwf)
    as (r & w1 & Hrun & Hq1 & Hiff & _ & Htrue).
  assert (Hr : r = true).
  { apply Hiff. apply (chosen_request_ok d 3 4 shown numbers H2 Hlen Hon). }
  subst r. destruct (Htrue eq_refl) as (books & _ & _ & Hdb).
  assert (Hchosen : NoDup (chosen shown numbers)).
  { apply chosen_NoDup; [apply (round_works_NoDup d 2 shown Hwf H2) | exact Hnd | exact Hon]. }
  assert (Hno3 : ~ round_exists d 3) by (apply round_row_None, round_works_None, H3).
  assert (Hno4 : ~ round_exists d 4) by (apply round_row_None, round_works_None, H4).
  destruct (create_troisieme_selection_cardinality
              (mkWorld d [] o1) w1 (chosen shown numbers) eq_refl Hwf Hno3 Hrun)
    as (l3 & Hl3 & Hs3 & _ & Hn3).
  unfold try_except, bind at 1. rewrite Hrun.
  unfold bind at 1, print at 1. destruct w1 as [d1 f1 out1].
  unfold quiet in Hq1. cbn [db faults stdout] in *. subst f1.
  assert (Hwf1 : db_wf d1) by (rewrite Hdb; apply create_db_wf, Hwf).
  destruct (third_then_final
              (mkWorld d [] o1) (mkWorld d1 [] out1)
              (mkWorld d1 [] (out1 ++ [mkMessage "✓ Troisième sélection créée avec succès!" []]))
              (chosen shown numbers) eq_refl Hwf Hchosen Hno3 Hno4 Hrun eq_refl eq_refl)
    as (w2 & l4 & Hfin & Hl4 & Hs4 & Hn4).
  destruct (create_final_selection_step
              d1 (out1 ++ [mkMessage "✓ Troisième sélection créée avec succès!" []]) Hwf1)
    as (r2 & w2' & Hfin' & _ & Hstep).
  rewrite Hfin in Hfin'. injection Hfin' as _ <-.
  unfold bind. rewrite Hfin. unfold ret.
  eexists _, _. split; [reflexivity|].
  exists l3, l4. split; [|split; [exact Hs3|]].
  { apply (evolves_round_works d1 (db w2) 3 l3 Hwf1 (creation_step_evolves _ _ Hstep) Hl3). }
  split; [exact Hl4|]. split; [exact Hs4|]. split; [apply Hn3, Hchosen | exact Hn4].
Qed.

(** After the second selection of the session the president keeps its
    works listed eighth, first, third and fifth. *)
Lemma president_third_selection_and_final_witness :
  quiet w_round2 /\ db_wf (db w_round2)
  /\ round_works (db w_round2) 2 = Some [1; 2; 3; 4; 5; 6; 7; 8]
  /\ chosen [1; 2; 3; 4; 5; 6; 7; 8] [8; 1; 3; 5] = [8; 1; 3; 5]
  /\ returns (GoncourtApplication.create_troisieme_selection "" (Some [8; 1; 3; 5])) w_round2
             (fun _ w' =>
                exists l3 l4,
                  round_works (db w') 3 = Some l3
                  /\ same_set l3 (chosen [1; 2; 3; 4; 5; 6; 7; 8] [8; 1; 3; 5])
                  /\ round_works (db w') 4 = Some l4
                  /\ same_set l4 (chosen [1; 2; 3; 4; 5; 6; 7; 8] [8; 1; 3; 5])
                  /\ List.length l3 = 4%nat /\ List.length l4 = 4%nat).
Proof.
  assert (Hq : quiet w_round2) by (vm_compute; reflexivity).
  assert (Hwf : db_wf (db w_round2)) by (apply db_wfb_sound; vm_compute; reflexivity).
  assert (H2 : round_works (db w_round2) 2 = Some [1; 2; 3; 4; 5; 6; 7; 8])
    by (vm_compute; reflexivity).
  assert (H3 : round_works (db w_round2) 3 = None) by (vm_compute; reflexivity).
  assert (H4 : round_works (db w_round2) 4 = None) by (vm_compute; reflexivity).
  assert (Hon : on_screen [1; 2; 3; 4; 5; 6; 7; 8] [8; 1; 3; 5]).
  { intros n Hn. cbn in Hn |- *. intuition lia. }
  assert (Hnd : NoDup [8; 1; 3; 5]).
  { repeat constructor; cbn; intuition lia. }
  split; [exact Hq|]. split; [exact Hwf|]. split; [exact H2|]. split; [reflexivity|].
  apply (president_third_selection_and_final
           w_round2 "" [8; 1; 3; 5] [1; 2; 3; 4; 5; 6; 7; 8]
           Hq Hwf H2 H3 H4 eq_refl Hon Hnd).
Defined.

(* ===================================================================== *)
(** ** The votes recorded are the results read *)
(* ===================================================================== *)

Lemma filter_all {A} (f : A -> bool) (l : list A) :
  (forall x, In x l -> f x = true) -> filter f l = l.
Proof.
  induction l as [|x l IH]; intros H; [reflexivity|]. cbn.
  rewrite (H x (or_introl eq_refl)). f_equal. apply IH. intros y Hy. apply H. right. exact Hy.
Qed.

Lemma filter_empty {A} (f : A -> bool) (l : list A) :
  (forall x, In x l -> f x = false) -> filter f l = [].
Proof.
  induction l as [|x l IH]; intros H; [reflexivity|]. cbn.
  rewrite (H x (or_introl eq_refl)). apply IH. intros y Hy. apply H. right. exact Hy.
Qed.

Lemma record_db_t_vote votes_data sid vd d :
  t_vote (record_db votes_data sid vd d)
  = other_votes d sid ++ vote_rows votes_data sid vd (vote_auto_increment d).
Proof.
  unfold record_db.
  destruct (insert_votes_db_tables votes_data sid vd (snd (VoteDAO.delete_votes sid d)))
    as (_ & _ & _ & H).
  rewrite H. reflexivity.
Qed.

Lemma vote_rows_In entries sid vd : forall next v,
  In v (vote_rows entries sid vd next) ->
  vote_row.s_id v = sid /\ In (vote_row.b_id v) (keys entries).
Proof.
  induction entries as [|[k c] rest IH]; intros next v Hin; [destruct Hin|].
  destruct Hin as [<- | Hin]; cbn.
  - auto.
  - destruct (IH _ _ Hin) as [Hs Hk]. auto.
Qed.

Lemma round4_row_record_db votes_data sid vd d v :
  round4_row (record_db votes_data sid vd d) v = round4_row d v.
Proof.
  unfold round4_row. destruct (record_db_tables votes_data sid vd d) as (_ & _ & _ & -> & _).
  reflexivity.
Qed.

(** After the votes are recorded, the votes of round 4 are the rows just
    inserted. *)
Lemma record_db_round4_votes votes_data vd d row :
  one_final_selection d -> round_row d 4 = Some row ->
  round4_votes (record_db votes_data (selection_row.s_id row) vd d)
  = vote_rows votes_data (selection_row.s_id row) vd (vote_auto_increment d).
Proof.
  intros Hone Hrow. unfold round4_votes.
  rewrite record_db_t_vote, filter_app.
  rewrite !(filter_ext _ (round4_row d) (round4_row_record_db votes_data _ vd d)).
  assert (Hold : filter (round4_row d) (other_votes d (selection_row.s_id row)) = []).
  { apply filter_empty. intros v Hv. unfold other_votes in Hv.
    apply filter_In in Hv. destruct Hv as [Hin Hne].
    destruct (round4_row d v) eqn:E4; [|reflexivity].
    rewrite (Hone v row Hrow Hin E4), Z.eqb_refl in Hne. discriminate. }
  rewrite Hold. cbn [app].
  apply round_row_Some in Hrow. destruct Hrow as [Hin H4].
  apply filter_all. intros v' Hv'.
  apply vote_rows_In in Hv'. destruct Hv' as [Hs _].
  unfold round4_row. apply existsb_exists. exists row. split; [exact Hin|].
  rewrite Hs, H4, !Z.eqb_refl. reflexivity.
Qed.

Lemma record_db_reference_works votes_data sid vd d :
  votes_reference_works d ->
  (forall k, In k (keys votes_data) -> stored_work d k) ->
  votes_reference_works (record_db votes_data sid vd d).
Proof.
  intros Href Hkeys v Hv. rewrite record_db_t_vote in Hv.
  assert (Hs : stored_work d (vote_row.b_id v)).
  { apply in_app_iff in Hv. destruct Hv as [Hv | Hv].
    - unfold other_votes in Hv. apply filter_In in Hv. apply Href, Hv.
    - apply vote_rows_In in Hv. apply Hkeys, Hv. }
  unfold stored_work in *.
  destruct (record_db_tables votes_data sid vd d) as (_ & _ & -> & _). exact Hs.
Qed.

Lemma ballot_of_result d r :
  In r (final_join d) ->
  ballot (vote_of_result d r)
  = (Some (vote_row.b_id (fst (fst r))), vote_row.v_number_vote (fst (fst r))).
Proof.
  destruct r as [[v b] s]. intros Hin.
  destruct (vote_of_result_represents d v b s Hin) as (_ & Hn & _ & (b' & Hb & _ & Hid) & _).
  unfold ballot. rewrite Hb, Hn. cbn. rewrite Hid. reflexivity.
Qed.

(** X10.  The votes recorded are the results read.  When nothing raises,
    the keys of the tables are sound, every vote refers to a stored work
    and the votes of round 4 belong to the final selection in use, a vote
    dictionary the service accepts comes back from [get_final_results]
    entry for entry (work and count), ranked by descending count. *)
Theorem recorded_votes_come_back_ranked (w : World) (today : date) (votes_data : Dict) :
  quiet w -> db_wf (db w) -> votes_reference_works (db w) -> one_final_selection (db w) ->
  votes_request_ok (db w) votes_data ->
  exists w1 votes,
    GoncourtService.record_final_votes today votes_data w = (Ok true, w1)
    /\ GoncourtService.get_final_results w1 = (Ok votes, w1)
    /\ Permutation (map ballot votes)
                   (map (fun e => (Some (fst e), snd e)) (items votes_data))
    /\ StronglySorted by_votes_desc votes.
Proof.
  destruct w as [d f o]. unfold quiet. cbn [db faults].
  intros -> Hwf Href Hone (Hex & Hkeys & Hsum).
  apply round_exists_row in Hex. destruct Hex as (row & Hrow).
  rewrite service_record_final_votes_quiet.
  assert (Hsel : round_selection d 4
                 = Some (mkSelection (selection_row.s_id row) (selection_row.s_name row)
                                     (selection_row.s_round row) (selection_row.s_date row)
                                     (BookDAO.select_by_selection (selection_row.s_id row) d))).
  { unfold round_selection. rewrite Hrow. reflexivity. }
  rewrite Hsel.
  assert (Hmiss : GoncourtService.first_missing
                    (keys votes_data)
                    (map b_id (BookDAO.select_by_selection (selection_row.s_id row) d)) = None).
  { apply first_missing_None. intros id Hid.
    apply (proj2 (round_selection_ids d 4 _ Hsel id)), Hkeys, Hid. }
  cbn [book s_id]. rewrite Hmiss, Hsum. cbn [Z.eqb Pos.eqb negb].
  set (d' := record_db votes_data (selection_row.s_id row) today d).
  eexists _, _. split; [reflexivity|].
  unfold GoncourtService.get_final_results. rewrite get_final_results_quiet.
  split; [reflexivity|]. split; [|apply results_sorted].
  assert (Hwf' : db_wf d') by apply record_db_wf, Hwf.
  assert (Href' : votes_reference_works d').
  { apply record_db_reference_works; [exact Href|].
    intros k Hk. destruct (Hkeys k Hk) as (r & _ & _ & Hs). exact Hs. }
  rewrite map_map.
  rewrite (map_ext_in _ (fun r : VoteDAO.result_row =>
                           (Some (vote_row.b_id (fst (fst r))),
                            vote_row.v_number_vote (fst (fst r))))).
  2:{ intros r Hr. apply ballot_of_result.
      rewrite select_final_results_join in Hr. apply order_by_In in Hr. exact Hr. }
  rewrite <- (map_map (fun r : VoteDAO.result_row => fst (fst r))
                      (fun v => (Some (vote_row.b_id v), vote_row.v_number_vote v))).
  unfold items.
  rewrite <- (vote_rows_items votes_data (selection_row.s_id row) today
                              (vote_auto_increment d)) at 1.
  rewrite (map_map (fun v => (vote_row.b_id v, vote_row.v_number_vote v))).
  cbn [fst snd]. apply Permutation_map.
  rewrite <- (record_db_round4_votes votes_data today d row Hone Hrow).
  fold d'. rewrite <- (final_join_rows d' Hwf' Href'), select_final_results_join.
  apply Permutation_map, order_by_perm.
Qed.

(** The votes 1, 4, 2, 3 of the session come back with work 2 first. *)
Lemma recorded_votes_come_back_ranked_witness :
  quiet w_round3 /\ db_wf (db w_round3)
  /\ votes_request_ok (db w_round3) [(1, 1); (2, 4); (3, 2); (4, 3)]
  /\ exists w1 votes,
      GoncourtService.record_final_votes (mkDate 2025 11 4) [(1, 1); (2, 4); (3, 2); (4, 3)]
                                         w_round3 = (Ok true, w1)
      /\ GoncourtService.get_final_results w1 = (Ok votes, w1)
      /\ Permutation (map ballot votes) [(Some 1, 1); (Some 2, 4); (Some 3, 2); (Some 4, 3)]
      /\ StronglySorted by_votes_desc votes.
Proof.
  assert (Hq : quiet w_round3) by (vm_compute; reflexivity).
  assert (Hwf : db_wf (db w_round3)) by (apply db_wfb_sound; vm_compute; reflexivity).
  assert (Hvotes : t_vote (db w_round3) = []) by (vm_compute; reflexivity).
  assert (Href : votes_reference_works (db w_round3)).
  { intros v Hv. rewrite Hvotes in Hv. destruct Hv. }
  assert (Hone : one_final_selection (db w_round3)).
  { intros v row _ Hv. rewrite Hvotes in Hv. destruct Hv. }
  assert (Hrow : round_row (db w_round3) 4
                 = Some (selection_row.mk 4 "FINALISTES DU PRIX GONCOURT" 4
                                          (Some (mkDate 2025 11 4))))
    by (vm_compute; reflexivity).
  assert (Hworks : works_of (db w_round3) 4 = [1; 2; 3; 4]) by (vm_compute; reflexivity).
  assert (Hok : votes_request_ok (db w_round3) [(1, 1); (2, 4); (3, 2); (4, 3)]).
  { split; [apply (proj2 (round_exists_row (db w_round3) 4)); eauto|].
    split; [|reflexivity].
    intros k Hk. eexists. split; [exact Hrow|].
    apply (proj1 (works_of_In (db w_round3) 4 k)). rewrite Hworks. exact Hk. }
  split; [exact Hq|]. split; [exact Hwf|]. split; [exact Hok|].
  exact (recorded_votes_come_back_ranked
           w_round3 (mkDate 2025 11 4) [(1, 1); (2, 4); (3, 2); (4, 3)]
           Hq Hwf Href Hone Hok).
Defined.

(* ===================================================================== *)
(** ** daos/selection_dao.py: read, update, delete and the memberships *)
(* ===================================================================== *)

Lemma selection_read_quiet pk d o :
  SelectionDAO.read pk (mkWorld d [] o) = (Ok (stored_selection d pk), mkWorld d [] o).
Proof.
  unfold SelectionDAO.read, stored_selection. run_step.
  destruct (fetchone (SelectionDAO.select_by_id pk d)) as [r|] eqn:E; [|reflexivity].
  cbn. unfold selection_of_row.
  assert (Hid : selection_row.s_id r = pk).
  { unfold fetchone, SelectionDAO.select_by_id in E.
    destruct (filter _ (t_selection d)) as [|r' t] eqn:F; [discriminate|].
    injection E as ->. assert (Hin : In r (filter (fun r0 => selection_row.s_id r0 =? pk)
                                                 (t_selection d)))
      by (rewrite F; left; reflexivity).
    apply filter_In in Hin. apply Z.eqb_eq, Hin. }
  rewrite Hid. reflexivity.
Qed.

Lemma load_selections_quiet results d o :
  SelectionDAO.load_selections results (mkWorld d [] o)
  = (Ok (map (selection_of_row d) results), mkWorld d [] o).
Proof.
  induction results as [|r rest IH]; cbn [SelectionDAO.load_selections map]; [reflexivity|].
  unfold bind at 1. rewrite get_books_by_selection_quiet.
  unfold bind. rewrite IH. reflexivity.
Qed.

Lemma selection_read_all_quiet d o :
  SelectionDAO.read_all (mkWorld d [] o)
  = (Ok (map (selection_of_row d) (SelectionDAO.select_all d)), mkWorld d [] o).
Proof.
  unfold SelectionDAO.read_all, try_except, bind at 1. unfold query, execute.
  cbn [db faults stdout]. rewrite load_selections_quiet. reflexivity.
Qed.

Lemma remove_book_from_selection_quiet b s d o :
  SelectionDAO.remove_book_from_selection b s (mkWorld d [] o)
  = (Ok (0 <? fst (SelectionDAO.delete_membership b s d)),
     mkWorld (snd (SelectionDAO.delete_membership b s d)) [] o).
Proof. reflexivity. Qed.

Lemma selection_delete_quiet pk d o :
  SelectionDAO.delete pk (mkWorld d [] o)
  = (Ok (0 <? Z.of_nat (List.length (SelectionDAO.select_by_id pk d))),
     mkWorld (delete_db pk d) [] o).
Proof. reflexivity. Qed.

Lemma selection_update_quiet obj d o :
  SelectionDAO.update obj (mkWorld d [] o) = (Ok true, mkWorld (update_db obj d) [] o).
Proof.
  unfold SelectionDAO.update, SelectionDAO._clear_selection_books, update_db. run_step.
  unfold bind. rewrite add_books_quiet. reflexivity.
Qed.

Lemma is_pair_true (b s : Z) (bs : Z * Z) :
  (fst bs =? b) && (snd bs =? s) = true <-> bs = (b, s).
Proof.
  destruct bs as [b' s']. cbn. rewrite andb_true_iff, !Z.eqb_eq. split.
  - intros [-> ->]. reflexivity.
  - intros [= -> ->]. auto.
Qed.

Lemma insert_ignore_fst b s d :
  fst (SelectionDAO.insert_ignore_book_selection b s d) = 0 /\ In (b, s) (t_book_selection d)
  \/ fst (SelectionDAO.insert_ignore_book_selection b s d) = 1
     /\ ~ In (b, s) (t_book_selection d).
Proof.
  unfold SelectionDAO.insert_ignore_book_selection.
  destruct (existsb _ (t_book_selection d)) eqn:E; cbn [fst]; [left | right]; (split; [reflexivity|]).
  - apply existsb_exists in E. destruct E as (bs & Hin & Hbs).
    apply is_pair_true in Hbs. subst bs. exact Hin.
  - intros Hin.
    assert (Hex : existsb (fun bs : Z * Z => (fst bs =? b) && (snd bs =? s))
                          (t_book_selection d) = true).
    { apply existsb_exists. exists (b, s). split; [exact Hin | apply is_pair_true; reflexivity]. }
    congruence.
Qed.

Lemma insert_ignore_present b s d :
  In (b, s) (t_book_selection d) -> SelectionDAO.insert_ignore_book_selection b s d = (0, d).
Proof.
  intros Hin. unfold SelectionDAO.insert_ignore_book_selection.
  destruct (existsb _ (t_book_selection d)) eqn:E; [reflexivity|].
  assert (Hex : existsb (fun bs : Z * Z => (fst bs =? b) && (snd bs =? s))
                        (t_book_selection d) = true).
  { apply existsb_exists. exists (b, s). split; [exact Hin | apply is_pair_true; reflexivity]. }
  congruence.
Qed.

Lemma delete_membership_fst b s d :
  (0 <? fst (SelectionDAO.delete_membership b s d)) = true <-> In (b, s) (t_book_selection d).
Proof.
  cbn [SelectionDAO.delete_membership fst]. rewrite Z.ltb_lt. split.
  - intros H. destruct (filter _ (t_book_selection d)) as [|bs t] eqn:F; [cbn in H; lia|].
    assert (Hin : In bs (filter (fun bs0 : Z * Z => (fst bs0 =? b) && (snd bs0 =? s))
                                (t_book_selection d))) by (rewrite F; left; reflexivity).
    apply filter_In in Hin. destruct Hin as [Hin Hbs]. apply is_pair_true in Hbs.
    subst bs. exact Hin.
  - intros Hin.
    assert (Hf : In (b, s) (filter (fun bs0 : Z * Z => (fst bs0 =? b) && (snd bs0 =? s))
                                   (t_book_selection d))).
    { apply filter_In. split; [exact Hin | apply is_pair_true; reflexivity]. }
    destruct (filter _ (t_book_selection d)); [destruct Hf | cbn; lia].
Qed.

Lemma delete_membership_In b s d x :
  In x (t_book_selection (snd (SelectionDAO.delete_membership b s d)))
  <-> In x (t_book_selection d) /\ x <> (b, s).
Proof.
  cbn [SelectionDAO.delete_membership snd t_book_selection]. rewrite filter_In.
  rewrite negb_true_iff. split; intros [Hin H]; (split; [exact Hin|]).
  - intros ->. rewrite (proj2 (is_pair_true b s (b, s)) eq_refl) in H. discriminate.
  - destruct ((fst x =? b) && (snd x =? s)) eqn:E; [|reflexivity].
    apply is_pair_true in E. contradiction.
Qed.

Lemma delete_membership_absent b s d :
  ~ In (b, s) (t_book_selection d) -> snd (SelectionDAO.delete_membership b s d) = d.
Proof.
  intros Hno. destruct d as [tb ts tbs tv a va].
  cbn [SelectionDAO.delete_membership snd t_book t_selection t_book_selection t_vote
       selection_auto_increment vote_auto_increment] in *.
  f_equal. apply filter_all. intros x Hx. apply negb_true_iff.
  destruct ((fst x =? b) && (snd x =? s)) eqn:E; [|reflexivity].
  apply is_pair_true in E. subst x. contradiction.
Qed.

Lemma delete_membership_after_insert b s d :
  ~ In (b, s) (t_book_selection d) ->
  snd (SelectionDAO.delete_membership
         b s (snd (SelectionDAO.insert_ignore_book_selection b s d))) = d.
Proof.
  intros Hno. unfold SelectionDAO.insert_ignore_book_selection.
  destruct (existsb _ (t_book_selection d)) eqn:E.
  - cbn [snd]. apply delete_membership_absent, Hno.
  - destruct d as [tb ts tbs tv a va].
    cbn [SelectionDAO.delete_membership snd t_book t_selection t_book_selection t_vote
         selection_auto_increment vote_auto_increment] in *.
    f_equal. rewrite filter_app. cbn [filter fst snd].
    rewrite !Z.eqb_refl. cbn [andb negb]. rewrite app_nil_r.
    apply filter_all. intros x Hx. apply negb_true_iff.
    destruct ((fst x =? b) && (snd x =? s)) eqn:E'; [|reflexivity].
    apply is_pair_true in E'. subst x. contradiction.
Qed.

(** X11.  A membership is stored once and can be taken back.  When nothing
    raises, [add_book_to_selection] returns [True] exactly when the pair
    was not stored yet, and the pair is stored afterwards; adding it again
    returns [False] and changes nothing; [remove_book_from_selection] then
    returns [True] and removes it, which gives back the tables from before
    the first call when that call had inserted the pair. *)
Theorem membership_round_trip (w : World) (b s : Z) :
  quiet w ->
  exists r w1 w2 w3,
    SelectionDAO.add_book_to_selection b s w = (Ok r, w1)
    /\ (r = true <-> ~ In (b, s) (t_book_selection (db w)))
    /\ In (b, s) (t_book_selection (db w1))
    /\ SelectionDAO.add_book_to_selection b s w1 = (Ok false, w2)
    /\ db w2 = db w1
    /\ SelectionDAO.remove_book_from_selection b s w1 = (Ok true, w3)
    /\ ~ In (b, s) (t_book_selection (db w3))
    /\ (r = true -> db w3 = db w).
Proof.
  destruct w as [d f o]. unfold quiet. cbn [db faults]. intros ->.
  rewrite add_book_to_selection_quiet.
  set (d1 := snd (SelectionDAO.insert_ignore_book_selection b s d)).
  assert (Hin1 : In (b, s) (t_book_selection d1)).
  { apply insert_ignore_In. right. reflexivity. }
  eexists _, _, _, _. split; [reflexivity|]. cbn [db].
  split; [|split; [exact Hin1|]].
  { destruct (insert_ignore_fst b s d) as [[-> Hin] | [-> Hno]]; cbn.
    - split; [discriminate | intros H; contradiction].
    - split; [intros _; exact Hno | reflexivity]. }
  rewrite add_book_to_selection_quiet, (insert_ignore_present b s d1 Hin1). cbn [fst snd].
  split; [reflexivity|]. split; [reflexivity|].
  rewrite remove_book_from_selection_quiet.
  rewrite (proj2 (delete_membership_fst b s d1) Hin1).
  split; [reflexivity|]. cbn [db]. split.
  - intros H. apply delete_membership_In in H. destruct H as [_ H]. apply H. reflexivity.
  - intros Hr. apply delete_membership_after_insert.
    destruct (insert_ignore_fst b s d) as [[E Hin] | [E Hno]]; [|exact Hno].
    rewrite E in Hr. discriminate.
Qed.

(** Work 9 is added to the second selection of the session, added again
    and removed. *)
Lemma membership_round_trip_witness :
  quiet w_round2
  /\ exists r w1 w2 w3,
      SelectionDAO.add_book_to_selection 9 2 w_round2 = (Ok r, w1)
      /\ (r = true <-> ~ In (9, 2) (t_book_selection (db w_round2)))
      /\ In (9, 2) (t_book_selection (db w1))
      /\ SelectionDAO.add_book_to_selection 9 2 w1 = (Ok false, w2)
      /\ db w2 = db w1
      /\ SelectionDAO.remove_book_from_selection 9 2 w1 = (Ok true, w3)
      /\ ~ In (9, 2) (t_book_selection (db w3))
      /\ (r = true -> db w3 = db w_round2).
Proof.
  assert (Hq : quiet w_round2) by (vm_compute; reflexivity).
  split; [exact Hq|].
  exact (membership_round_trip w_round2 9 2 Hq).
Defined.

Lemma select_by_id_length pk d :
  (0 <? Z.of_nat (List.length (SelectionDAO.select_by_id pk d))) = true
  <-> selection_exists d pk.
Proof.
  unfold SelectionDAO.select_by_id, selection_exists. rewrite Z.ltb_lt. split.
  - intros H. destruct (filter _ (t_selection d)) as [|r t] eqn:F; [cbn in H; lia|].
    assert (Hin : In r (filter (fun r0 => selection_row.s_id r0 =? pk) (t_selection d)))
      by (rewrite F; left; reflexivity).
    apply filter_In in Hin. destruct Hin as [Hin E]. apply Z.eqb_eq in E. eauto.
  - intros (r & Hin & E).
    assert (Hf : In r (filter (fun r0 => selection_row.s_id r0 =? pk) (t_selection d))).
    { apply filter_In. split; [exact Hin | apply Z.eqb_eq, E]. }
    destruct (filter _ (t_selection d)); [destruct Hf | cbn; lia].
Qed.

Lemma select_by_selection_no_membership sid d :
  (forall b, ~ In (b, sid) (t_book_selection d)) -> BookDAO.select_by_selection sid d = [].
Proof.
  intros Hno. unfold BookDAO.select_by_selection.
  rewrite (flat_map_nil _ (t_book d)); [reflexivity|].
  intros b _. apply flat_map_nil. intros [b' s'] Hin. cbn [fst snd].
  destruct (s' =? sid) eqn:E; [|rewrite andb_false_r; reflexivity].
  apply Z.eqb_eq in E. subst s'. exfalso. apply (Hno b'), Hin.
Qed.

(** X12.  A deleted selection is gone.  When nothing raises, [delete]
    returns [True] exactly when a row had the key; afterwards [read]
    returns [None] for the key and the selection has no book left, while
    the other rows and the memberships of the other selections are kept. *)
Theorem deleted_selection_is_gone (w : World) (pk : Z) :
  quiet w ->
  exists r w',
    SelectionDAO.delete pk w = (Ok r, w')
    /\ (r = true <-> selection_exists (db w) pk)
    /\ SelectionDAO.read pk w' = (Ok None, w')
    /\ BookDAO.get_books_by_selection pk w' = (Ok [], w')
    /\ (forall row, In row (t_selection (db w'))
                    <-> In row (t_selection (db w)) /\ selection_row.s_id row <> pk)
    /\ (forall b s, In (b, s) (t_book_selection (db w'))
                    <-> In (b, s) (t_book_selection (db w)) /\ s <> pk).
Proof.
  destruct w as [d f o]. unfold quiet. cbn [db faults]. intros ->.
  rewrite selection_delete_quiet. eexists _, _. split; [reflexivity|]. cbn [db].
  assert (Hrows : forall row, In row (t_selection (delete_db pk d))
                              <-> In row (t_selection d) /\ selection_row.s_id row <> pk).
  { intros row. cbn. rewrite filter_In, negb_true_iff, Z.eqb_neq. reflexivity. }
  assert (Hpairs : forall b s, In (b, s) (t_book_selection (delete_db pk d))
                               <-> In (b, s) (t_book_selection d) /\ s <> pk).
  { intros b s. cbn. rewrite filter_In, negb_true_iff, Z.eqb_neq. reflexivity. }
  split; [apply select_by_id_length|]. split; [|split; [|split; assumption]].
  - rewrite selection_read_quiet. unfold stored_selection, SelectionDAO.select_by_id.
    cbn [delete_db SelectionDAO.delete_selection snd t_selection].
    rewrite filter_filter_negb. reflexivity.
  - rewrite get_books_by_selection_quiet, select_by_selection_no_membership; [reflexivity|].
    intros b Hin. apply Hpairs in Hin. destruct Hin as [_ Hne]. apply Hne. reflexivity.
Qed.

(** The third selection of the session is deleted. *)
Lemma deleted_selection_is_gone_witness :
  quiet w_round3
  /\ selection_exists (db w_round3) 3
  /\ exists w',
      SelectionDAO.delete 3 w_round3 = (Ok true, w')
      /\ SelectionDAO.read 3 w' = (Ok None, w')
      /\ BookDAO.get_books_by_selection 3 w' = (Ok [], w').
Proof.
  assert (Hq : quiet w_round3) by (vm_compute; reflexivity).
  assert (Hex : selection_exists (db w_round3) 3).
  { exists (selection_row.mk 3 "TROISIÈME SÉLECTION" 3 (Some (mkDate 2025 10 28))).
    split; [vm_compute; auto 10 | reflexivity]. }
  split; [exact Hq|]. split; [exact Hex|].
  destruct (deleted_selection_is_gone w_round3 3 Hq) as (r & w' & Hrun & Hr & Hread & Hbooks & _).
  exists w'. rewrite Hrun, (proj2 Hr Hex). auto.
Defined.

Lemma update_db_tables obj d :
  t_book (update_db obj d) = t_book d
  /\ t_selection (update_db obj d)
     = map (fun r => if selection_row.s_id r =? s_id obj
                     then selection_row.mk (selection_row.s_id r) (s_name obj)
                                           (s_round obj) (s_date obj)
                     else r)
           (t_selection d).
Proof.
  unfold update_db.
  destruct (add_books_db_tables
              (book obj) (s_id obj)
              (snd (SelectionDAO.delete_book_selection
                      (s_id obj) (snd (SelectionDAO.update_selection obj d)))))
    as (Hb & Hs & _).
  cbn zeta in Hb, Hs. rewrite Hb, Hs. split; reflexivity.
Qed.

Lemma update_db_In obj d x :
  In x (t_book_selection (update_db obj d))
  <-> (In x (t_book_selection d) /\ snd x <> s_id obj)
      \/ (snd x = s_id obj /\ In (fst x) (map b_id (book obj))).
Proof.
  unfold update_db. rewrite add_books_db_In.
  cbn [SelectionDAO.delete_book_selection SelectionDAO.update_selection snd t_book_selection].
  rewrite filter_In, negb_true_iff, Z.eqb_neq. reflexivity.
Qed.

Lemma update_db_select_by_id obj d :
  SelectionDAO.select_by_id (s_id obj) (update_db obj d)
  = map (fun r => selection_row.mk (selection_row.s_id r) (s_name obj) (s_round obj) (s_date obj))
        (SelectionDAO.select_by_id (s_id obj) d).
Proof.
  unfold SelectionDAO.select_by_id. rewrite (proj2 (update_db_tables obj d)).
  induction (t_selection d) as [|r t IH]; [reflexivity|].
  cbn [map filter]. destruct (selection_row.s_id r =? s_id obj) eqn:E.
  - cbn [selection_row.s_id]. rewrite E. cbn [map]. rewrite IH. reflexivity.
  - rewrite E. exact IH.
Qed.

(** X13.  [update] replaces a selection.  When nothing raises, [update]
    returns [True]; read back, the selection carries the name, the round
    and the date given and exactly the stored works among the books given,
    while the other selections keep their works.  It returns [True] as well
    when no row has the key: then [read] finds nothing, yet the
    memberships of the books given are stored under that key. *)
Theorem update_replaces_the_selection (w : World) (obj : Selection) :
  quiet w ->
  exists w' r,
    SelectionDAO.update obj w = (Ok true, w')
    /\ SelectionDAO.read (s_id obj) w' = (Ok r, w')
    /\ (selection_exists (db w) (s_id obj) ->
        exists sel,
          r = Some sel
          /\ s_id sel = s_id obj /\ s_name sel = s_name obj
          /\ s_round sel = s_round obj /\ s_date sel = s_date obj
          /\ forall k, In k (map b_id (book sel))
                       <-> In k (map b_id (book obj)) /\ stored_work (db w) k)
    /\ (~ selection_exists (db w) (s_id obj) ->
        r = None
        /\ forall k, In k (map b_id (book obj)) -> In (k, s_id obj) (t_book_selection (db w')))
    /\ (forall sid k, sid <> s_id obj -> (member (db w') sid k <-> member (db w) sid k)).
Proof.
  destruct w as [d f o]. unfold quiet. cbn [db faults]. intros ->.
  rewrite selection_update_quiet. eexists _, _. split; [reflexivity|].
  rewrite selection_read_quiet. split; [reflexivity|]. cbn [db].
  assert (Hstored : forall k, stored_work (update_db obj d) k <-> stored_work d k).
  { intros k. unfold stored_work. rewrite (proj1 (update_db_tables obj d)). reflexivity. }
  unfold stored_selection. rewrite update_db_select_by_id.
  split; [|split].
  - intros Hex. apply select_by_id_length in Hex.
    destruct (SelectionDAO.select_by_id (s_id obj) d) as [|r0 t] eqn:F; [cbn in Hex; lia|].
    assert (Hin : In r0 (SelectionDAO.select_by_id (s_id obj) d)) by (rewrite F; left; reflexivity).
    apply filter_In in Hin. destruct Hin as [_ Hid]. apply Z.eqb_eq in Hid.
    cbn [map fetchone hd_error option_map]. eexists. split; [reflexivity|].
    unfold selection_of_row. cbn [s_id s_name s_round s_date book selection_row.s_id
                                  selection_row.s_name selection_row.s_round selection_row.s_date].
    split; [exact Hid|]. do 3 (split; [reflexivity|]).
    intros k. rewrite Hid. fold (works_of (update_db obj d) (s_id obj)).
    rewrite works_of_In. unfold member. rewrite update_db_In, Hstored. cbn [fst snd].
    intuition.
  - intros Hno.
    assert (E : SelectionDAO.select_by_id (s_id obj) d = []).
    { destruct (SelectionDAO.select_by_id (s_id obj) d) as [|r0 t] eqn:F; [reflexivity|].
      exfalso. apply Hno. apply select_by_id_length. rewrite F. reflexivity. }
    rewrite E. split; [reflexivity|].
    intros k Hk. apply update_db_In. right. cbn. auto.
  - intros sid k Hsid. unfold member. rewrite update_db_In, Hstored. cbn [fst snd].
    intuition.
Qed.

(** The third selection of the session is updated to the works 5 and 6
    under another name; a selection of key 9 does not exist. *)
Lemma update_replaces_the_selection_witness :
  quiet w_round3
  /\ selection_exists (db w_round3) 3
  /\ exists w' sel,
      SelectionDAO.update (mkSelection 3 "TROIS" 3 None [work 5; work 6]) w_round3
      = (Ok true, w')
      /\ SelectionDAO.read 3 w' = (Ok (Some sel), w')
      /\ s_name sel = "TROIS"
      /\ forall k, In k (map b_id (book sel)) <-> In k [5; 6] /\ stored_work (db w_round3) k.
Proof.
  assert (Hq : quiet w_round3) by (vm_compute; reflexivity).
  assert (Hex : selection_exists (db w_round3) 3).
  { exists (selection_row.mk 3 "TROISIÈME SÉLECTION" 3 (Some (mkDate 2025 10 28))).
    split; [vm_compute; auto 10 | reflexivity]. }
  split; [exact Hq|]. split; [exact Hex|].
  destruct (update_replaces_the_selection
              w_round3 (mkSelection 3 "TROIS" 3 None [work 5; work 6]) Hq)
    as (w' & r & Hrun & Hread & Hsome & _).
  destruct (Hsome Hex) as (sel & -> & _ & Hname & _ & _ & Hbooks).
  exists w', sel. split; [exact Hrun|]. split; [exact Hread|]. split; [exact Hname|].
  exact Hbooks.
Defined.

(** X14.  A selection created is read back.  When nothing raises and the
    keys of the tables are sound, [create] returns a new positive key under
    which [read] finds the name, the round and the date given, and exactly
    the stored works among the books given, each once. *)
Theorem created_selection_is_read_back (w : World) (obj : Selection) :
  quiet w -> db_wf (db w) ->
  exists id w1 sel,
    SelectionDAO.create obj w = (Ok id, w1)
    /\ 0 < id /\ ~ selection_exists (db w) id
    /\ SelectionDAO.read id w1 = (Ok (Some sel), w1)
    /\ s_id sel = id /\ s_name sel = s_name obj
    /\ s_round sel = s_round obj /\ s_date sel = s_date obj
    /\ (forall k, In k (map b_id (book sel))
                  <-> In k (map b_id (book obj)) /\ stored_work (db w) k)
    /\ NoDup (map b_id (book sel)).
Proof.
  destruct w as [d f o]. unfold quiet. cbn [db faults]. intros -> Hwf.
  rewrite create_quiet.
  assert (Hfresh : ~ selection_exists d (selection_auto_increment d)).
  { intros (r & Hin & E). apply (wf_selection_fresh Hwf) in Hin. lia. }
  assert (Hrows : SelectionDAO.select_by_id (selection_auto_increment d) (create_db obj d)
                  = [selection_row.mk (selection_auto_increment d) (s_name obj)
                                      (s_round obj) (s_date obj)]).
  { unfold SelectionDAO.select_by_id.
    destruct (create_db_tables obj d) as (_ & Hs & _). cbn zeta in Hs. rewrite Hs.
    rewrite filter_app. cbn [filter selection_row.s_id]. rewrite Z.eqb_refl.
    rewrite (filter_empty _ (t_selection d)); [reflexivity|].
    intros r Hr. apply Z.eqb_neq. intros E. apply Hfresh. exists r. auto. }
  eexists _, _, _. split; [reflexivity|].
  split; [apply (wf_auto_increment Hwf)|]. split; [exact Hfresh|].
  rewrite selection_read_quiet. unfold stored_selection. rewrite Hrows.
  cbn [fetchone hd_error option_map]. split; [reflexivity|].
  unfold selection_of_row.
  cbn [s_id s_name s_round s_date book selection_row.s_id selection_row.s_name
       selection_row.s_round selection_row.s_date].
  do 4 (split; [reflexivity|]).
  fold (works_of (create_db obj d) (selection_auto_increment d)). split.
  - intros k. rewrite works_of_In. apply (create_db_member_new obj d k Hwf).
  - apply works_of_NoDup, create_db_wf, Hwf.
Qed.

(** A selection of the works 2 and 3 and of a work that is not stored is
    created after the first selection. *)
Lemma created_selection_is_read_back_witness :
  quiet w_round1 /\ db_wf (db w_round1)
  /\ exists id w1 sel,
      SelectionDAO.create (mkSelection 0 "ESSAI" 2 None [work 2; work 3; work 99]) w_round1
      = (Ok id, w1)
      /\ SelectionDAO.read id w1 = (Ok (Some sel), w1)
      /\ s_name sel = "ESSAI"
      /\ forall k, In k (map b_id (book sel))
                   <-> In k [2; 3; 99] /\ stored_work (db w_round1) k.
Proof.
  assert (Hq : quiet w_round1) by reflexivity.
  assert (Hwf : db_wf (db w_round1)) by (apply db_wfb_sound; vm_compute; reflexivity).
  split; [exact Hq|]. split; [exact Hwf|].
  destruct (created_selection_is_read_back
              w_round1 (mkSelection 0 "ESSAI" 2 None [work 2; work 3; work 99]) Hq Hwf)
    as (id & w1 & sel & Hrun & _ & _ & Hread & _ & Hname & _ & _ & Hbooks & _).
  exists id, w1, sel. auto.
Defined.

(** *** [read_all] *)

Lemma filter_insert_by_round n x l :
  filter (fun r => selection_row.s_round r =? n) (insert_by SelectionDAO.round_leb x l)
  = if selection_row.s_round x =? n
    then x :: filter (fun r => selection_row.s_round r =? n) l
    else filter (fun r => selection_row.s_round r =? n) l.
Proof.
  induction l as [|y t IH]; cbn [insert_by filter].
  - destruct (selection_row.s_round x =? n); reflexivity.
  - destruct (SelectionDAO.round_leb x y) eqn:L; cbn [filter].
    + destruct (selection_row.s_round x =? n); reflexivity.
    + rewrite IH. unfold SelectionDAO.round_leb in L. apply Z.leb_gt in L.
      destruct (selection_row.s_round x =? n) eqn:Ex;
        destruct (selection_row.s_round y =? n) eqn:Ey; try reflexivity.
      apply Z.eqb_eq in Ex, Ey. lia.
Qed.

(** ORDER BY s_round keeps the rows of one round in the order of the table. *)
Lemma select_all_by_round n d :
  filter (fun r => selection_row.s_round r =? n) (SelectionDAO.select_all d)
  = SelectionDAO.select_by_round n d.
Proof.
  unfold SelectionDAO.select_all, SelectionDAO.select_by_round.
  induction (t_selection d) as [|x t IH]; [reflexivity|].
  cbn [order_by filter]. rewrite filter_insert_by_round, IH. reflexivity.
Qed.

Lemma find_hd_filter {A} (p : A -> bool) (l : list A) : find p l = hd_error (filter p l).
Proof.
  induction l as [|x l IH]; [reflexivity|]. cbn. destruct (p x); [reflexivity | exact IH].
Qed.

Lemma find_map {A B} (f : A -> B) (p : B -> bool) (l : list A) :
  find p (map f l) = option_map f (find (fun x => p (f x)) l).
Proof.
  induction l as [|x l IH]; [reflexivity|]. cbn. destruct (p (f x)); [reflexivity | exact IH].
Qed.

(** X15.  [read_all] lists every selection once, by ascending round, each
    with its books; and the first selection of a round in the list is the
    one [find_by_round] returns, which the application uses for that round.
    [GoncourtService.get_all_selections] returns the same list. *)
Theorem read_all_lists_rounds_in_order (w : World) :
  quiet w ->
  exists selections,
    SelectionDAO.read_all w = (Ok selections, w)
    /\ GoncourtService.get_all_selections w = (Ok selections, w)
    /\ Permutation selections (map (selection_of_row (db w)) (t_selection (db w)))
    /\ StronglySorted by_round selections
    /\ forall n,
         SelectionDAO.find_by_round n w
         = (Ok (find (fun sel => s_round sel =? n) selections), w).
Proof.
  destruct w as [d f o]. unfold quiet. cbn [db faults]. intros ->.
  unfold GoncourtService.get_all_selections. rewrite selection_read_all_quiet.
  eexists. split; [reflexivity|]. split; [reflexivity|]. split; [|split].
  - apply Permutation_map, order_by_perm.
  - apply StronglySorted_map. unfold SelectionDAO.select_all.
    eapply StronglySorted_impl; [|apply order_by_sorted].
    + intros x y H. unfold by_round, SelectionDAO.round_leb in *. cbn. apply Z.leb_le, H.
    + intros x y. unfold SelectionDAO.round_leb.
      destruct (Z.le_ge_cases (selection_row.s_round x) (selection_row.s_round y));
        [left | right]; apply Z.leb_le; assumption.
    + intros x y z. unfold SelectionDAO.round_leb. rewrite !Z.leb_le. lia.
  - intros n. rewrite find_by_round_quiet. do 2 f_equal.
    rewrite find_map. cbn [selection_of_row s_round].
    rewrite find_hd_filter, select_all_by_round.
    unfold round_selection, round_row, fetchone.
    destruct (hd_error (SelectionDAO.select_by_round n d)); reflexivity.
Qed.

(** In the session the four selections are listed by round. *)
Lemma read_all_lists_rounds_in_order_witness :
  quiet w_round3
  /\ exists selections,
      SelectionDAO.read_all w_round3 = (Ok selections, w_round3)
      /\ map s_round selections = [1; 2; 3; 4]
      /\ StronglySorted by_round selections.
Proof.
  assert (Hq : quiet w_round3) by (vm_compute; reflexivity).
  split; [exact Hq|].
  destruct (read_all_lists_rounds_in_order w_round3 Hq) as (selections & Hrun & _ & _ & Hs & _).
  exists selections. split; [exact Hrun|]. split; [|exact Hs].
  assert (Hmap : option_map (map s_round)
                            (match fst (SelectionDAO.read_all w_round3) with
                             | Ok l => Some l
                             | Raised _ => None
                             end)
                 = Some [1; 2; 3; 4]) by (vm_compute; reflexivity).
  rewrite Hrun in Hmap. cbn in Hmap. injection Hmap as ->. reflexivity.
Defined.

(* ===================================================================== *)
(** ** daos/vote_dao.py: the votes of one selection *)
(* ===================================================================== *)

Lemma flat_map_ext_In {A B} (f g : A -> list B) (l : list A) :
  (forall x, In x l -> f x = g x) -> flat_map f l = flat_map g l.
Proof.
  induction l as [|x l IH]; intros H; [reflexivity|]. cbn.
  rewrite (H x (or_introl eq_refl)), IH; [reflexivity|].
  intros y Hy. apply H. right. exact Hy.
Qed.

Lemma selection_key_injective d r1 r2 :
  db_wf d -> In r1 (t_selection d) -> In r2 (t_selection d) ->
  selection_row.s_id r1 = selection_row.s_id r2 -> r1 = r2.
Proof.
  intros Hwf. pose proof (wf_selection_key Hwf) as Hnd.
  induction (t_selection d) as [|r t IH]; intros H1 H2 E; [destruct H1|].
  cbn in Hnd. apply NoDup_cons_iff in Hnd. destruct Hnd as [Hr Hnd].
  destruct H1 as [<- | H1], H2 as [<- | H2].
  - reflexivity.
  - exfalso. apply Hr. rewrite E. apply in_map, H2.
  - exfalso. apply Hr. rewrite <- E. apply in_map, H1.
  - apply (IH Hnd H1 H2 E).
Qed.

Lemma votes_of_final_selection_join d row :
  db_wf d -> one_final_selection d -> round_row d 4 = Some row ->
  VoteDAO.select_where (fun v => vote_row.s_id v =? selection_row.s_id row) d = final_join d.
Proof.
  intros Hwf Hone Hrow. unfold VoteDAO.select_where, final_join, join_vote.
  pose proof (round_row_Some d 4 row Hrow) as [Hin H4].
  apply flat_map_ext_In. intros v Hv.
  apply flat_map_ext_In. intros b _.
  apply flat_map_ext_In. intros s Hs.
  destruct (vote_row.b_id v =? b_id b); [|reflexivity]. cbn [andb].
  destruct (vote_row.s_id v =? selection_row.s_id s) eqn:Es; [|reflexivity]. cbn [andb].
  apply Z.eqb_eq in Es.
  destruct (selection_row.s_round s =? 4) eqn:E4.
  - assert (H : round4_row d v = true).
    { unfold round4_row. apply existsb_exists. exists s. split; [exact Hs|].
      rewrite Es, Z.eqb_refl, E4. reflexivity. }
    rewrite (Hone v row Hrow Hv H), Z.eqb_refl. reflexivity.
  - destruct (vote_row.s_id v =? selection_row.s_id row) eqn:Er; [|reflexivity].
    apply Z.eqb_eq in Er. rewrite Es in Er.
    rewrite (selection_key_injective d s row Hwf Hs Hin Er), H4 in E4. discriminate.
Qed.

Lemma get_votes_by_selection_quiet sid d o :
  VoteDAO.get_votes_by_selection sid (mkWorld d [] o)
  = (Ok (map (vote_of_result d) (VoteDAO.select_by_selection sid d)), mkWorld d [] o).
Proof.
  unfold VoteDAO.get_votes_by_selection, try_except, bind at 1. unfold query, execute.
  cbn [db faults stdout]. rewrite create_votes_quiet. reflexivity.
Qed.

(** X16.  The votes of the final selection are the results.  When nothing
    raises, the keys of the tables are sound and the votes of round 4 all
    belong to the final selection in use, [get_votes_by_selection] called
    with the key of that selection returns the list [get_final_results]
    returns, in the same order. *)
Theorem votes_of_final_selection_are_the_results (w : World) (row : selection_row.t) :
  quiet w -> db_wf (db w) -> one_final_selection (db w) ->
  round_row (db w) 4 = Some row ->
  exists votes,
    VoteDAO.get_votes_by_selection (selection_row.s_id row) w = (Ok votes, w)
    /\ GoncourtService.get_final_results w = (Ok votes, w)
    /\ StronglySorted by_votes_desc votes.
Proof.
  destruct w as [d f o]. unfold quiet. cbn [db faults]. intros -> Hwf Hone Hrow.
  rewrite get_votes_by_selection_quiet.
  unfold GoncourtService.get_final_results. rewrite get_final_results_quiet.
  eexists. split; [reflexivity|]. split; [|].
  - unfold VoteDAO.select_by_selection.
    rewrite (votes_of_final_selection_join d row Hwf Hone Hrow), select_final_results_join.
    reflexivity.
  - unfold VoteDAO.select_by_selection.
    rewrite (votes_of_final_selection_join d row Hwf Hone Hrow).
    rewrite <- select_final_results_join. apply results_sorted.
Qed.

(** After the votes of the session, the votes of selection 4 are the
    results. *)
Lemma votes_of_final_selection_are_the_results_witness :
  quiet w_votes /\ db_wf (db w_votes)
  /\ exists votes,
      VoteDAO.get_votes_by_selection 4 w_votes = (Ok votes, w_votes)
      /\ GoncourtService.get_final_results w_votes = (Ok votes, w_votes)
      /\ StronglySorted by_votes_desc votes.
Proof.
  assert (Hq : quiet w_votes) by (vm_compute; reflexivity).
  assert (Hwf : db_wf (db w_votes)) by (apply db_wfb_sound; vm_compute; reflexivity).
  assert (Hrow : round_row (db w_votes) 4
                 = Some (selection_row.mk 4 "FINALISTES DU PRIX GONCOURT" 4
                                          (Some (mkDate 2025 11 4))))
    by (vm_compute; reflexivity).
  assert (Hsids : forallb (fun v => vote_row.s_id v =? 4) (t_vote (db w_votes)) = true)
    by (vm_compute; reflexivity).
  assert (Hone : one_final_selection (db w_votes)).
  { intros v row Hr Hv _. rewrite Hrow in Hr. injection Hr as <-. cbn.
    apply Z.eqb_eq. apply (proj1 (forallb_forall _ _) Hsids v Hv). }
  split; [exact Hq|]. split; [exact Hwf|].
  exact (votes_of_final_selection_are_the_results
           w_votes (selection_row.mk 4 "FINALISTES DU PRIX GONCOURT" 4
                                     (Some (mkDate 2025 11 4)))
           Hq Hwf Hone Hrow).
Defined.

(* ===================================================================== *)
(** ** business/goncourt.py: the state the menus rely on *)
(* ===================================================================== *)

Lemma create_votes_sound results : forall w,
  exists votes w',
    VoteDAO.create_votes results w = (Ok votes, w') /\ db w' = db w
    /\ List.length votes = List.length results.
Proof.
  induction results as [|[[v b] s] rest IH]; intros w; cbn [VoteDAO.create_votes].
  - eexists _, _. split; [reflexivity|]. split; reflexivity.
  - unfold bind at 1, VoteDAO._create_vote_from_result, bind at 1.
    destruct (read_sound (vote_row.b_id v) w) as (r & w1 & -> & Hd & _).
    unfold ret at 1.
    destruct (IH w1) as (votes & w2 & Hrun & Hd2 & Hlen).
    unfold bind. rewrite Hrun. unfold ret.
    eexists _, _. split; [reflexivity|]. split; [congruence|]. cbn. rewrite Hlen. reflexivity.
Qed.

Lemma dao_get_final_results_sound w :
  exists votes w',
    VoteDAO.get_final_results w = (Ok votes, w') /\ db w' = db w
    /\ (votes <> [] -> final_join (db w) <> []).
Proof.
  unfold VoteDAO.get_final_results, try_except, bind at 1.
  destruct (query_cases VoteDAO.select_final_results w)
    as [(w1 & -> & Hd & _) | (w1 & -> & Hd & _)].
  - unfold bind, print, ret. cbn [db faults stdout].
    eexists _, _. split; [reflexivity|]. split; [exact Hd|]. intros H. contradiction.
  - destruct (create_votes_sound (VoteDAO.select_final_results (db w)) w1)
      as (votes & w2 & -> & Hd2 & Hlen).
    eexists _, _. split; [reflexivity|]. split; [congruence|].
    intros Hv Hj. apply Hv.
    rewrite select_final_results_join, order_by_length, Hj in Hlen.
    destruct votes; [reflexivity | discriminate].
Qed.

Lemma found_round_exists n w r w' :
  SelectionDAO.find_by_round n w = (Ok r, w') ->
  GoncourtService.is_not_None r = true -> round_exists (db w) n.
Proof.
  intros Hrun Hr. destruct (find_by_round_sound n w) as (r' & w'' & Hrun' & _ & Hsel).
  rewrite Hrun in Hrun'. injection Hrun' as <- <-.
  destruct r as [sel|]; [|discriminate].
  destruct (Hsel sel eq_refl) as (row & Hrow & _).
  apply round_exists_row. eauto.
Qed.

Lemma round_exists_selection d n :
  round_exists d n -> GoncourtService.is_not_None (round_selection d n) = true.
Proof.
  intros H. apply round_exists_row in H. destruct H as (row & Hrow).
  unfold round_selection. rewrite Hrow. reflexivity.
Qed.

(** X17.  The flags of [get_current_state] never claim what is not there.
    Whatever raises, the call returns without writing, and a flag that is
    [True] is right: the round has a row, and for [votes_recorded] a vote
    of a stored work belongs to a selection of round 4.  When nothing
    raises the flags are exact.  (A fault can only turn a flag to [False].) *)
Theorem state_flags_are_sound (w : World) :
  exists state w',
    GoncourtService.get_current_state w = (Ok state, w')
    /\ db w' = db w
    /\ (GoncourtService.premiere_selection state = true -> round_exists (db w) 1)
    /\ (GoncourtService.deuxieme_selection state = true -> round_exists (db w) 2)
    /\ (GoncourtService.troisieme_selection state = true -> round_exists (db w) 3)
    /\ (GoncourtService.final_selection state = true -> round_exists (db w) 4)
    /\ (GoncourtService.votes_recorded state = true ->
        exists v, In v (t_vote (db w)) /\ round4_row (db w) v = true
                  /\ stored_work (db w) (vote_row.b_id v))
    /\ (quiet w ->
        (round_exists (db w) 1 -> GoncourtService.premiere_selection state = true)
        /\ (round_exists (db w) 2 -> GoncourtService.deuxieme_selection state = true)
        /\ (round_exists (db w) 3 -> GoncourtService.troisieme_selection state = true)
        /\ (round_exists (db w) 4 -> GoncourtService.final_selection state = true)
        /\ ((exists v, In v (t_vote (db w)) /\ round4_row (db w) v = true
                       /\ stored_work (db w) (vote_row.b_id v))
            -> GoncourtService.votes_recorded state = true)).
Proof.
  unfold GoncourtService.get_current_state.
  destruct (find_by_round_sound 1 w) as (r1 & w1 & Hrun1 & Hd1 & _).
  destruct (find_by_round_sound 2 w1) as (r2 & w2 & Hrun2 & Hd2 & _).
  destruct (find_by_round_sound 3 w2) as (r3 & w3 & Hrun3 & Hd3 & _).
  destruct (find_by_round_sound 4 w3) as (r4 & w4 & Hrun4 & Hd4 & _).
  destruct (dao_get_final_results_sound w4) as (votes & w5 & Hrun5 & Hd5 & Hvotes).
  unfold bind at 1. rewrite Hrun1. unfold bind at 1. rewrite Hrun2.
  unfold bind at 1. rewrite Hrun3. unfold bind at 1. rewrite Hrun4.
  unfold bind. rewrite Hrun5. unfold ret.
  assert (E1 : db w1 = db w) by exact Hd1.
  assert (E2 : db w2 = db w) by congruence.
  assert (E3 : db w3 = db w) by congruence.
  assert (E4 : db w4 = db w) by congruence.
  eexists _, _. split; [reflexivity|]. split; [congruence|].
  cbn [GoncourtService.premiere_selection GoncourtService.deuxieme_selection
       GoncourtService.troisieme_selection GoncourtService.final_selection
       GoncourtService.votes_recorded].
  split; [apply (found_round_exists 1 w r1 w1 Hrun1)|].
  split; [rewrite <- E1; apply (found_round_exists 2 w1 r2 w2 Hrun2)|].
  split; [rewrite <- E2; apply (found_round_exists 3 w2 r3 w3 Hrun3)|].
  split; [rewrite <- E3; apply (found_round_exists 4 w3 r4 w4 Hrun4)|].
  split.
  - intros Hlen. rewrite <- E4.
    assert (Hne : votes <> []) by (intros ->; discriminate Hlen).
    specialize (Hvotes Hne).
    destruct (final_join (db w4)) as [|[[v b] s] t] eqn:Ej; [contradiction|].
    assert (Hin : In (v, b, s) (final_join (db w4))) by (rewrite Ej; left; reflexivity).
    apply final_join_In in Hin. destruct Hin as (Hv & Hb & Hs & Eb & Es & E4').
    exists v. split; [exact Hv|]. split.
    + unfold round4_row. apply existsb_exists. exists s. split; [exact Hs|].
      rewrite Es, E4', !Z.eqb_refl. reflexivity.
    + exists b. auto.
  - intros Hq. destruct w as [d f o]. unfold quiet in Hq. cbn [db faults stdout] in *. subst f.
    rewrite find_by_round_quiet in Hrun1. injection Hrun1 as <- <-.
    rewrite find_by_round_quiet in Hrun2. injection Hrun2 as <- <-.
    rewrite find_by_round_quiet in Hrun3. injection Hrun3 as <- <-.
    rewrite find_by_round_quiet in Hrun4. injection Hrun4 as <- <-.
    rewrite get_final_results_quiet in Hrun5. injection Hrun5 as <- <-.
    split; [apply round_exists_selection|]. split; [apply round_exists_selection|].
    split; [apply round_exists_selection|]. split; [apply round_exists_selection|].
    intros (v & Hv & H4 & (b & Hb & Eb)).
    unfold round4_row in H4. apply existsb_exists in H4. destruct H4 as (s & Hs & H4).
    apply andb_true_iff in H4. destruct H4 as [Es E4']. apply Z.eqb_eq in Es, E4'.
    assert (Hin : In (v, b, s) (final_join d)).
    { apply final_join_In. auto 10. }
    rewrite length_map, select_final_results_join, order_by_length.
    destruct (final_join d); [destruct Hin | reflexivity].
Qed.

(** After the votes of the session, the final selection and the votes are
    reported. *)
Lemma state_flags_are_sound_witness :
  quiet w_votes
  /\ exists state w',
      GoncourtService.get_current_state w_votes = (Ok state, w')
      /\ GoncourtService.final_selection state = true
      /\ GoncourtService.votes_recorded state = true.
Proof.
  assert (Hq : quiet w_votes) by (vm_compute; reflexivity).
  split; [exact Hq|].
  destruct (state_flags_are_sound w_votes)
    as (state & w' & Hrun & _ & _ & _ & _ & _ & _ & Hexact).
  destruct (Hexact Hq) as (_ & _ & _ & H4 & Hv).
  exists state, w'. split; [exact Hrun|]. split.
  - apply H4. apply round_exists_row.
    exists (selection_row.mk 4 "FINALISTES DU PRIX GONCOURT" 4 (Some (mkDate 2025 11 4))).
    vm_compute. reflexivity.
  - apply Hv.
    assert (Hex : existsb (fun v => round4_row (db w_votes) v
                                    && existsb (fun b => b_id b =? vote_row.b_id v)
                                               (t_book (db w_votes)))
                          (t_vote (db w_votes)) = true) by (vm_compute; reflexivity).
    apply existsb_exists in Hex. destruct Hex as (v & Hin & H).
    apply andb_true_iff in H. destruct H as [Hr Hb].
    apply existsb_exists in Hb. destruct Hb as (b & Hb & E). apply Z.eqb_eq in E.
    exists v. split; [exact Hin|]. split; [exact Hr|]. exists b.
    split; [exact Hb | exact E].
Defined.

(* ===================================================================== *)
(** ** daos/vote_dao.py: create, read and delete *)
(* ===================================================================== *)

Lemma select_where_none keep d :
  (forall v, In v (t_vote d) -> keep v = false) -> VoteDAO.select_where keep d = [].
Proof.
  intros H. unfold VoteDAO.select_where. apply flat_map_nil. intros v Hv.
  apply flat_map_nil. intros b _. apply flat_map_nil. intros s _.
  rewrite (H v Hv), andb_false_r. reflexivity.
Qed.

(** The join of one vote whose work and selection are stored. *)
Lemma join_of_vote d v :
  db_wf d -> stored_work d (vote_row.b_id v) -> selection_exists d (vote_row.s_id v) ->
  exists b s,
    In b (t_book d) /\ b_id b = vote_row.b_id v
    /\ In s (t_selection d) /\ selection_row.s_id s = vote_row.s_id v
    /\ flat_map (fun b0 =>
         flat_map (fun s0 =>
                     if (vote_row.b_id v =? b_id b0)
                        && (vote_row.s_id v =? selection_row.s_id s0)
                        && true
                     then [(v, b0, s0)] else [])
                  (t_selection d))
         (t_book d)
       = [(v, b, s)].
Proof.
  intros Hwf Hb (s & Hs & Es).
  destruct (find_key_stored d (vote_row.b_id v) Hb) as (b & Fb).
  pose proof (find_some _ _ Fb) as [Hinb Eb]. apply Z.eqb_eq in Eb.
  assert (Fs : exists s', find (fun s0 => selection_row.s_id s0 =? vote_row.s_id v)
                               (t_selection d) = Some s').
  { destruct (find _ (t_selection d)) as [s'|] eqn:F; [eauto|].
    apply (find_none _ _ F) in Hs. apply Z.eqb_neq in Hs. contradiction. }
  destruct Fs as (s' & Fs).
  pose proof (find_some _ _ Fs) as [Hins Es']. apply Z.eqb_eq in Es'.
  exists b, s'. split; [exact Hinb|]. split; [exact Eb|]. split; [exact Hins|].
  split; [exact Es'|].
  rewrite (flat_map_select b_id (vote_row.b_id v) _ (t_book d) (wf_book_key Hwf)).
  - rewrite Fb.
    rewrite (flat_map_select selection_row.s_id (vote_row.s_id v) _ (t_selection d)
                             (wf_selection_key Hwf)).
    + rewrite Fs, Eb, Es', !Z.eqb_refl. reflexivity.
    + intros s0 Hne. apply not_eq_sym, Z.eqb_neq in Hne.
      rewrite Hne, andb_false_r. reflexivity.
  - intros b0 Hne. apply flat_map_nil. intros s0 _.
    apply not_eq_sym, Z.eqb_neq in Hne. rewrite Hne. reflexivity.
Qed.

Lemma vote_create_quiet obj b d o :
  v_book obj = Some b ->
  VoteDAO.create obj (mkWorld d [] o)
  = (Ok (vote_auto_increment d),
     mkWorld (snd (VoteDAO.insert_vote (v_number_vote obj) (v_date_vote obj) (b_id b)
                                       (s_id (selection obj)) d))
             [] o).
Proof. intros Hb. unfold VoteDAO.create. rewrite Hb. reflexivity. Qed.

Lemma vote_read_quiet pk d o :
  VoteDAO.read pk (mkWorld d [] o)
  = (Ok (option_map (vote_of_result d) (fetchone (VoteDAO.select_by_id pk d))),
     mkWorld d [] o).
Proof.
  unfold VoteDAO.read, try_except, bind at 1. unfold query, execute.
  cbn [db faults stdout].
  destruct (fetchone (VoteDAO.select_by_id pk d)) as [[[v b] s]|]; [|reflexivity].
  unfold bind, VoteDAO._create_vote_from_result, bind. rewrite read_quiet. reflexivity.
Qed.

Lemma vote_delete_quiet pk d o :
  VoteDAO.delete pk (mkWorld d [] o)
  = (Ok (0 <? fst (VoteDAO.delete_vote pk d)), mkWorld (snd (VoteDAO.delete_vote pk d)) [] o).
Proof. reflexivity. Qed.

(** X18.  A vote created is read back and can be deleted.  A vote object
    without a book is refused whatever the state: [create] returns 0 and
    writes nothing.  When nothing raises, the keys are sound and the work
    and the selection of the vote are stored, [create] returns the next
    key of table [vote]; [read] then finds the count, the date, the work
    and the selection given; [delete] returns [True] and gives back the
    table of before, after which [read] finds nothing. *)
Theorem vote_round_trip (w : World) (obj : Vote) :
  (v_book obj = None -> exists w', VoteDAO.create obj w = (Ok 0, w') /\ db w' = db w)
  /\ (forall b,
        quiet w -> db_wf (db w) -> votes_fresh (db w) ->
        v_book obj = Some b -> stored_work (db w) (b_id b) ->
        selection_exists (db w) (s_id (selection obj)) ->
        exists w1 vote w2,
          VoteDAO.create obj w = (Ok (vote_auto_increment (db w)), w1)
          /\ VoteDAO.read (vote_auto_increment (db w)) w1 = (Ok (Some vote), w1)
          /\ v_id vote = vote_auto_increment (db w)
          /\ v_number_vote vote = v_number_vote obj
          /\ v_date_vote vote = v_date_vote obj
          /\ option_map b_id (v_book vote) = Some (b_id b)
          /\ s_id (selection vote) = s_id (selection obj)
          /\ VoteDAO.delete (vote_auto_increment (db w)) w1 = (Ok true, w2)
          /\ t_vote (db w2) = t_vote (db w)
          /\ VoteDAO.read (vote_auto_increment (db w)) w2 = (Ok None, w2)).
Proof.
  split.
  - intros Hb. unfold VoteDAO.create, try_except. rewrite Hb.
    unfold raise, bind, print, ret. cbn [db faults stdout].
    eexists. split; reflexivity.
  - destruct w as [d f o]. unfold quiet. cbn [db faults].
    intros b -> Hwf Hfresh Hb Hstored Hsel.
    rewrite (vote_create_quiet obj b d o Hb).
    set (id := vote_auto_increment d).
    set (new := vote_row.mk id (v_number_vote obj) (v_date_vote obj) (b_id b)
                            (s_id (selection obj))).
    set (d1 := snd (VoteDAO.insert_vote (v_number_vote obj) (v_date_vote obj) (b_id b)
                                        (s_id (selection obj)) d)).
    assert (Hold : forall v, In v (t_vote d) -> (vote_row.v_id v =? id) = false).
    { intros v Hv. apply Z.eqb_neq. specialize (Hfresh v Hv). unfold id. lia. }
    assert (Hwf1 : db_wf d1).
    { apply (db_wf_vote_statement d d1); try reflexivity. exact Hwf. }
    destruct (join_of_vote d new Hwf Hstored Hsel) as (b' & s' & Hinb & Eb & Hins & Es & Hjoin).
    assert (Hsel1 : VoteDAO.select_by_id id d1 = [(new, b', s')]).
    { unfold VoteDAO.select_by_id, VoteDAO.select_where.
      change (t_vote d1) with (t_vote d ++ [new]).
      change (t_book d1) with (t_book d). change (t_selection d1) with (t_selection d).
      rewrite flat_map_app.
      rewrite (flat_map_nil _ (t_vote d)).
      - cbn [flat_map app]. rewrite app_nil_r.
        change (vote_row.v_id new =? id) with (id =? id). rewrite Z.eqb_refl. exact Hjoin.
      - intros v Hv. apply flat_map_nil. intros b0 _. apply flat_map_nil. intros s0 _.
        rewrite (Hold v Hv), andb_false_r. reflexivity. }
    assert (Hbook : exists b1, fetchone (BookDAO.select_by_id (b_id b) d1) = Some b1
                               /\ b_id b1 = b_id b).
    { destruct (fetchone (BookDAO.select_by_id (b_id b) d1)) as [b1|] eqn:F.
      - exists b1. split; [reflexivity|]. apply (select_by_id_Some _ _ _ F).
      - exfalso. apply (proj1 (select_by_id_None (b_id b) d1) F). exact Hstored. }
    destruct Hbook as (b1 & Fb1 & Eb1).
    assert (Hdel : t_vote (snd (VoteDAO.delete_vote id d1)) = t_vote d).
    { cbn [VoteDAO.delete_vote snd t_vote]. change (t_vote d1) with (t_vote d ++ [new]).
      rewrite filter_app. cbn [filter vote_row.v_id new]. rewrite Z.eqb_refl. cbn [negb].
      rewrite app_nil_r. apply filter_all. intros v Hv. apply negb_true_iff.
      apply (Hold v Hv). }
    eexists _, _, _. split; [reflexivity|].
    rewrite vote_read_quiet, Hsel1. cbn [fetchone hd_error option_map vote_of_result].
    change (vote_row.b_id new) with (b_id b). rewrite Fb1.
    split; [reflexivity|]. cbn [v_id v_number_vote v_date_vote v_book selection s_id option_map].
    do 3 (split; [reflexivity|]). split; [rewrite Eb1; reflexivity|]. split; [reflexivity|].
    rewrite vote_delete_quiet.
    assert (Hcount : (0 <? fst (VoteDAO.delete_vote id d1)) = true).
    { cbn [VoteDAO.delete_vote fst]. change (t_vote d1) with (t_vote d ++ [new]).
      rewrite filter_app, length_app. cbn [filter vote_row.v_id new].
      rewrite Z.eqb_refl. cbn [List.length]. apply Z.ltb_lt. lia. }
    rewrite Hcount. split; [reflexivity|]. cbn [db]. split; [exact Hdel|].
    rewrite vote_read_quiet.
    unfold VoteDAO.select_by_id. rewrite select_where_none; [reflexivity|].
    intros v Hv. rewrite Hdel in Hv. apply (Hold v Hv).
Qed.

(** After the votes of the session, a vote of 5 for work 9 in the second
    selection is created, read and deleted. *)
Lemma vote_round_trip_witness :
  quiet w_votes /\ db_wf (db w_votes) /\ votes_fresh (db w_votes)
  /\ exists w1 vote w2,
      VoteDAO.create (mkVote 0 5 (mkDate 2025 11 5) (Some (work 9))
                             (mkSelection 2 "" 2 None []))
                     w_votes = (Ok 5, w1)
      /\ VoteDAO.read 5 w1 = (Ok (Some vote), w1)
      /\ v_number_vote vote = 5
      /\ VoteDAO.delete 5 w1 = (Ok true, w2)
      /\ t_vote (db w2) = t_vote (db w_votes).
Proof.
  assert (Hq : quiet w_votes) by (vm_compute; reflexivity).
  assert (Hwf : db_wf (db w_votes)) by (apply db_wfb_sound; vm_compute; reflexivity).
  assert (Hnext : vote_auto_increment (db w_votes) = 5) by (vm_compute; reflexivity).
  assert (Hids : forallb (fun v => vote_row.v_id v <? 5) (t_vote (db w_votes)) = true)
    by (vm_compute; reflexivity).
  assert (Hfresh : votes_fresh (db w_votes)).
  { intros v Hv. rewrite Hnext. apply Z.ltb_lt.
    apply (proj1 (forallb_forall _ _) Hids v Hv). }
  assert (Hstored : stored_work (db w_votes) 9).
  { exists (work 9). split; [vm_compute; auto 20 | reflexivity]. }
  assert (Hsel : selection_exists (db w_votes) 2).
  { exists (selection_row.mk 2 "DEUXIÈME SÉLECTION" 2 (Some (mkDate 2025 10 7))).
    split; [vm_compute; auto 10 | reflexivity]. }
  split; [exact Hq|]. split; [exact Hwf|]. split; [exact Hfresh|].
  destruct (proj2 (vote_round_trip
                     w_votes (mkVote 0 5 (mkDate 2025 11 5) (Some (work 9))
                                     (mkSelection 2 "" 2 None [])))
                  (work 9) Hq Hwf Hfresh eq_refl Hstored Hsel)
    as (w1 & vote & w2 & Hcreate & Hread & _ & Hn & _ & _ & _ & Hdel & Hv & _).
  rewrite Hnext in Hcreate, Hread, Hdel.
  exists w1, vote, w2. auto.
Defined.

(* ===================================================================== *)
(** ** main.py: choices that are refused *)
(* ===================================================================== *)

Lemma wrong_count (size : Z) (numbers : list Z) :
  Z.of_nat (List.length numbers) <> size ->
  negb (Z.of_nat (List.length (map (fun n => n - 1) numbers)) =? size) = true.
Proof.
  intros H. rewrite length_map. apply negb_true_iff, Z.eqb_neq, H.
Qed.

Lemma app_create_deuxieme_selection_refuses (J : Database -> Prop) n E replace numbers :
  numbers = None
  \/ (exists l, numbers = Some l /\ Z.of_nat (List.length l) <> 8) ->
  hoare (inv J n) (GoncourtApplication.create_deuxieme_selection replace numbers)
        (fun _ => inv J n) E.
Proof.
  intros [-> | (l & -> & Hlen)]; unfold GoncourtApplication.create_deuxieme_selection.
  - keeps_step (inv J n).
  - cbv zeta. rewrite (wrong_count 8 l Hlen). keeps_step (inv J n).
Qed.

Lemma app_create_troisieme_selection_refuses (J : Database -> Prop) n E replace numbers :
  numbers = None
  \/ (exists l, numbers = Some l /\ Z.of_nat (List.length l) <> 4) ->
  hoare (inv J n) (GoncourtApplication.create_troisieme_selection replace numbers)
        (fun _ => inv J n) E.
Proof.
  intros [-> | (l & -> & Hlen)]; unfold GoncourtApplication.create_troisieme_selection.
  - keeps_step (inv J n).
  - cbv zeta. rewrite (wrong_count 4 l Hlen). keeps_step (inv J n).
Qed.

(** X19.  A malformed choice writes nothing.  Whatever raises, when the
    line typed for the second (third) selection is not a list of integers,
    or does not hold exactly 8 (4) numbers, the president's action returns
    and leaves every table as it was: the service is not called. *)
Theorem malformed_choice_writes_nothing
        (w : World) (replace : string) (numbers : option (list Z)) :
  (numbers = None \/ (exists l, numbers = Some l /\ Z.of_nat (List.length l) <> 8) ->
   returns (GoncourtApplication.create_deuxieme_selection replace numbers) w
           (fun _ w' => db w' = db w))
  /\ (numbers = None \/ (exists l, numbers = Some l /\ Z.of_nat (List.length l) <> 4) ->
      returns (GoncourtApplication.create_troisieme_selection replace numbers) w
              (fun _ w' => db w' = db w)).
Proof.
  split; intros Hbad.
  - apply (kept_returns (fun d => d = db w)); [|reflexivity].
    apply app_create_deuxieme_selection_refuses, Hbad.
  - apply (kept_returns (fun d => d = db w)); [|reflexivity].
    apply app_create_troisieme_selection_refuses, Hbad.
Qed.

(** Seven numbers are typed for the second selection while the server
    loses statements. *)
Lemma malformed_choice_writes_nothing_witness :
  returns (GoncourtApplication.create_deuxieme_selection "" (Some [1; 2; 3; 4; 5; 6; 7]))
          w_round1_flaky
          (fun _ w' => db w' = db w_round1_flaky).
Proof.
  assert (Hbad : Some [1; 2; 3; 4; 5; 6; 7] = None
                 \/ (exists l, Some [1; 2; 3; 4; 5; 6; 7] = Some l
                                /\ Z.of_nat (List.length l) <> 8)).
  { right. exists [1; 2; 3; 4; 5; 6; 7]. split; [reflexivity | cbn; lia]. }
  apply (proj1 (malformed_choice_writes_nothing
                  w_round1_flaky "" (Some [1; 2; 3; 4; 5; 6; 7])) Hbad).
Defined.

(* ===================================================================== *)
(** ** business/goncourt.py: the books offered for a selection *)
(* ===================================================================== *)

Lemma book_read_all_sound w :
  exists books w',
    BookDAO.read_all w = (Ok books, w') /\ db w' = db w
    /\ (forall b, In b books -> In b (t_book (db w)))
    /\ (quiet w -> books = BookDAO.select_all (db w)).
Proof.
  unfold BookDAO.read_all, try_except.
  destruct (query_cases BookDAO.select_all w) as [(w1 & Hq & Hd & _) | (w1 & Hq & Hd & _)];
    rewrite Hq.
  - unfold bind, print, ret. cbn [db faults stdout].
    eexists _, _. split; [reflexivity|]. split; [exact Hd|]. split; [intros b []|].
    intros Hquiet. destruct w as [d f o]. unfold quiet in Hquiet. cbn in Hquiet. subst f.
    discriminate Hq.
  - eexists _, _. split; [reflexivity|]. split; [exact Hd|]. split; [|reflexivity].
    intros b Hb. apply select_all_In, Hb.
Qed.

(** X20.  The books offered for a selection are those of the round before.
    For a round number other than 1, 2 and 3 the service returns no book
    and sends no statement.  For round 2 (3) it returns, whatever raises,
    only stored books of the first (second) selection, and exactly that
    selection when nothing raises; for round 1, only stored books, and
    every book once when nothing raises. *)
Theorem offered_books_are_the_previous_round (w : World) (round_number : Z) :
  (round_number <> 1 -> round_number <> 2 -> round_number <> 3 ->
   GoncourtService.get_available_books_for_selection round_number w = (Ok [], w))
  /\ (round_number = 2 \/ round_number = 3 ->
      exists books w',
        GoncourtService.get_available_books_for_selection round_number w = (Ok books, w')
        /\ db w' = db w
        /\ (forall b, In b books ->
                      In b (t_book (db w)) /\ in_round (db w) (round_number - 1) (b_id b))
        /\ (quiet w ->
            round_works (db w) (round_number - 1) = Some (map b_id books)
            \/ (round_works (db w) (round_number - 1) = None /\ books = [])))
  /\ (round_number = 1 ->
      exists books w',
        GoncourtService.get_available_books_for_selection round_number w = (Ok books, w')
        /\ db w' = db w
        /\ (forall b, In b books -> In b (t_book (db w)))
        /\ (quiet w -> Permutation books (t_book (db w)))).
Proof.
  assert (Hprev : forall k,
             exists books w',
               (premiere <- SelectionDAO.find_by_round k ;;
                ret (match premiere with Some p => book p | None => [] end)) w
               = (Ok books, w')
               /\ db w' = db w
               /\ (forall b, In b books -> In b (t_book (db w)) /\ in_round (db w) k (b_id b))
               /\ (quiet w ->
                   round_works (db w) k = Some (map b_id books)
                   \/ (round_works (db w) k = None /\ books = []))).
  { intros k. destruct (find_by_round_sound k w) as (r & w1 & Hrun & Hd & Hsel).
    unfold bind. rewrite Hrun. unfold ret. eexists _, _. split; [reflexivity|].
    split; [exact Hd|]. split.
    - intros b Hb. destruct r as [sel|]; [|destruct Hb].
      destruct (Hsel sel eq_refl) as (row & Hrow & Hbooks).
      apply Hbooks, select_by_selection_In in Hb. destruct Hb as [Hin Hm].
      split; [exact Hin|]. exists row. split; [exact Hrow|]. split; [exact Hm|].
      exists b. auto.
    - intros Hq. destruct w as [d f o]. unfold quiet in Hq. cbn [db faults] in *. subst f.
      rewrite find_by_round_quiet in Hrun. injection Hrun as <- _.
      destruct (round_selection d k) as [sel|] eqn:Es.
      + left. destruct (round_selection_works d k sel Es) as (row & _ & _ & Hw). exact Hw.
      + right. split; [apply round_works_None, round_selection_None, Es | reflexivity]. }
  unfold GoncourtService.get_available_books_for_selection. split; [|split].
  - intros H1 H2 H3.
    apply Z.eqb_neq in H1, H2, H3. rewrite H1, H2, H3. reflexivity.
  - intros [-> | ->]; cbn [Z.eqb Pos.eqb Z.sub Z.add Z.opp Z.pos_sub Pos.pred_double].
    + apply (Hprev 1).
    + apply (Hprev 2).
  - intros ->. cbn [Z.eqb Pos.eqb].
    destruct (book_read_all_sound w) as (books & w' & Hrun & Hd & Hin & Hq).
    exists books, w'. split; [exact Hrun|]. split; [exact Hd|]. split; [exact Hin|].
    intros Hquiet. rewrite (Hq Hquiet). apply order_by_perm.
Qed.

(** After the first selection of the session, the books offered for the
    second selection are its fifteen works. *)
Lemma offered_books_are_the_previous_round_witness :
  quiet w_round1
  /\ exists books w',
      GoncourtService.get_available_books_for_selection 2 w_round1 = (Ok books, w')
      /\ map b_id books = [1; 2; 3; 4; 5; 6; 7; 8; 9; 10; 11; 12; 13; 14; 15].
Proof.
  assert (Hq : quiet w_round1) by (vm_compute; reflexivity).
  split; [exact Hq|].
  destruct (offered_books_are_the_previous_round w_round1 2) as (_ & H & _).
  destruct (H (or_introl eq_refl)) as (books & w' & Hrun & _ & _ & Hexact).
  exists books, w'. split; [exact Hrun|].
  assert (H1 : round_works (db w_round1) (2 - 1)
               = Some [1; 2; 3; 4; 5; 6; 7; 8; 9; 10; 11; 12; 13; 14; 15])
    by (vm_compute; reflexivity).
  destruct (Hexact Hq) as [Hw | [Hn _]].
  - rewrite H1 in Hw. injection Hw as Hw. symmetry. exact Hw.
  - rewrite H1 in Hn. discriminate.
Defined.
